(** * Search-tool layer of the research assistant: a shallow embedding

    The tools under [src/mastra/tools] (arXiv, Semantic Scholar, J-STAGE,
    CORE and the top-conference fallback) are embedded as functions over
    an explicit store (the module-level [let] variables), an explicit
    world (clock readings, the outcome of [fetch], the body of the
    response) and a trace of the effects a call performs.

    Strings are sequences of UTF-16 code units, as in JavaScript.
    Regular expressions are kept as syntax trees and run by a
    backtracking matcher, so each pattern of the source is transcribed
    literally. *)

From Stdlib Require Import String Ascii DecimalString.
From Stdlib Require Import ZArith NArith List Bool Lia.
Import ListNotations.

Set Implicit Arguments.

(* ================================================================= *)
(** ** JavaScript strings *)

Module JsString.

Definition jschar := N.
Definition jsstring := list jschar.

Definition char_eqb (a b : jschar) : bool := N.eqb a b.

Fixpoint eqb (a b : jsstring) : bool :=
  match a, b with
  | [], [] => true
  | x :: a', y :: b' => char_eqb x y && eqb a' b'
  | _, _ => false
  end.

(** Decoding of a UTF-8 byte sequence into UTF-16 code units; string
    literals of this file are written in UTF-8. *)
Fixpoint utf16 (bs : list N) : jsstring :=
  (match bs with
   | [] => []
   | b0 :: r0 =>
     if b0 <? 128 then b0 :: utf16 r0
     else if b0 <? 224 then
       match r0 with
       | b1 :: r1 => ((b0 mod 32) * 64 + b1 mod 64) :: utf16 r1
       | _ => []
       end
     else if b0 <? 240 then
       match r0 with
       | b1 :: b2 :: r2 =>
           ((b0 mod 16) * 4096 + (b1 mod 64) * 64 + b2 mod 64) :: utf16 r2
       | _ => []
       end
     else
       match r0 with
       | b1 :: b2 :: b3 :: r3 =>
           let cp := (b0 mod 8) * 262144 + (b1 mod 64) * 4096
                     + (b2 mod 64) * 64 + b3 mod 64 in
           let v := cp - 65536 in
           (55296 + v / 1024) :: (56320 + v mod 1024) :: utf16 r3
       | _ => []
       end
   end)%N.

Definition js (s : string) : jsstring :=
  utf16 (map N_of_ascii (list_ascii_of_string s)).
Arguments js s%_string.

(** [s.length === 0], the only falsy string. *)
Definition is_empty (s : jsstring) : bool :=
  match s with [] => true | _ => false end.

(** [a || b] on strings. *)
Definition or_else (a b : jsstring) : jsstring :=
  if is_empty a then b else a.

(** Character classes of ECMAScript. *)
Definition is_digit (c : jschar) : bool := ((48 <=? c) && (c <=? 57))%N.

Definition is_line_terminator (c : jschar) : bool :=
  (N.eqb c 10 || N.eqb c 13 || N.eqb c 8232 || N.eqb c 8233)%N.

(** [\s]: WhiteSpace and LineTerminator. *)
Definition is_space (c : jschar) : bool :=
  ((9 <=? c) && (c <=? 13) || N.eqb c 32 || N.eqb c 160 || N.eqb c 5760
   || (8192 <=? c) && (c <=? 8202) || N.eqb c 8232 || N.eqb c 8233
   || N.eqb c 8239 || N.eqb c 8287 || N.eqb c 12288 || N.eqb c 65279)%N.

Fixpoint trim_start (s : jsstring) : jsstring :=
  match s with
  | c :: s' => if is_space c then trim_start s' else s
  | [] => []
  end.

(** [String.prototype.trim]. *)
Definition trim (s : jsstring) : jsstring :=
  rev (trim_start (rev (trim_start s))).

Fixpoint startsWith (s p : jsstring) {struct p} : bool :=
  match p, s with
  | [], _ => true
  | x :: p', y :: s' => char_eqb x y && startsWith s' p'
  | _ :: _, [] => false
  end.

Definition endsWith (s p : jsstring) : bool :=
  startsWith (rev s) (rev p).

(** [String.prototype.includes]. *)
Fixpoint includes (s p : jsstring) : bool :=
  startsWith s p ||
  match s with
  | [] => false
  | _ :: s' => includes s' p
  end.

(** [s.replace(p, r)] with a string pattern: only the first occurrence
    is replaced. *)
Fixpoint replace_first (s p r : jsstring) : jsstring :=
  if startsWith s p then r ++ skipn (length p) s
  else match s with
       | [] => []
       | c :: s' => c :: replace_first s' p r
       end.

(** [n.toString()] for an integer-valued number; from 1e21 on
    JavaScript prints an exponent, which is outside this model. *)
Definition toString (z : Z) : jsstring :=
  js (NilZero.string_of_int (Z.to_int z)).

End JsString.
Export JsString.

(* ================================================================= *)
(** ** Regular expressions *)

Module Regex.

Inductive regex : Type :=
| RChar (p : jschar -> bool)
| REmpty
| RSeq (a b : regex)
| RAlt (a b : regex)
| RStar (greedy : bool) (a : regex)
| RGroup (i : nat) (a : regex)
| RLookahead (a : regex)
| REnd.

Definition caps := list (nat * jsstring).

(** Backtracking matcher in continuation-passing style: [k] is the rest
    of the pattern.  An iteration of a star that consumes nothing is
    rejected, as RepeatMatcher does. *)
Fixpoint rx (r : regex) (s : jsstring) (c : caps)
    (k : jsstring -> caps -> option (jsstring * caps)) {struct r}
    : option (jsstring * caps) :=
  match r with
  | RChar p =>
      match s with
      | x :: s' => if p x then k s' c else None
      | [] => None
      end
  | REmpty => k s c
  | RSeq a b => rx a s c (fun s' c' => rx b s' c' k)
  | RAlt a b =>
      match rx a s c k with
      | Some m => Some m
      | None => rx b s c k
      end
  | RStar greedy a =>
      (fix loop (n : nat) (s : jsstring) (c : caps) {struct n} :=
         match n with
         | O => k s c
         | S n' =>
             if greedy then
               match rx a s c (fun s' c' =>
                        if (length s' <? length s)%nat
                        then loop n' s' c' else None) with
               | Some m => Some m
               | None => k s c
               end
             else
               match k s c with
               | Some m => Some m
               | None =>
                   rx a s c (fun s' c' =>
                     if (length s' <? length s)%nat
                     then loop n' s' c' else None)
               end
         end) (S (length s)) s c
  | RGroup i a =>
      rx a s c (fun s' c' =>
        k s' ((i, firstn (length s - length s') s) :: c'))
  | RLookahead a =>
      match rx a s c (fun s' c' => Some (s', c')) with
      | Some (_, c') => k s c'
      | None => None
      end
  | REnd =>
      match s with
      | [] => k s c
      | _ :: _ => None
      end
  end.

(** Pattern syntax. *)
Definition chr (c : jschar) : regex := RChar (char_eqb c).
Definition not_chr (c : jschar) : regex := RChar (fun x => negb (char_eqb c x)).
Definition any : regex := RChar (fun _ => true).            (* [\s\S], or . under /s *)
Definition dot : regex := RChar (fun x => negb (is_line_terminator x)).
Definition space : regex := RChar is_space.
Definition digit : regex := RChar is_digit.
Definition star (a : regex) : regex := RStar true a.
Definition lazy_star (a : regex) : regex := RStar false a.
Definition plus (a : regex) : regex := RSeq a (RStar true a).

Fixpoint lit (s : jsstring) : regex :=
  match s with
  | [] => REmpty
  | c :: s' => RSeq (chr c) (lit s')
  end.

(** Canonicalize of the /i flag, on the ASCII range; a code unit above
    127 never canonicalizes to one below 128. *)
Definition upper (c : jschar) : jschar :=
  (if (97 <=? c) && (c <=? 122) then c - 32 else c)%N.

Fixpoint lit_i (s : jsstring) : regex :=
  match s with
  | [] => REmpty
  | c :: s' => RSeq (RChar (fun x => char_eqb (upper x) (upper c))) (lit_i s')
  end.

Fixpoint seq (rs : list regex) : regex :=
  match rs with
  | [] => REmpty
  | [r] => r
  | r :: rs' => RSeq r (seq rs')
  end.

Record rmatch : Type := {
  m_before : jsstring;   (* input before the match *)
  m_text : jsstring;     (* match[0] *)
  m_rest : jsstring;     (* input after the match *)
  m_caps : caps
}.

(** [match[i]]; an unset group reads as the empty string here (none of
    the patterns below has an optional group). *)
Fixpoint group (i : nat) (c : caps) : jsstring :=
  match c with
  | [] => []
  | (j, v) :: c' => if Nat.eqb i j then v else group i c'
  end.

(** Leftmost match: the pattern is tried at each index in turn. *)
Fixpoint search_from (r : regex) (pre : jsstring) (s : jsstring)
    : option rmatch :=
  match rx r s [] (fun s' c' => Some (s', c')) with
  | Some (rest, c) =>
      Some {| m_before := rev pre;
              m_text := firstn (length s - length rest) s;
              m_rest := rest;
              m_caps := c |}
  | None =>
      match s with
      | [] => None
      | x :: s' => search_from r (x :: pre) s'
      end
  end.

(** [s.match(r)] without the g flag. *)
Definition search (r : regex) (s : jsstring) : option rmatch :=
  search_from r [] s.

(** Successive matches under the g flag ([matchAll], [match], a loop on
    [exec]): the search resumes where the previous match ended, one
    code unit further after an empty match. *)
Fixpoint all_matches_fuel (n : nat) (r : regex) (s : jsstring)
    : list rmatch :=
  match n with
  | O => []
  | S n' =>
      match search r s with
      | None => []
      | Some m =>
          m :: match m_text m, m_rest m with
               | [], [] => []
               | [], _ :: t => all_matches_fuel n' r t
               | _ :: _, rest => all_matches_fuel n' r rest
               end
      end
  end.

Definition all_matches (r : regex) (s : jsstring) : list rmatch :=
  all_matches_fuel (S (length s)) r s.

(** [s.replace(r, f)] under the g flag. *)
Fixpoint replace_all_fuel (n : nat) (r : regex) (f : rmatch -> jsstring)
    (s : jsstring) : jsstring :=
  match n with
  | O => s
  | S n' =>
      match search r s with
      | None => s
      | Some m =>
          m_before m ++ f m ++
          match m_text m, m_rest m with
          | [], [] => []
          | [], x :: t => x :: replace_all_fuel n' r f t
          | _ :: _, rest => replace_all_fuel n' r f rest
          end
      end
  end.

Definition replace_all (r : regex) (f : rmatch -> jsstring) (s : jsstring)
    : jsstring :=
  replace_all_fuel (S (length s)) r f s.

End Regex.
Export Regex.

(* ================================================================= *)
(** ** Effects: store, world, trace, completions *)

Module Effects.

(** What a [throw] carries: an [Error] object with its message, or any
    other value ([error instanceof Error] is false), of which only
    [String(error)] is kept. *)
Inductive thrown : Type :=
| JsError (message : jsstring)
| NonError (text : jsstring).

Inductive completion (A : Type) : Type :=
| Return (a : A)
| Throw (e : thrown).
Arguments Return {A} a.
Arguments Throw {A} e.

Definition is_throw {A} (c : completion A) : bool :=
  match c with Throw _ => true | Return _ => false end.

(** [undefined], [null] or a value: a field of a parsed JSON object. *)
Inductive jsopt (A : Type) : Type :=
| Undefined
| Null
| Val (a : A).
Arguments Undefined {A}.
Arguments Null {A}.
Arguments Val {A} a.

(** [x || d] on a string field, a number field and an array field. *)
Definition str_or (x : jsopt jsstring) (d : jsstring) : jsstring :=
  match x with
  | Val s => or_else s d
  | _ => d
  end.

Definition num_or (x : jsopt Z) (d : Z) : Z :=
  match x with
  | Val n => if Z.eqb n 0 then d else n
  | _ => d
  end.

Definition arr_or {A} (x : jsopt (list A)) (d : list A) : list A :=
  match x with
  | Val l => l
  | _ => d
  end.

(** [`${x}`] for a string field. *)
Definition template (x : jsopt jsstring) : jsstring :=
  match x with
  | Undefined => js "undefined"
  | Null => js "null"
  | Val s => s
  end.

(** An outgoing request: the base URL, the entries of its
    [URLSearchParams] in order, before serialization, and the headers. *)
Record request : Type := {
  req_base : jsstring;
  req_params : list (jsstring * jsstring);
  req_headers : list (jsstring * jsstring)
}.

Fixpoint param (name : jsstring) (ps : list (jsstring * jsstring))
    : option jsstring :=
  match ps with
  | [] => None
  | (k, v) :: ps' => if JsString.eqb k name then Some v else param name ps'
  end.

Record response (B : Type) : Type := {
  ok : bool;
  status : Z;
  statusText : jsstring;
  body : completion B       (* [await response.text()] or [.json()] *)
}.

(** The world of one call: the successive readings of [Date.now()] and
    what [fetch] resolves to. *)
Record world (B : Type) : Type := {
  Date_now : nat -> Z;
  fetch : request -> completion (response B)
}.

Inductive event : Type :=
| Fetch (r : request)
| Sleep (ms : Z)
| Generate (query : jsstring).

(** An entry of a URL collector. *)
Record collected : Type := {
  c_id : jsstring;
  c_title : jsstring;
  c_url : jsstring;
  c_source : jsstring
}.

(** The module-level variables of the tool modules: the last-call
    timestamps, the URL collectors, and the client singleton of the
    conference search ([None] is [null], otherwise the API key it was
    built with). *)
Record store : Type := {
  lastArxivCall : Z;
  collectedArxivUrls : list collected;
  lastSemanticScholarCall : Z;
  collectedUrls : list collected;
  lastJstageCall : Z;
  collectedJstageUrls : list collected;
  genai : option jsstring
}.

Definition initial_store : store :=
  {| lastArxivCall := 0; collectedArxivUrls := [];
     lastSemanticScholarCall := 0; collectedUrls := [];
     lastJstageCall := 0; collectedJstageUrls := []; genai := None |}.

Definition set_lastArxivCall (t : Z) (st : store) : store :=
  {| lastArxivCall := t;
     collectedArxivUrls := collectedArxivUrls st;
     lastSemanticScholarCall := lastSemanticScholarCall st;
     collectedUrls := collectedUrls st;
     lastJstageCall := lastJstageCall st;
     collectedJstageUrls := collectedJstageUrls st;
     genai := genai st |}.

Definition set_collectedArxivUrls (l : list collected) (st : store) : store :=
  {| lastArxivCall := lastArxivCall st;
     collectedArxivUrls := l;
     lastSemanticScholarCall := lastSemanticScholarCall st;
     collectedUrls := collectedUrls st;
     lastJstageCall := lastJstageCall st;
     collectedJstageUrls := collectedJstageUrls st;
     genai := genai st |}.

Definition set_lastSemanticScholarCall (t : Z) (st : store) : store :=
  {| lastArxivCall := lastArxivCall st;
     collectedArxivUrls := collectedArxivUrls st;
     lastSemanticScholarCall := t;
     collectedUrls := collectedUrls st;
     lastJstageCall := lastJstageCall st;
     collectedJstageUrls := collectedJstageUrls st;
     genai := genai st |}.

Definition set_collectedUrls (l : list collected) (st : store) : store :=
  {| lastArxivCall := lastArxivCall st;
     collectedArxivUrls := collectedArxivUrls st;
     lastSemanticScholarCall := lastSemanticScholarCall st;
     collectedUrls := l;
     lastJstageCall := lastJstageCall st;
     collectedJstageUrls := collectedJstageUrls st;
     genai := genai st |}.

Definition set_lastJstageCall (t : Z) (st : store) : store :=
  {| lastArxivCall := lastArxivCall st;
     collectedArxivUrls := collectedArxivUrls st;
     lastSemanticScholarCall := lastSemanticScholarCall st;
     collectedUrls := collectedUrls st;
     lastJstageCall := t;
     collectedJstageUrls := collectedJstageUrls st;
     genai := genai st |}.

Definition set_collectedJstageUrls (l : list collected) (st : store) : store :=
  {| lastArxivCall := lastArxivCall st;
     collectedArxivUrls := collectedArxivUrls st;
     lastSemanticScholarCall := lastSemanticScholarCall st;
     collectedUrls := collectedUrls st;
     lastJstageCall := lastJstageCall st;
     collectedJstageUrls := l;
     genai := genai st |}.

Definition set_genai (g : option jsstring) (st : store) : store :=
  {| lastArxivCall := lastArxivCall st;
     collectedArxivUrls := collectedArxivUrls st;
     lastSemanticScholarCall := lastSemanticScholarCall st;
     collectedUrls := collectedUrls st;
     lastJstageCall := lastJstageCall st;
     collectedJstageUrls := collectedJstageUrls st;
     genai := g |}.

(** The outcome of running a computation: final store, effects
    performed, completion. *)
Record outcome (A : Type) : Type := {
  out_store : store;
  out_trace : list event;
  out_value : completion A
}.

Definition M (A : Type) : Type := store -> outcome A.

Definition ret {A} (a : A) : M A :=
  fun st => {| out_store := st; out_trace := []; out_value := Return a |}.

Definition throw {A} (e : thrown) : M A :=
  fun st => {| out_store := st; out_trace := []; out_value := Throw e |}.

Definition bind {A B} (m : M A) (k : A -> M B) : M B :=
  fun st =>
    let o := m st in
    match out_value o with
    | Return a =>
        let o' := k a (out_store o) in
        {| out_store := out_store o';
           out_trace := out_trace o ++ out_trace o';
           out_value := out_value o' |}
    | Throw e =>
        {| out_store := out_store o; out_trace := out_trace o;
           out_value := Throw e |}
    end.

(** [try { m } catch (error) { h error }]. *)
Definition try_catch {A} (m : M A) (h : thrown -> M A) : M A :=
  fun st =>
    let o := m st in
    match out_value o with
    | Return a => o
    | Throw e =>
        let o' := h e (out_store o) in
        {| out_store := out_store o';
           out_trace := out_trace o ++ out_trace o';
           out_value := out_value o' |}
    end.

Definition gets {A} (f : store -> A) : M A :=
  fun st => {| out_store := st; out_trace := []; out_value := Return (f st) |}.

Definition modify (f : store -> store) : M unit :=
  fun st => {| out_store := f st; out_trace := []; out_value := Return tt |}.

Definition emit (e : event) : M unit :=
  fun st => {| out_store := st; out_trace := [e]; out_value := Return tt |}.

(** [await p] for a promise that settles as [c]. *)
Definition await {A} (c : completion A) : M A :=
  fun st => {| out_store := st; out_trace := []; out_value := c |}.

(** [await fetch(url)]: the request goes out, then the world answers. *)
Definition do_fetch {B} (w : world B) (r : request) : M (response B) :=
  bind (emit (Fetch r)) (fun _ => await (fetch w r)).

(** [await new Promise(resolve => setTimeout(resolve, ms))]. *)
Definition sleep (ms : Z) : M unit := emit (Sleep ms).

Declare Scope js_scope.
Delimit Scope js_scope with js_m.
Notation "x <- m ;; k" := (bind m (fun x => k))
  (at level 61, m at next level, right associativity) : js_scope.
Notation "m ;; k" := (bind m (fun _ => k))
  (at level 61, right associativity) : js_scope.

(** [Math.ceil(a / b)] for integers, [b > 0]. *)
Definition ceil_div (a b : Z) : Z := (- ((- a) / b))%Z.

(** The 34th ASCII character, the double quote. *)
Definition dquote : jschar := 34%N.

Definition ch (a : ascii) : jschar := N_of_ascii a.
Arguments ch a%_char.

End Effects.
Export Effects.

(* ================================================================= *)
(** ** arxiv-tool.ts *)

Module Arxiv.

Local Open Scope Z_scope.
Local Open Scope js_scope.

Record ArxivEntry : Type := {
  id : jsstring;
  title : jsstring;
  authors : list jsstring;
  abstract : jsstring;
  categories : list jsstring;
  published : jsstring;
  updated : jsstring;
  link : jsstring
}.

(** [simplifiedPaperSchema]. *)
Record simplifiedPaper : Type := {
  sp_title : jsstring;
  sp_abstract : jsstring;
  sp_published : jsstring;
  pdfLink : jsstring;
  arxivId : jsstring
}.

Record output : Type := { papers : list simplifiedPaper }.

Inductive sortOrder : Type := relevance | lastUpdatedDate | submittedDate.

Definition sortOrder_text (s : sortOrder) : jsstring :=
  match s with
  | relevance => js "relevance"
  | lastUpdatedDate => js "lastUpdatedDate"
  | submittedDate => js "submittedDate"
  end.

(** Upper bound of [maxResults] in [inputSchema]. *)
Definition schema_max : Z := 100.

Definition ARXIV_COOLDOWN_MS : Z := 30000.

Section Parser.

(** [new Date(s).toISOString()] of the platform; [None] when it throws
    (an invalid date). *)
Variable Date_toISOString : jsstring -> option jsstring.

(** [s.split('T')[0]]. *)
Fixpoint before_T (s : jsstring) : jsstring :=
  match s with
  | [] => []
  | c :: s' => if char_eqb c (ch "T") then [] else c :: before_T s'
  end.

Definition formatDate (dateString : jsstring) : jsstring :=
  if is_empty dateString then []
  else match Date_toISOString dateString with
       | Some iso => before_T iso
       | None => dateString
       end.

(** [<${tag}[^>]*>(.*?)<\/${tag}>] under the s flag. *)
Definition tag_regex (tag : jsstring) : regex :=
  seq [lit (js "<" ++ tag); star (not_chr (ch ">")); chr (ch ">");
       RGroup 1 (lazy_star any); lit (js "</" ++ tag ++ js ">")].

(** [/<[^>]*>/g] and [/\s+/g]. *)
Definition any_tag : regex := seq [chr (ch "<"); star (not_chr (ch ">")); chr (ch ">")].
Definition spaces : regex := plus space.

(** [match[1].trim().replace(/<[^>]*>/g, '').replace(/\s+/g, ' ')]. *)
Definition clean (m : rmatch) : jsstring :=
  replace_all spaces (fun _ => js " ")
    (replace_all any_tag (fun _ => []) (trim (group 1 (m_caps m)))).

Definition extractText (entryXml tag : jsstring) : jsstring :=
  match search (tag_regex tag) entryXml with
  | Some m => clean m
  | None => []
  end.

Definition extractMultiple (entryXml tag : jsstring) : list jsstring :=
  map clean (all_matches (tag_regex tag) entryXml).

(** [/<link[^>]*href=Q([^Q]* )Q[^>]*title=QpdfQ/], writing Q for the
    double quote. *)
Definition linkRegex : regex :=
  seq [lit (js "<link"); star (not_chr (ch ">")); lit (js "href=" ++ [dquote]);
       RGroup 1 (star (not_chr dquote)); chr dquote; star (not_chr (ch ">"));
       lit (js "title=" ++ [dquote] ++ js "pdf" ++ [dquote])].

(** [/<link[^>]*href=Q([^Q]* )Q[^>]*type=Qtext\/htmlQ/] *)
Definition abstractLinkRegex : regex :=
  seq [lit (js "<link"); star (not_chr (ch ">")); lit (js "href=" ++ [dquote]);
       RGroup 1 (star (not_chr dquote)); chr dquote; star (not_chr (ch ">"));
       lit (js "type=" ++ [dquote] ++ js "text/html" ++ [dquote])].

Definition extractLink (entryXml : jsstring) : jsstring :=
  match search linkRegex entryXml with
  | Some m => group 1 (m_caps m)
  | None =>
      match search abstractLinkRegex entryXml with
      | Some m => group 1 (m_caps m)
      | None => []
      end
  end.

(** [/<category[^>]*term=Q([^Q]* )Q[^>]*\/>/g] *)
Definition categoryRegex : regex :=
  seq [lit (js "<category"); star (not_chr (ch ">")); lit (js "term=" ++ [dquote]);
       RGroup 1 (star (not_chr dquote)); chr dquote; star (not_chr (ch ">"));
       lit (js "/>")].

(** [/abs\/(.+)$/] *)
Definition arxivIdRegex : regex :=
  seq [lit (js "abs/"); RGroup 1 (plus dot); REnd].

Definition parseEntry (entryXml : jsstring) : option ArxivEntry :=
  let id := extractText entryXml (js "id") in
  let title := extractText entryXml (js "title") in
  let abstract := extractText entryXml (js "summary") in
  let published := extractText entryXml (js "published") in
  let updated := extractText entryXml (js "updated") in
  if is_empty id || is_empty title then None
  else
    let authors := extractMultiple entryXml (js "name") in
    let categories :=
      map (fun m => group 1 (m_caps m)) (all_matches categoryRegex entryXml) in
    let arxivId :=
      match search arxivIdRegex id with
      | Some m => group 1 (m_caps m)
      | None => id
      end in
    Some {| id := arxivId;
            title := title;
            authors := authors;
            abstract := abstract;
            categories := categories;
            published := formatDate published;
            updated := formatDate updated;
            link := or_else (extractLink entryXml)
                            (js "https://arxiv.org/abs/" ++ arxivId) |}.

(** [/<entry>([\s\S]*?)<\/entry>/g] *)
Definition entryRegex : regex :=
  seq [lit (js "<entry>"); RGroup 1 (lazy_star any); lit (js "</entry>")].

(** The [entryXml] of each turn of the [while] loop on
    [entryRegex.exec(xmlText)]. *)
Definition entries (xmlText : jsstring) : list jsstring :=
  map (fun m => group 1 (m_caps m)) (all_matches entryRegex xmlText).

(** The loop of [parseArxivXML]: a parsed entry is pushed, a [null] one
    is skipped. *)
Definition parseArxivXML (xmlText : jsstring) : list ArxivEntry :=
  fold_left
    (fun papers entryXml =>
       match parseEntry entryXml with
       | Some paper => papers ++ [paper]
       | None => papers
       end)
    (entries xmlText) [].

(** The body of [papers.map(paper => ...)] in [searchArxiv]. *)
Definition simplify (paper : ArxivEntry) : simplifiedPaper :=
  let pdfLink := link paper in
  let pdfLink :=
    if includes pdfLink (js "/abs/")
    then replace_first pdfLink (js "/abs/") (js "/pdf/")
    else pdfLink in
  let pdfLink :=
    if negb (endsWith pdfLink (js ".pdf"))
    then pdfLink ++ js ".pdf"
    else pdfLink in
  {| sp_title := title paper;
     sp_abstract := abstract paper;
     sp_published := published paper;
     pdfLink := pdfLink;
     arxivId := id paper |}.

Definition collect (paper : ArxivEntry) : collected :=
  {| c_id := id paper; c_title := title paper; c_url := link paper;
     c_source := js "arXiv" |}.

Definition build_request (query : jsstring) (maxResults : Z) (sortBy : sortOrder)
    : request :=
  {| req_base := js "http://export.arxiv.org/api/query";
     req_params :=
       [(js "search_query", query);
        (js "start", js "0");
        (js "max_results", toString maxResults);
        (js "sortBy", sortOrder_text sortBy);
        (js "sortOrder", js "descending")];
     req_headers := [] |}.

Definition cooldown_message (waitTime : Z) : jsstring :=
  js "arXiv API cooldown active. Please wait "
  ++ toString (ceil_div waitTime 1000)
  ++ js " seconds before next search.".

(** The [catch] clause of [searchArxiv]. *)
Definition rethrow (error : thrown) : M output :=
  match error with
  | JsError message => throw (JsError (js "Failed to search arXiv: " ++ message))
  | NonError _ => throw (JsError (js "Failed to search arXiv: Unknown error"))
  end.

Definition searchArxiv (w : world jsstring)
    (query : jsstring) (maxResults : Z) (sortBy : sortOrder) : M output :=
  let now := Date_now w 0 in
  last <- gets lastArxivCall ;;
  let timeSinceLastCall := now - last in
  if timeSinceLastCall <? ARXIV_COOLDOWN_MS then
    let waitTime := ARXIV_COOLDOWN_MS - timeSinceLastCall in
    throw (JsError (cooldown_message waitTime))
  else
    try_catch
      (response <- do_fetch w (build_request query maxResults sortBy) ;;
       if negb (ok response) then
         throw (JsError (js "arXiv API request failed: "
                         ++ toString (status response) ++ js " "
                         ++ statusText response))
       else
         modify (set_lastArxivCall now) ;;
         xmlText <- await (body response) ;;
         let papers := parseArxivXML xmlText in
         modify (fun st =>
           set_collectedArxivUrls
             (collectedArxivUrls st ++ map collect papers) st) ;;
         ret {| papers := map simplify papers |})
      rethrow.

End Parser.

End Arxiv.

(* ================================================================= *)
(** ** The Semantic Scholar tool (second module of arxiv-tool.ts) *)

Module SemanticScholar.

Local Open Scope Z_scope.
Local Open Scope js_scope.

(** A record of [data.data], as parsed from JSON. *)
Record rawAuthor : Type := {
  ra_authorId : jsopt jsstring;
  ra_name : jsopt jsstring
}.

Record openAccessPdf : Type := {
  oa_url : jsstring;
  oa_status : jsstring
}.

Record rawPaper : Type := {
  r_paperId : jsopt jsstring;
  r_title : jsopt jsstring;
  r_abstract : jsopt jsstring;
  r_authors : jsopt (list rawAuthor);
  r_year : jsopt Z;
  r_citationCount : jsopt Z;
  r_venue : jsopt jsstring;
  r_publicationTypes : jsopt (list jsstring);
  r_url : jsopt jsstring;
  r_openAccessPdf : jsopt openAccessPdf;
  r_fieldsOfStudy : jsopt (list jsstring)
}.

Record payload : Type := {
  data : jsopt (list rawPaper);
  total : jsopt Z
}.

Record author : Type := {
  authorId : jsopt jsstring;
  name : jsstring
}.

(** [paperData] *)
Record SemanticScholarPaper : Type := {
  paperId : jsstring;
  title : jsstring;
  abstract : jsstring;
  authors : list author;
  year : jsopt Z;
  citationCount : Z;
  venue : jsstring;
  publicationTypes : list jsstring;
  url : jsstring;
  oaPdf : jsopt openAccessPdf;
  fieldsOfStudy : list jsstring
}.

(** [simplifiedPaperSchema] *)
Record simplifiedPaper : Type := {
  sp_title : jsstring;
  sp_abstract : jsstring;
  sp_year : jsopt Z;
  sp_citationCount : Z
}.

Record output : Type := { papers : list simplifiedPaper }.

Definition schema_max : Z := 100.

Definition SEMANTIC_SCHOLAR_COOLDOWN_MS : Z := 1000.

Definition paperData (paper : rawPaper) : SemanticScholarPaper :=
  {| paperId := str_or (r_paperId paper) [];
     title := str_or (r_title paper) [];
     abstract := str_or (r_abstract paper) [];
     authors :=
       map (fun a => {| authorId := ra_authorId a;
                        name := str_or (ra_name a) (js "Unknown Author") |})
           (arr_or (r_authors paper) []);
     year := r_year paper;
     citationCount := num_or (r_citationCount paper) 0;
     venue := str_or (r_venue paper) [];
     publicationTypes := arr_or (r_publicationTypes paper) [];
     url := str_or (r_url paper)
              (js "https://www.semanticscholar.org/paper/"
               ++ template (r_paperId paper));
     oaPdf := r_openAccessPdf paper;
     fieldsOfStudy := arr_or (r_fieldsOfStudy paper) [] |}.

Definition collect (p : SemanticScholarPaper) : collected :=
  {| c_id := paperId p; c_title := title p; c_url := url p;
     c_source := js "Semantic Scholar" |}.

Definition simplify (p : SemanticScholarPaper) : simplifiedPaper :=
  {| sp_title := title p;
     sp_abstract := abstract p;
     sp_year := year p;
     sp_citationCount := citationCount p |}.

(** The callback of [(data.data || []).map(...)]: one push onto
    [collectedUrls], then the reduced record. *)
Definition map_paper (paper : rawPaper) : M simplifiedPaper :=
  let paperData := paperData paper in
  modify (fun st =>
    set_collectedUrls (collectedUrls st ++ [collect paperData]) st) ;;
  ret (simplify paperData).

(** [Array.prototype.map] with an effectful callback. *)
Fixpoint mapM {A B} (f : A -> M B) (l : list A) : M (list B) :=
  match l with
  | [] => ret []
  | x :: l' => y <- f x ;; ys <- mapM f l' ;; ret (y :: ys)
  end.

Definition build_request (query : jsstring) (maxResults : Z) : request :=
  {| req_base := js "https://api.semanticscholar.org/graph/v1/paper/search";
     req_params :=
       [(js "query", query);
        (js "limit", toString (Z.min maxResults 50));
        (js "fields",
         js "paperId,title,abstract,authors,year,citationCount,venue,publicationTypes,url,openAccessPdf,fieldsOfStudy")];
     req_headers := [(js "User-Agent", js "Paper-Agent/1.0")] |}.

Definition rethrow (error : thrown) : M output :=
  match error with
  | JsError message =>
      throw (JsError (js "Failed to search Semantic Scholar: " ++ message))
  | NonError _ =>
      throw (JsError (js "Failed to search Semantic Scholar: Unknown error"))
  end.

Definition searchSemanticScholar (w : world payload)
    (query : jsstring) (maxResults : Z) : M output :=
  let now := Date_now w 0 in
  last <- gets lastSemanticScholarCall ;;
  let timeSinceLastCall := now - last in
  (if timeSinceLastCall <? SEMANTIC_SCHOLAR_COOLDOWN_MS then
     let waitTime := SEMANTIC_SCHOLAR_COOLDOWN_MS - timeSinceLastCall in
     sleep waitTime
   else ret tt) ;;
  try_catch
    (response <- do_fetch w (build_request query maxResults) ;;
     if negb (ok response) then
       if status response =? 429 then
         throw (JsError
           (js "Semantic Scholar API rate limit exceeded. Please try again later."))
       else
         throw (JsError (js "Semantic Scholar API request failed: "
                         ++ toString (status response) ++ js " "
                         ++ statusText response))
     else
       modify (set_lastSemanticScholarCall (Date_now w 1)) ;;
       data <- await (body response) ;;
       papers <- mapM map_paper (arr_or (SemanticScholar.data data) []) ;;
       ret {| papers := papers |})
    rethrow.

End SemanticScholar.

(* ================================================================= *)
(** ** jstage-tool.ts *)

Module Jstage.

Local Open Scope Z_scope.
Local Open Scope js_scope.

Record JstagePaper : Type := {
  title : jsstring;
  authors : list jsstring;
  abstract : jsstring;
  doi : jsstring;
  journalTitle : jsstring;
  volume : jsstring;
  issueNumber : jsstring;
  publicationDate : jsstring;
  url : jsstring;
  keywords : list jsstring
}.

(** [simplifiedPaperSchema]; [None] is [null]. *)
Record simplifiedPaper : Type := {
  sp_title : jsstring;
  sp_authors : list jsstring;
  sp_publicationDate : jsstring;
  sp_doi : option jsstring;
  sp_journalTitle : option jsstring
}.

Record output : Type := {
  papers : list simplifiedPaper;
  totalResults : Z
}.

Definition schema_max : Z := 100.

Definition JSTAGE_COOLDOWN_MS : Z := 1000.

(** [<${tagName}[^>]*>([\s\S]*?)<\/${tagName}>] under the i flag. *)
Definition tag_regex (tagName : jsstring) : regex :=
  seq [lit_i (js "<" ++ tagName); star (not_chr (ch ">")); chr (ch ">");
       RGroup 1 (lazy_star any); lit_i (js "</" ++ tagName ++ js ">")].

(** [/<!\[CDATA\[(.*?)\]\]>/g] *)
Definition cdataRegex : regex :=
  seq [lit (js "<![CDATA["); RGroup 1 (lazy_star dot); lit (js "]]>")].

Definition extractXmlTag (xml tagName : jsstring) : jsstring :=
  match search (tag_regex tagName) xml with
  | Some m =>
      replace_all cdataRegex (fun m' => group 1 (m_caps m'))
        (trim (group 1 (m_caps m)))
  | None => []
  end.

(** [/<opensearch:totalResults[^>]*>(\d+)<\/opensearch:totalResults>/] *)
Definition totalResultsRegex : regex :=
  seq [lit (js "<opensearch:totalResults"); star (not_chr (ch ">")); chr (ch ">");
       RGroup 1 (plus digit); lit (js "</opensearch:totalResults>")].

(** [parseInt(s, 10)] on a string of decimal digits, without the loss
    of precision of JavaScript beyond 2^53. *)
Definition parseInt (s : jsstring) : Z :=
  fold_left (fun acc c => 10 * acc + (Z.of_N c - 48)) s 0.

Definition extractTotalHits (xmlText : jsstring) : Z :=
  match search totalResultsRegex xmlText with
  | Some m => parseInt (group 1 (m_caps m))
  | None => 0
  end.

Definition extractUrl (xml : jsstring) : jsstring :=
  let url := extractXmlTag xml (js "link") in
  if negb (is_empty url) then url else
  let url := extractXmlTag xml (js "guid") in
  if negb (is_empty url) then url else
  let url := extractXmlTag xml (js "prism:url") in
  if negb (is_empty url) then url else
  let doi := extractXmlTag xml (js "prism:doi") in
  if negb (is_empty doi) then js "https://doi.org/" ++ doi else
  let identifier :=
    or_else (extractXmlTag xml (js "prism:identifier"))
            (extractXmlTag xml (js "identifier")) in
  if negb (is_empty identifier) && startsWith identifier (js "http")
  then identifier
  else [].

(** [/<TAG[^>]*>([^<]+)<\/TAG>/g], for the three tags read this way. *)
Definition leaf_regex (tag : jsstring) : regex :=
  seq [lit (js "<" ++ tag); star (not_chr (ch ">")); chr (ch ">");
       RGroup 1 (plus (not_chr (ch "<"))); lit (js "</" ++ tag ++ js ">")].

Definition mem (x : jsstring) (l : list jsstring) : bool :=
  existsb (JsString.eqb x) l.

(** The loops of [extractAuthors] and [extractKeywords]: a value is
    pushed when non-empty and not yet included. *)
Definition push_new (tag : jsstring) (acc : list jsstring) (xml : jsstring)
    : list jsstring :=
  fold_left
    (fun acc m =>
       let v := extractXmlTag (m_text m) tag in
       if negb (is_empty v) && negb (mem v acc) then acc ++ [v] else acc)
    (all_matches (leaf_regex tag) xml) acc.

Definition extractAuthors (xml : jsstring) : list jsstring :=
  push_new (js "prism:creatorName") (push_new (js "dc:creator") [] xml) xml.

Definition extractKeywords (xml : jsstring) : list jsstring :=
  push_new (js "prism:keyword") [] xml.

(** [/<entry[^>]*>[\s\S]*?<\/entry>/g] and [/<item[^>]*>[\s\S]*?<\/item>/g] *)
Definition block_regex (tag : jsstring) : regex :=
  seq [lit (js "<" ++ tag); star (not_chr (ch ">")); chr (ch ">");
       lazy_star any; lit (js "</" ++ tag ++ js ">")].

Definition matchedElements (xmlText : jsstring) : list jsstring :=
  let elements := map m_text (all_matches (block_regex (js "entry")) xmlText) in
  match elements with
  | [] => map m_text (all_matches (block_regex (js "item")) xmlText)
  | _ :: _ => elements
  end.

(** The body of the [for] loop of [parseJstageXML]. *)
Definition parseItem (itemXml : jsstring) : JstagePaper :=
  let title := or_else (extractXmlTag itemXml (js "title")) (js "No Title") in
  let abstract := extractXmlTag itemXml (js "description") in
  let publicationDate := extractXmlTag itemXml (js "prism:publicationDate") in
  {| title := title;
     authors := extractAuthors itemXml;
     abstract := abstract;
     doi := extractXmlTag itemXml (js "prism:doi");
     journalTitle := extractXmlTag itemXml (js "prism:publicationName");
     volume := extractXmlTag itemXml (js "prism:volume");
     issueNumber := extractXmlTag itemXml (js "prism:number");
     publicationDate := publicationDate;
     url := extractUrl itemXml;
     keywords := extractKeywords itemXml |}.

Definition parseJstageXML (xmlText : jsstring) : list JstagePaper :=
  fold_left (fun papers itemXml => papers ++ [parseItem itemXml])
            (matchedElements xmlText) [].

Definition simplify (paper : JstagePaper) : simplifiedPaper :=
  {| sp_title := title paper;
     sp_authors := firstn 3 (authors paper);
     sp_publicationDate := publicationDate paper;
     sp_doi := if is_empty (doi paper) then None else Some (doi paper);
     sp_journalTitle :=
       if is_empty (journalTitle paper) then None
       else Some (journalTitle paper) |}.

Definition truthy (x : option jsstring) : option jsstring :=
  match x with
  | Some s => if is_empty s then None else Some s
  | None => None
  end.

Definition optional_param (name : jsstring) (x : option jsstring)
    : list (jsstring * jsstring) :=
  match truthy x with
  | Some v => [(name, v)]
  | None => []
  end.

Definition build_request (query : jsstring) (maxResults : Z)
    (material pubyearfrom pubyearto : option jsstring) : request :=
  {| req_base := js "https://api.jstage.jst.go.jp/searchapi/do";
     req_params :=
       [(js "service", js "3");
        (js "text", query);
        (js "start", js "1");
        (js "count", toString (Z.min maxResults 100))]
       ++ optional_param (js "material") material
       ++ optional_param (js "pubyearfrom") pubyearfrom
       ++ optional_param (js "pubyearto") pubyearto;
     req_headers :=
       [(js "User-Agent", js "Paper-Agent/1.0");
        (js "Accept", js "application/xml, text/xml")] |}.

Definition rethrow (error : thrown) : M output :=
  match error with
  | JsError message =>
      throw (JsError (js "Failed to search J-STAGE: " ++ message))
  | NonError _ =>
      throw (JsError (js "Failed to search J-STAGE: Unknown error"))
  end.

Section Platform.

(** [encodeURIComponent] of the platform; it throws a [URIError] on a
    lone surrogate. *)
Variable encodeURIComponent : jsstring -> completion jsstring.

(** The text of [`${Date.now()}-${Math.random()}`] when it is evaluated
    for the paper at a given index. *)
Variable stamp : nat -> jsstring.

(** The callback of the [papers.forEach] that fills
    [collectedJstageUrls]. *)
Definition collect (index : nat) (paper : JstagePaper) : M unit :=
  let id := or_else (doi paper) (js "jstage-" ++ stamp index) in
  url <- (if is_empty (url paper) then
            t <- await (encodeURIComponent (title paper)) ;;
            ret (js "https://www.jstage.jst.go.jp/search/global/_search/-char/ja?item=" ++ t)
          else ret (url paper)) ;;
  modify (fun st =>
    set_collectedJstageUrls
      (collectedJstageUrls st
       ++ [{| c_id := id; c_title := title paper; c_url := url;
              c_source := js "J-STAGE" |}]) st).

(** [Array.prototype.forEach] with the index. *)
Fixpoint forEach {A} (f : nat -> A -> M unit) (index : nat) (l : list A)
    : M unit :=
  match l with
  | [] => ret tt
  | x :: l' => f index x ;; forEach f (S index) l'
  end.

Definition searchJstage (w : world jsstring)
    (query : jsstring) (maxResults : Z)
    (material pubyearfrom pubyearto : option jsstring) : M output :=
  let now := Date_now w 0 in
  last <- gets lastJstageCall ;;
  let timeSinceLastCall := now - last in
  (if timeSinceLastCall <? JSTAGE_COOLDOWN_MS then
     let waitTime := JSTAGE_COOLDOWN_MS - timeSinceLastCall in
     sleep waitTime
   else ret tt) ;;
  try_catch
    (response <- do_fetch w
        (build_request query maxResults material pubyearfrom pubyearto) ;;
     if negb (ok response) then
       throw (JsError (js "J-STAGE API request failed: "
                       ++ toString (status response) ++ js " "
                       ++ statusText response))
     else
       modify (set_lastJstageCall (Date_now w 1)) ;;
       xmlText <- await (body response) ;;
       let papers := parseJstageXML xmlText in
       let totalHits := extractTotalHits xmlText in
       forEach collect 0 papers ;;
       ret {| papers := map simplify papers; totalResults := totalHits |})
    rethrow.

End Platform.

End Jstage.

(* ================================================================= *)
(** ** The CORE tool (second module of web-search-tool.ts) *)

Module Core.

Local Open Scope Z_scope.
Local Open Scope js_scope.

(** An element of [result.authors]: an object with a [name], or a bare
    string. *)
Inductive authorValue : Type :=
| AStr (s : jsstring)
| AObj (name : jsopt jsstring).

Record rawRepository : Type := { repo_name : jsopt jsstring }.

(** An element of [data.results], as parsed from JSON. *)
Record rawResult : Type := {
  r_id : jsopt jsstring;
  r_title : jsopt jsstring;
  r_authors : jsopt (list authorValue);
  r_abstract : jsopt jsstring;
  r_year : jsopt Z;
  r_language : jsopt jsstring;
  r_repository : jsopt rawRepository;
  r_doi : jsopt jsstring;
  r_downloadUrl : jsopt jsstring;
  r_subjects : jsopt (list jsstring);
  r_type : jsopt jsstring
}.

Record payload : Type := {
  results : jsopt (list rawResult);
  totalHits : jsopt Z
}.

Record ProcessedCorePaper : Type := {
  coreId : jsstring;
  title : jsstring;
  authors : list authorValue;
  abstract : jsstring;
  year : Z;
  language : jsstring;
  repository : jsstring;
  doi : option jsstring;
  downloadUrl : option jsstring;
  subjects : list jsstring;
  documentType : jsstring
}.

(** [corePaperSchema]; [None] is [undefined]. *)
Record outputPaper : Type := {
  o_coreId : jsstring;
  o_title : jsstring;
  o_authors : list authorValue;
  o_abstract : option jsstring;
  o_year : Z;
  o_repository : jsstring;
  o_doi : option jsstring
}.

Record output : Type := {
  papers : list outputPaper;
  totalResults : Z
}.

Inductive docType : Type := article | thesis | book | conference | all.

Definition docType_text (d : docType) : jsstring :=
  match d with
  | article => js "article"
  | thesis => js "thesis"
  | book => js "book"
  | conference => js "conference"
  | all => js "all"
  end.

Definition schema_max : Z := 100.

(** [x || undefined] *)
Definition or_undefined (x : jsopt jsstring) : option jsstring :=
  match x with
  | Val s => if is_empty s then None else Some s
  | _ => None
  end.

(** [author.name || author] *)
Definition author_name (author : authorValue) : authorValue :=
  match author with
  | AStr s => AStr s
  | AObj (Val n) => if is_empty n then author else AStr n
  | AObj _ => author
  end.

(** The callback of [results.map]; [fullYear] is
    [new Date().getFullYear()]. *)
Definition process (fullYear : Z) (result : rawResult) : ProcessedCorePaper :=
  {| coreId := str_or (r_id result) [];
     title := str_or (r_title result) [];
     authors := map author_name (arr_or (r_authors result) []);
     abstract := str_or (r_abstract result) [];
     year := num_or (r_year result) fullYear;
     language := str_or (r_language result) (js "en");
     repository :=
       match r_repository result with
       | Val r => str_or (repo_name r) (js "Unknown")
       | _ => js "Unknown"
       end;
     doi := or_undefined (r_doi result);
     downloadUrl := or_undefined (r_downloadUrl result);
     subjects := arr_or (r_subjects result) [];
     documentType := str_or (r_type result) (js "article") |}.

Definition to_output (paper : ProcessedCorePaper) : outputPaper :=
  {| o_coreId := coreId paper;
     o_title := title paper;
     o_authors := firstn 3 (authors paper);
     o_abstract := if is_empty (abstract paper) then None
                   else Some (abstract paper);
     o_year := year paper;
     o_repository := repository paper;
     o_doi := doi paper |}.

(** [if (n) params.append(name, n.toString())] *)
Definition number_param (name : jsstring) (n : option Z)
    : list (jsstring * jsstring) :=
  match n with
  | Some v => if Z.eqb v 0 then [] else [(name, toString v)]
  | None => []
  end.

(** [languageFilter.join(',')] *)
Fixpoint join (sep : jsstring) (l : list jsstring) : jsstring :=
  match l with
  | [] => []
  | [x] => x
  | x :: l' => x ++ sep ++ join sep l'
  end.

Definition build_request (apiKey : jsopt jsstring)
    (query : jsstring) (maxResults : Z) (yearFrom yearTo : option Z)
    (languageFilter : option (list jsstring)) (documentType : docType)
    : request :=
  {| req_base := js "https://api.core.ac.uk/v3/search/works";
     req_params :=
       [(js "q", query); (js "limit", toString maxResults)]
       ++ number_param (js "year_from") yearFrom
       ++ number_param (js "year_to") yearTo
       ++ match languageFilter with
          | Some (x :: l) => [(js "language", join (js ",") (x :: l))]
          | _ => []
          end
       ++ match documentType with
          | all => []
          | d => [(js "type", docType_text d)]
          end;
     req_headers :=
       [(js "Authorization", js "Bearer " ++ str_or apiKey []);
        (js "Content-Type", js "application/json")] |}.

(** [execute] of [coreSearchTool].  [apiKey] is
    [process.env.CORE_API_KEY].  The two distribution tables the
    source fills are never read and are left out. *)
Definition execute (w : world payload) (apiKey : jsopt jsstring) (fullYear : Z)
    (query : jsstring) (maxResults : Z) (yearFrom yearTo : option Z)
    (languageFilter : option (list jsstring)) (documentType : docType)
    : M output :=
  try_catch
    (response <- do_fetch w
        (build_request apiKey query maxResults yearFrom yearTo
                       languageFilter documentType) ;;
     if negb (ok response) then
       throw (JsError (js "CORE API error: " ++ toString (status response)))
     else
       data <- await (body response) ;;
       let results := arr_or (results data) [] in
       let totalHits := totalHits data in
       let papers := map (process fullYear) results in
       let outputPapers := map to_output papers in
       ret {| papers := outputPapers;
              totalResults := num_or totalHits (Z.of_nat (length papers)) |})
    (fun _ => ret {| papers := []; totalResults := 0 |}).

End Core.

(* ================================================================= *)
(** ** The top-conference search (first module of web-search-tool.ts) *)

Module Conference.

Local Open Scope Z_scope.
Local Open Scope js_scope.

Record paper : Type := {
  title : jsstring;
  authors : jsstring;
  conference : jsstring;
  year : jsstring;
  abstract : jsstring;
  url : jsstring
}.

Record searchResult : Type := {
  content : jsstring;
  citations : list jsstring;
  papers : list paper
}.

(** [outputSchema] of the tool; [None] is an absent [error]. *)
Record output : Type := {
  o_searchId : Z;
  o_query : jsstring;
  o_content : jsstring;
  o_citations : list jsstring;
  o_papers : list paper;
  success : bool;
  error : option jsstring
}.

Record chunk : Type := { web_uri : jsopt jsstring }.

(** What [generateContent] resolves to: [response.text] and
    [response.candidates?.[0]?.groundingMetadata?.groundingChunks]. *)
Record genResponse : Type := {
  text : jsopt jsstring;
  groundingChunks : jsopt (list chunk)
}.

(** The world of one call: the two environment variables, the text of
    [getCurrentDateTime()], and the outcome of [generateContent] on a
    prompt. *)
Record genWorld : Type := {
  GEMINI_API_KEY : jsopt jsstring;
  GOOGLE_GENERATIVE_AI_API_KEY : jsopt jsstring;
  currentDateTime : jsstring;
  generateContent : jsstring -> completion genResponse
}.

Definition nl : jschar := 10%N.

Definition getGenAIClient (w : genWorld) : M jsstring :=
  g <- gets genai ;;
  match g with
  | Some client => ret client
  | None =>
      let apiKey := str_or (GEMINI_API_KEY w)
                           (str_or (GOOGLE_GENERATIVE_AI_API_KEY w) []) in
      if is_empty apiKey then
        throw (JsError (js "Gemini API key not found. Please set GEMINI_API_KEY or GOOGLE_GENERATIVE_AI_API_KEY environment variable."))
      else
        modify (set_genai (Some apiKey)) ;;
        ret apiKey
  end.

(** The prompt of [searchTopConferences]. *)
Definition prompt (query currentDateTime : jsstring) : jsstring :=
  js "次のトピックについて、機械学習・AI分野のトップカンファレンスから最新の研究論文を検索してください: "
  ++ query ++
  js "

現在の日時: "
  ++ currentDateTime ++
  js "

**検索対象のトップカンファレンス（優先順位順）:**
1. **ICML** (International Conference on Machine Learning) - icml.cc
2. **NeurIPS** (Neural Information Processing Systems) - neurips.cc  
3. **ICLR** (International Conference on Learning Representations) - iclr.cc
4. **AAAI** (Association for the Advancement of Artificial Intelligence) - aaai.org
5. **IJCAI** (International Joint Conference on Artificial Intelligence) - ijcai.org
6. **ACL** (Association for Computational Linguistics) - aclweb.org
7. **CVPR** (Computer Vision and Pattern Recognition) - cvpr.org
8. **ICCV** (International Conference on Computer Vision) - iccv.org
9. **ECCV** (European Conference on Computer Vision) - eccv.org
10. **SIGIR** (Special Interest Group on Information Retrieval) - sigir.org

**重要な制約:**
- **最大10件の論文**のみを選定してください
- 各論文について以下の情報を必ず含めてください：
  * 論文タイトル

  * カンファレンス名と開催年
  * アブストラクト（要約）
  * 論文URL（利用可能な場合）

**出力形式:**
以下の構造化されたマークダウン形式で回答してください：

## 🏆 トップカンファレンス検索結果: "
  ++ query ++
  js "

### 📊 検索サマリー
- 検索対象カンファレンス: [実際に検索したカンファレンス]
- 発見論文数: [X件]
- 対象年度: [YYYY-YYYY]

### 📑 論文リスト（重要度順）

#### 1. [論文タイトル]
- **著者**: [著者名]
- **カンファレンス**: [カンファレンス名 年度]
- **アブストラクト**: [論文の要約・主な貢献]
- **URL**: [論文リンク]

#### 2. [論文タイトル]
...（最大10件まで）

### 🎯 主要トレンド
[発見された主要な研究トレンドや手法]

### 🔗 カンファレンス情報
[各カンファレンスの最新開催情報]

一般的なウェブサイトやニュースサイトではなく、必ずトップカンファレンスの公式サイトや論文情報に焦点を当ててください。".

(** [/#### \d+\.\s*([\s\S]*?)(?=#### \d+\.|### 🎯|$)/g] *)
Definition sectionRegex : regex :=
  seq [lit (js "#### "); plus digit; chr (ch "."); star space;
       RGroup 1 (lazy_star any);
       RLookahead
         (RAlt (seq [lit (js "#### "); plus digit; chr (ch ".")])
               (RAlt (lit (js "### 🎯")) REnd))].

(** [/#### \d+\.\s*(.+)/] *)
Definition titleRegex : regex :=
  seq [lit (js "#### "); plus digit; chr (ch "."); star space;
       RGroup 1 (plus dot)].

(** [/\*\*LABEL\*\*:\s*(.+)/] *)
Definition fieldRegex (label : jsstring) : regex :=
  seq [lit (js "**" ++ label ++ js "**:"); star space; RGroup 1 (plus dot)].

(** [/\d{4}/] *)
Definition yearRegex : regex := seq [digit; digit; digit; digit].

(** [m?.[1]?.trim() || ''] *)
Definition field (label : jsstring) (section : jsstring) : jsstring :=
  match search (fieldRegex label) section with
  | Some m => trim (group 1 (m_caps m))
  | None => []
  end.

(** The callback of [paperMatches.slice(0, 10).forEach]. *)
Definition parseSection (section : jsstring) : option paper :=
  match search titleRegex section with
  | Some titleMatch =>
      Some {| title := trim (group 1 (m_caps titleMatch));
              authors := field (js "著者") section;
              conference := field (js "カンファレンス") section;
              year :=
                match search (fieldRegex (js "カンファレンス")) section with
                | Some m =>
                    match search yearRegex (group 1 (m_caps m)) with
                    | Some y => m_text y
                    | None => []
                    end
                | None => []
                end;
              abstract := field (js "アブストラクト") section;
              url := field (js "URL") section |}
  | None => None
  end.

Definition extractPapers (text : jsstring) : list paper :=
  fold_left
    (fun papers section =>
       match parseSection section with
       | Some p => papers ++ [p]
       | None => papers
       end)
    (firstn 10 (map m_text (all_matches sectionRegex text))) [].

(** [chunks.forEach(chunk => { if (chunk.web?.uri) citations.push(...) })] *)
Definition extractCitations (r : genResponse) : list jsstring :=
  flat_map
    (fun c => match web_uri c with
              | Val u => if is_empty u then [] else [u]
              | _ => []
              end)
    (arr_or (groundingChunks r) []).

(** [Array.from(new Set(citations))] *)
Definition unique (l : list jsstring) : list jsstring :=
  fold_left
    (fun acc x => if existsb (JsString.eqb x) acc then acc else acc ++ [x])
    l [].

(** [uniqueSources.map((source, i) => `[${i + 1}] ${source}`).join('\n')] *)
Fixpoint numbered (i : Z) (l : list jsstring) : jsstring :=
  match l with
  | [] => []
  | [x] => js "[" ++ toString (i + 1) ++ js "] " ++ x
  | x :: l' =>
      js "[" ++ toString (i + 1) ++ js "] " ++ x ++ [nl] ++ numbered (i + 1) l'
  end.

Definition apology (error : thrown) : jsstring :=
  let errorMessage :=
    match error with
    | JsError message => message
    | NonError text => text
    end in
  js "申し訳ありません。トップカンファレンス検索中にエラーが発生しました: "
  ++ errorMessage.

Definition searchTopConferences (w : genWorld) (query : jsstring)
    : M searchResult :=
  try_catch
    (genaiClient <- getGenAIClient w ;;
     let prompt := prompt query (currentDateTime w) in
     emit (Generate prompt) ;;
     response <- await (generateContent w prompt) ;;
     let text := str_or (text response) [] in
     let citations := extractCitations response in
     let papers := extractPapers text in
     let result :=
       match citations with
       | [] => text
       | _ :: _ =>
           text ++ [nl; nl] ++ js "**🔗 参考カンファレンスサイト:**" ++ [nl]
           ++ numbered 0 (unique citations)
       end in
     ret {| content := result; citations := citations; papers := papers |})
    (fun error =>
       ret {| content := apology error; citations := []; papers := [] |}).

(** [execute] of [googleGroundingSearchTool]. *)
Definition execute (w : genWorld) (query : jsstring) (searchId : Z)
    : M output :=
  try_catch
    (r <- searchTopConferences w query ;;
     ret {| o_searchId := searchId;
            o_query := query;
            o_content := content r;
            o_citations := citations r;
            o_papers := papers r;
            success := true;
            error := None |})
    (fun e =>
       ret {| o_searchId := searchId;
              o_query := query;
              o_content :=
                js "トップカンファレンス検索エラー: " ++ [dquote] ++ query
                ++ [dquote] ++ js "の検索中に問題が発生しました。";
              o_citations := [];
              o_papers := [];
              success := false;
              error := match e with
                       | JsError message => Some message
                       | NonError _ => None
                       end |}).

End Conference.


(* ================================================================= *)
(** ** Sessions: sequences of tool calls on one process *)

Module Session.

Inductive source : Type :=
| SrcArxiv | SrcSemanticScholar | SrcJstage | SrcCore | SrcConference.

Definition source_eqb (a b : source) : bool :=
  match a, b with
  | SrcArxiv, SrcArxiv | SrcSemanticScholar, SrcSemanticScholar
  | SrcJstage, SrcJstage | SrcCore, SrcCore
  | SrcConference, SrcConference => true
  | _, _ => false
  end.

(** One tool call, with its arguments and the world it runs in. *)
Inductive call : Type :=
| CallArxiv (Date_toISOString : jsstring -> option jsstring)
    (w : world jsstring) (query : jsstring) (maxResults : Z)
    (sortBy : Arxiv.sortOrder)
| CallSemanticScholar (w : world SemanticScholar.payload)
    (query : jsstring) (maxResults : Z)
| CallJstage (encodeURIComponent : jsstring -> completion jsstring)
    (stamp : nat -> jsstring) (w : world jsstring)
    (query : jsstring) (maxResults : Z)
    (material pubyearfrom pubyearto : option jsstring)
| CallCore (w : world Core.payload) (apiKey : jsopt jsstring) (fullYear : Z)
    (query : jsstring) (maxResults : Z) (yearFrom yearTo : option Z)
    (languageFilter : option (list jsstring)) (documentType : Core.docType)
| CallConference (w : Conference.genWorld) (query : jsstring) (searchId : Z).

Definition source_of (c : call) : source :=
  match c with
  | CallArxiv _ _ _ _ _ => SrcArxiv
  | CallSemanticScholar _ _ _ => SrcSemanticScholar
  | CallJstage _ _ _ _ _ _ _ _ => SrcJstage
  | CallCore _ _ _ _ _ _ _ _ _ => SrcCore
  | CallConference _ _ _ => SrcConference
  end.

(** Runs the call; the value kept is the number of papers returned. *)
Definition invoke (c : call) : M nat :=
  match c with
  | CallArxiv iso w q m s =>
      bind (Arxiv.searchArxiv iso w q m s)
           (fun o => ret (length (Arxiv.papers o)))
  | CallSemanticScholar w q m =>
      bind (SemanticScholar.searchSemanticScholar w q m)
           (fun o => ret (length (SemanticScholar.papers o)))
  | CallJstage enc stamp w q m mat yf yt =>
      bind (Jstage.searchJstage enc stamp w q m mat yf yt)
           (fun o => ret (length (Jstage.papers o)))
  | CallCore w k y q m yf yt lf dt =>
      bind (Core.execute w k y q m yf yt lf dt)
           (fun o => ret (length (Core.papers o)))
  | CallConference w q sid =>
      bind (Conference.execute w q sid)
           (fun o => ret (length (Conference.o_papers o)))
  end.

(** The calls are made one after the other on the same store. *)
Fixpoint run (cs : list call) (st : store)
    : store * list (source * completion nat) :=
  match cs with
  | [] => (st, [])
  | c :: cs' =>
      let o := invoke c st in
      let (st', rs) := run cs' (out_store o) in
      (st', (source_of c, out_value o) :: rs)
  end.

Definition all_succeeded (rs : list (source * completion nat)) : bool :=
  forallb (fun r => negb (is_throw (snd r))) rs.

(** Number of papers returned by the calls to one source. *)
Fixpoint returned (src : source) (rs : list (source * completion nat)) : nat :=
  match rs with
  | [] => 0
  | (s, Return n) :: rs' =>
      (if source_eqb s src then n else 0) + returned src rs'
  | (_, Throw _) :: rs' => returned src rs'
  end.

(** All the entries collected in the process. *)
Definition collector_size (st : store) : nat :=
  length (collectedArxivUrls st) + length (collectedUrls st)
  + length (collectedJstageUrls st).

End Session.

(* ================================================================= *)
(** ** Vocabulary of the statements *)

(** The upstream answers the request with a 2xx response whose body
    reads as [b]. *)
Definition answers {B} (w : world B) (req : request) (b : B) : Prop :=
  exists r, fetch w req = Return r /\ ok r = true /\ body r = Return b.

(** The request fails upstream: [fetch] rejects, the status is not 2xx,
    or reading the body rejects. *)
Definition fails {B} (w : world B) (req : request) : bool :=
  match fetch w req with
  | Throw _ => true
  | Return r => negb (ok r) || is_throw (body r)
  end.

(** The completion is a value or a thrown Error object, never another
    thrown value. *)
Definition value_or_error {A} (c : completion A) : bool :=
  match c with
  | Throw (NonError _) => false
  | _ => true
  end.

(** The requests a call has sent. *)
Definition sent {A} (o : outcome A) : list request :=
  flat_map (fun e => match e with Fetch r => [r] | _ => [] end) (out_trace o).

(** The upstream answers with a 2xx status. *)
Definition upstream_ok {B} (w : world B) (req : request) : bool :=
  match fetch w req with
  | Return r => ok r
  | Throw _ => false
  end.

(** What a loop that pushes on success keeps of one element. *)
Definition keep {A B} (g : A -> option B) (x : A) : list B :=
  match g x with
  | Some y => [y]
  | None => []
  end.

(** The errors the [catch] clauses rethrow. *)
Definition arxiv_failure (e : thrown) : thrown :=
  JsError (match e with
           | JsError m => js "Failed to search arXiv: " ++ m
           | NonError _ => js "Failed to search arXiv: Unknown error"
           end).

Definition s2_failure (e : thrown) : thrown :=
  JsError (match e with
           | JsError m => js "Failed to search Semantic Scholar: " ++ m
           | NonError _ => js "Failed to search Semantic Scholar: Unknown error"
           end).

Definition jstage_failure (e : thrown) : thrown :=
  JsError (match e with
           | JsError m => js "Failed to search J-STAGE: " ++ m
           | NonError _ => js "Failed to search J-STAGE: Unknown error"
           end).

(** The message Semantic Scholar throws on a response that is not 2xx. *)
Definition s2_http_error (r : response SemanticScholar.payload) : thrown :=
  JsError (if (status r =? 429)%Z
           then js "Semantic Scholar API rate limit exceeded. Please try again later."
           else js "Semantic Scholar API request failed: "
                ++ toString (status r) ++ js " " ++ statusText r).

(** What [searchSemanticScholar] does once the gate is passed. *)
Definition s2_after_gate (w : world SemanticScholar.payload) (q : jsstring)
    (m : Z) (st : store) : outcome SemanticScholar.output :=
  let req := SemanticScholar.build_request q m in
  match fetch w req with
  | Throw e =>
      {| out_store := st; out_trace := [Fetch req];
         out_value := Throw (s2_failure e) |}
  | Return r =>
      if ok r then
        match body r with
        | Return d =>
            let records := arr_or (SemanticScholar.data d) [] in
            {| out_store :=
                 set_collectedUrls
                   (collectedUrls st
                    ++ map (fun p => SemanticScholar.collect
                                       (SemanticScholar.paperData p)) records)
                   (set_lastSemanticScholarCall (Date_now w 1) st);
               out_trace := [Fetch req];
               out_value :=
                 Return {| SemanticScholar.papers :=
                             map (fun p => SemanticScholar.simplify
                                             (SemanticScholar.paperData p))
                                 records |} |}
        | Throw e =>
            {| out_store := set_lastSemanticScholarCall (Date_now w 1) st;
               out_trace := [Fetch req];
               out_value := Throw (s2_failure e) |}
        end
      else
        {| out_store := st; out_trace := [Fetch req];
           out_value := Throw (s2_failure (s2_http_error r)) |}
  end.

(** The URL J-STAGE keeps for a paper: its own, or a search link on its
    title. *)
Definition collected_url (enc : jsstring -> completion jsstring)
    (p : Jstage.JstagePaper) : completion jsstring :=
  if is_empty (Jstage.url p) then
    match enc (Jstage.title p) with
    | Return t =>
        Return (js "https://www.jstage.jst.go.jp/search/global/_search/-char/ja?item=" ++ t)
    | Throw e => Throw e
    end
  else Return (Jstage.url p).

(** What [searchJstage] does once the gate is passed. *)
Definition jstage_after_gate (enc : jsstring -> completion jsstring)
    (stamp : nat -> jsstring) (w : world jsstring) (q : jsstring) (m : Z)
    (mat yf yt : option jsstring) (st : store) : outcome Jstage.output :=
  let req := Jstage.build_request q m mat yf yt in
  match fetch w req with
  | Throw e =>
      {| out_store := st; out_trace := [Fetch req];
         out_value := Throw (jstage_failure e) |}
  | Return r =>
      if ok r then
        match body r with
        | Return xml =>
            let papers := Jstage.parseJstageXML xml in
            let c := Jstage.forEach (Jstage.collect enc stamp) 0 papers
                       (set_lastJstageCall (Date_now w 1) st) in
            {| out_store := out_store c;
               out_trace := [Fetch req];
               out_value :=
                 match out_value c with
                 | Return _ =>
                     Return {| Jstage.papers := map Jstage.simplify papers;
                               Jstage.totalResults :=
                                 Jstage.extractTotalHits xml |}
                 | Throw e => Throw (jstage_failure e)
                 end |}
        | Throw e =>
            {| out_store := set_lastJstageCall (Date_now w 1) st;
               out_trace := [Fetch req];
               out_value := Throw (jstage_failure e) |}
        end
      else
        {| out_store := st; out_trace := [Fetch req];
           out_value :=
             Throw (jstage_failure (JsError
               (js "J-STAGE API request failed: " ++ toString (status r)
                ++ js " " ++ statusText r))) |}
  end.

(** The degraded result of CORE. *)
Definition core_empty : Core.output :=
  {| Core.papers := []; Core.totalResults := 0 |}.

(** What the [catch] clause of [searchTopConferences] returns. *)
Definition degraded (e : thrown) : Conference.searchResult :=
  {| Conference.content := Conference.apology e;
     Conference.citations := [];
     Conference.papers := [] |}.

(** What [searchTopConferences] returns on a response. *)
Definition rendered (response : Conference.genResponse)
    : Conference.searchResult :=
  let text := str_or (Conference.text response) [] in
  let citations := Conference.extractCitations response in
  {| Conference.content :=
       match citations with
       | [] => text
       | _ :: _ =>
           text ++ [Conference.nl; Conference.nl]
           ++ js "**🔗 参考カンファレンスサイト:**" ++ [Conference.nl]
           ++ Conference.numbered 0 (Conference.unique citations)
       end;
     Conference.citations := citations;
     Conference.papers := Conference.extractPapers text |}.

(** A client exists already, or one of the two keys is set. *)
Definition client_available (w : Conference.genWorld) (st : store) : bool :=
  match genai st with
  | Some _ => true
  | None =>
      negb (is_empty
              (str_or (Conference.GEMINI_API_KEY w)
                      (str_or (Conference.GOOGLE_GENERATIVE_AI_API_KEY w) [])))
  end.

(** What a call that returns [n] papers from [src] has added to the
    three collectors. *)
Definition grows (src : Session.source) (n : nat) (st st' : store) : Prop :=
  (exists a, collectedArxivUrls st' = collectedArxivUrls st ++ a
             /\ length a = if Session.source_eqb src Session.SrcArxiv
                           then n else 0)
  /\ (exists s, collectedUrls st' = collectedUrls st ++ s
                /\ length s = if Session.source_eqb src Session.SrcSemanticScholar
                              then n else 0)
  /\ (exists j, collectedJstageUrls st' = collectedJstageUrls st ++ j
                /\ length j = if Session.source_eqb src Session.SrcJstage
                              then n else 0).

Arguments js : simpl never.
Arguments toString : simpl never.
Arguments Conference.prompt : simpl never.


(* ================================================================= *)
(** ** Sample inputs *)

Module Samples.

Local Open Scope Z_scope.

(** [ name="value"] *)
Definition attr (name value : jsstring) : jsstring :=
  js " " ++ name ++ js "=" ++ [dquote] ++ value ++ [dquote].

(** An Atom feed of three entries: a complete one whose link is the
    abstract page, one without a title, one without any link. *)
Definition atom_feed : jsstring :=
  js "<feed><entry><id>http://arxiv.org/abs/2301.12345</id><title>Attention</title><summary>On attention.</summary><published>2023-01-30T00:00:00Z</published><author><name>Ann</name></author><link"
  ++ attr (js "href") (js "https://arxiv.org/abs/2301.12345")
  ++ attr (js "rel") (js "alternate") ++ attr (js "type") (js "text/html")
  ++ js "/></entry><entry><id>http://arxiv.org/abs/2302.00001</id><summary>No title here.</summary></entry><entry><id>http://arxiv.org/abs/2303.00002</id><title>No link</title></entry></feed>".

(** A platform on which the date strings of the feed are already in
    ISO form. *)
Definition iso : jsstring -> option jsstring := fun s => Some s.

(** The third entry of [atom_feed], which carries no link, and what
    [parseEntry] makes of it. *)
Definition linkless_entry : jsstring :=
  js "<id>http://arxiv.org/abs/2303.00002</id><title>No link</title>".

Definition linkless_paper : Arxiv.ArxivEntry :=
  {| Arxiv.id := js "2303.00002";
     Arxiv.title := js "No link";
     Arxiv.authors := [];
     Arxiv.abstract := [];
     Arxiv.categories := [];
     Arxiv.published := [];
     Arxiv.updated := [];
     Arxiv.link := js "https://arxiv.org/abs/2303.00002" |}.

(** What a search on [atom_feed] returns for its first entry. *)
Definition attention_paper : Arxiv.simplifiedPaper :=
  {| Arxiv.sp_title := js "Attention";
     Arxiv.sp_abstract := js "On attention.";
     Arxiv.sp_published := js "2023-01-30";
     Arxiv.pdfLink := js "https://arxiv.org/pdf/2301.12345.pdf";
     Arxiv.arxivId := js "2301.12345" |}.

Definition ok_response {B} (b : B) : response B :=
  {| ok := true; status := 200; statusText := js "OK"; body := Return b |}.

Definition error_response {B} (code : Z) (text : jsstring) : response B :=
  {| ok := false; status := code; statusText := text;
     body := Throw (JsError (js "body not read")) |}.

(** A world whose clock reads [t0] first and [t1] afterwards, and whose
    upstream always settles as [r]. *)
Definition world_at {B} (t0 t1 : Z) (r : completion (response B)) : world B :=
  {| Date_now := fun k => match k with O => t0 | S _ => t1 end;
     fetch := fun _ => r |}.

(** A process whose last arXiv call succeeded at 100000 ms. *)
Definition after_arxiv_call : store := set_lastArxivCall 100000 initial_store.

(** A Semantic Scholar record with only an id and a title. *)
Definition s2_record (paperId title : jsopt jsstring)
    : SemanticScholar.rawPaper :=
  {| SemanticScholar.r_paperId := paperId;
     SemanticScholar.r_title := title;
     SemanticScholar.r_abstract := Undefined;
     SemanticScholar.r_authors := Undefined;
     SemanticScholar.r_year := Undefined;
     SemanticScholar.r_citationCount := Undefined;
     SemanticScholar.r_venue := Undefined;
     SemanticScholar.r_publicationTypes := Undefined;
     SemanticScholar.r_url := Undefined;
     SemanticScholar.r_openAccessPdf := Undefined;
     SemanticScholar.r_fieldsOfStudy := Undefined |}.

Definition s2_payload (records : list SemanticScholar.rawPaper)
    : SemanticScholar.payload :=
  {| SemanticScholar.data := Val records;
     SemanticScholar.total := Val (Z.of_nat (length records)) |}.

(** A record that has an id and no title. *)
Definition untitled : SemanticScholar.rawPaper :=
  s2_record (Val (js "649def34")) Undefined.

Definition titled : SemanticScholar.rawPaper :=
  s2_record (Val (js "0f2a8c11")) (Val (js "Graph search")).

(** A CORE result with only an id and a title. *)
Definition core_record (id title : jsopt jsstring) : Core.rawResult :=
  {| Core.r_id := id;
     Core.r_title := title;
     Core.r_authors := Undefined;
     Core.r_abstract := Undefined;
     Core.r_year := Undefined;
     Core.r_language := Undefined;
     Core.r_repository := Undefined;
     Core.r_doi := Undefined;
     Core.r_downloadUrl := Undefined;
     Core.r_subjects := Undefined;
     Core.r_type := Undefined |}.

Definition core_payload (records : list Core.rawResult) : Core.payload :=
  {| Core.results := Val records; Core.totalHits := Undefined |}.

(** A J-STAGE answer of two items, the second without a title. *)
Definition jstage_feed : jsstring :=
  js "<rss><opensearch:totalResults>2</opensearch:totalResults><item><title>Kanji OCR</title><link>https://www.jstage.jst.go.jp/article/x/1</link><dc:creator>Sato</dc:creator><prism:doi>10.1/x</prism:doi></item><item><description>untitled</description><link>https://www.jstage.jst.go.jp/article/x/2</link></item></rss>".

(** A platform whose [encodeURIComponent] leaves its argument as it
    is, and the stamp of the paper at an index. *)
Definition enc : jsstring -> completion jsstring := fun s => Return s.
Definition stamp : nat -> jsstring := fun i => toString (Z.of_nat i) ++ js "-0.5".

(** A generated report of two numbered sections, the second without a
    title line. *)
Definition report : jsstring :=
  js "### list
#### 1. Sparse attention
- **URL**: https://icml.cc/1

#### 2.

".

Definition gen_world (r : completion Conference.genResponse)
    : Conference.genWorld :=
  {| Conference.GEMINI_API_KEY := Val (js "key");
     Conference.GOOGLE_GENERATIVE_AI_API_KEY := Undefined;
     Conference.currentDateTime := js "2025/6/1 10:00";
     Conference.generateContent := fun _ => r |}.

Definition gen_response (text : jsstring) : Conference.genResponse :=
  {| Conference.text := Val text; Conference.groundingChunks := Undefined |}.

End Samples.


(* ================================================================= *)
(** ** The exported accessors of the collectors *)

Module Collectors.

(** [getCollectedArxivUrls], [getCollectedUrls], [getCollectedJstageUrls] *)
Definition getCollectedArxivUrls : M (list collected) := gets collectedArxivUrls.
Definition getCollectedUrls : M (list collected) := gets collectedUrls.
Definition getCollectedJstageUrls : M (list collected) := gets collectedJstageUrls.

(** [clearCollectedArxivUrls], [clearCollectedUrls],
    [clearCollectedJstageUrls]: the variable is bound to a fresh empty
    array. *)
Definition clearCollectedArxivUrls : M unit := modify (set_collectedArxivUrls []).
Definition clearCollectedUrls : M unit := modify (set_collectedUrls []).
Definition clearCollectedJstageUrls : M unit := modify (set_collectedJstageUrls []).

End Collectors.

(* ================================================================= *)
(** ** Vocabulary of the further properties *)

(** An entry of a collector is usable: it has a link, and it is tagged
    with the name of its source. *)
Definition entry_ok (source : jsstring) (c : collected) : Prop :=
  c_url c <> [] /\ c_source c = source.

Definition collectors_ok (st : store) : Prop :=
  Forall (entry_ok (js "arXiv")) (collectedArxivUrls st)
  /\ Forall (entry_ok (js "Semantic Scholar")) (collectedUrls st)
  /\ Forall (entry_ok (js "J-STAGE")) (collectedJstageUrls st).

(** The suspensions and the generations of a call. *)
Definition sleeps {A} (o : outcome A) : list Z :=
  flat_map (fun e => match e with Sleep ms => [ms] | _ => [] end) (out_trace o).

Definition generations {A} (o : outcome A) : list jsstring :=
  flat_map (fun e => match e with Generate p => [p] | _ => [] end)
           (out_trace o).

(** The seconds the cooldown error of arXiv announces. *)
Definition announced_wait (waitTime : Z) : Z := ceil_div waitTime 1000.

(** A code unit that [.] accepts, and a code unit of a normalised text,
    where the only white space is U+0020. *)
Definition on_a_line (x : jschar) : Prop := is_line_terminator x = false.
Definition plain (x : jschar) : Prop := is_space x = true -> x = 32%N.

(** A paper the conference search extracts: each field is a single
    line, the year is empty or four digits. *)
Definition extracted_ok (p : Conference.paper) : Prop :=
  Forall on_a_line (Conference.title p)
  /\ Forall on_a_line (Conference.authors p)
  /\ Forall on_a_line (Conference.conference p)
  /\ Forall on_a_line (Conference.abstract p)
  /\ Forall on_a_line (Conference.url p)
  /\ (Conference.year p = []
      \/ (length (Conference.year p) = 4%nat
          /\ Forall (fun x => is_digit x = true) (Conference.year p))).

(** A generated report of one section with every field. *)
Definition full_report : jsstring :=
  js "#### 1. Sparse attention
- **著者**: A. Author, B. Author
- **カンファレンス**: ICML 2024
- **アブストラクト**: We study sparsity.
- **URL**: https://icml.cc/1
".

(** A call of one source leaves the state of the others alone: the
    last-call times of the other cooldowns, and the client of the
    conference search. *)
Definition own_state_only (src : Session.source) (st st' : store) : Prop :=
  (if Session.source_eqb src Session.SrcArxiv then True
   else lastArxivCall st' = lastArxivCall st)
  /\ (if Session.source_eqb src Session.SrcSemanticScholar then True
      else lastSemanticScholarCall st' = lastSemanticScholarCall st)
  /\ (if Session.source_eqb src Session.SrcJstage then True
      else lastJstageCall st' = lastJstageCall st)
  /\ (if Session.source_eqb src Session.SrcConference then True
      else genai st' = genai st).

(** The entry the collecting loop of J-STAGE pushes for the paper at an
    index, [url] being the link it keeps for it. *)
Definition jstage_entry (stamp : nat -> jsstring) (index : nat)
    (paper : Jstage.JstagePaper) (url : jsstring) : collected :=
  {| c_id := or_else (Jstage.doi paper) (js "jstage-" ++ stamp index);
     c_title := Jstage.title paper;
     c_url := url;
     c_source := js "J-STAGE" |}.

(** The cooldowns and the client are those of another store. *)
Definition clocks_and_client_kept (st st' : store) : Prop :=
  lastArxivCall st' = lastArxivCall st
  /\ lastSemanticScholarCall st' = lastSemanticScholarCall st
  /\ lastJstageCall st' = lastJstageCall st
  /\ genai st' = genai st.

(** The lines of the list of sources under a report: one per source,
    numbered from one. *)
Fixpoint source_lines (i : Z) (l : list jsstring) : list jsstring :=
  match l with
  | [] => []
  | x :: l' =>
      (js "[" ++ toString (i + 1) ++ js "] " ++ x) :: source_lines (i + 1) l'
  end.

(** A J-STAGE answer whose item names four authors, and a CORE answer
    whose record names five. *)
Definition crowded_feed : jsstring :=
  js "<rss><opensearch:totalResults>1</opensearch:totalResults><item><title>Kanji OCR</title><link>https://www.jstage.jst.go.jp/article/x/1</link><dc:creator>Sato</dc:creator><dc:creator>Suzuki</dc:creator><dc:creator>Takahashi</dc:creator><dc:creator>Tanaka</dc:creator></item></rss>".

Definition crowded_record : Core.rawResult :=
  {| Core.r_id := Val (js "1");
     Core.r_title := Val (js "T");
     Core.r_authors :=
       Val [Core.AStr (js "A"); Core.AObj (Val (js "B")); Core.AStr (js "C");
            Core.AStr (js "D"); Core.AStr (js "E")];
     Core.r_abstract := Undefined;
     Core.r_year := Undefined;
     Core.r_language := Undefined;
     Core.r_repository := Undefined;
     Core.r_doi := Undefined;
     Core.r_downloadUrl := Undefined;
     Core.r_subjects := Undefined;
     Core.r_type := Undefined |}.

(** A generated report of eleven titled sections. *)
Definition eleven_sections : jsstring :=
  flat_map (fun n => js "#### " ++ toString n ++ js ". Paper "
                     ++ toString n ++ [Conference.nl])
           [1; 2; 3; 4; 5; 6; 7; 8; 9; 10; 11]%Z.

(** A response that cites two pages, the first of them twice, among
    chunks of which one has no link. *)
Definition cited_response : Conference.genResponse :=
  {| Conference.text := Val full_report;
     Conference.groundingChunks :=
       Val [{| Conference.web_uri := Val (js "https://icml.cc/1") |};
            {| Conference.web_uri := Val (js "https://neurips.cc/2") |};
            {| Conference.web_uri := Undefined |};
            {| Conference.web_uri := Val (js "https://icml.cc/1") |}] |}.

(** A process in which every tool has been used: each collector holds an
    entry, each cooldown has started, and the client exists. *)
Definition busy_store : store :=
  {| lastArxivCall := 100000;
     collectedArxivUrls :=
       [{| c_id := js "2401.00001"; c_title := js "A";
           c_url := js "https://arxiv.org/abs/2401.00001";
           c_source := js "arXiv" |}];
     lastSemanticScholarCall := 4000;
     collectedUrls :=
       [{| c_id := js "p1"; c_title := js "B";
           c_url := js "https://www.semanticscholar.org/paper/p1";
           c_source := js "Semantic Scholar" |}];
     lastJstageCall := 4500;
     collectedJstageUrls :=
       [{| c_id := js "10.1/x"; c_title := js "C";
           c_url := js "https://www.jstage.jst.go.jp/article/x/1";
           c_source := js "J-STAGE" |}];
     genai := Some (js "key") |}.


(* ================================================================= *)
(** ** What a match of a pattern is *)

(** [star_steps R] iterates [R], each turn consuming something. *)
Inductive star_steps (R : jsstring -> caps -> jsstring -> caps -> Prop)
    : jsstring -> caps -> jsstring -> caps -> Prop :=
| star_done (s : jsstring) (c : caps) : star_steps R s c s c
| star_more (s : jsstring) (c : caps) (s1 : jsstring) (c1 : caps)
    (s' : jsstring) (c' : caps) :
    R s c s1 c1 -> (length s1 < length s)%nat ->
    star_steps R s1 c1 s' c' -> star_steps R s c s' c'.

(** [steps r s c s' c']: the pattern [r] can match at the head of [s],
    leaving [s'], and turn the captures [c] into [c']. *)
Fixpoint steps (r : regex) (s : jsstring) (c : caps)
    (s' : jsstring) (c' : caps) : Prop :=
  match r with
  | RChar p => exists x, s = x :: s' /\ p x = true /\ c' = c
  | REmpty => s' = s /\ c' = c
  | RSeq a b => exists s1 c1, steps a s c s1 c1 /\ steps b s1 c1 s' c'
  | RAlt a b => steps a s c s' c' \/ steps b s c s' c'
  | RStar _ a => star_steps (steps a) s c s' c'
  | RGroup i a =>
      exists c1, steps a s c s' c1
                 /\ c' = (i, firstn (length s - length s') s) :: c1
  | RLookahead a => s' = s /\ exists s1, steps a s c s1 c'
  | REnd => s = [] /\ s' = [] /\ c' = c
  end.

(** The loop of the matcher on a star, on its own. *)
Section StarLoop.

Variable step : jsstring -> caps
                -> (jsstring -> caps -> option (jsstring * caps))
                -> option (jsstring * caps).
Variable greedy : bool.
Variable k : jsstring -> caps -> option (jsstring * caps).

Fixpoint star_loop (n : nat) (s : jsstring) (c : caps) {struct n}
    : option (jsstring * caps) :=
  match n with
  | O => k s c
  | S n' =>
      if greedy then
        match step s c (fun s' c' =>
                 if (length s' <? length s)%nat
                 then star_loop n' s' c' else None) with
        | Some m => Some m
        | None => k s c
        end
      else
        match k s c with
        | Some m => Some m
        | None =>
            step s c (fun s' c' =>
              if (length s' <? length s)%nat
              then star_loop n' s' c' else None)
        end
  end.

End StarLoop.

(* ================================================================= *)
(** ** The Brave web search (brave-search-tool.ts) *)

Module Brave.

Local Open Scope Z_scope.
Local Open Scope js_scope.

(** An element of [data.web.results], as parsed from JSON; only the
    three fields the tool reads. *)
Record BraveSearchResult : Type := {
  r_title : jsopt jsstring;
  r_url : jsopt jsstring;
  r_description : jsopt jsstring
}.

Record webPart : Type := {
  web_results : jsopt (list (jsopt BraveSearchResult));
  total_count : jsopt Z
}.

Record queryPart : Type := { original : jsopt jsstring }.

(** [BraveSearchResponse] *)
Record payload : Type := {
  web : jsopt webPart;
  query : jsopt queryPart
}.

(** What [fetch] resolves to; the tool reads the body as text on an
    error status and as JSON otherwise. *)
Record httpResponse : Type := {
  h_ok : bool;
  h_status : Z;
  h_text : completion jsstring;
  h_json : completion payload
}.

(** The world of one call: the environment variable, the text of
    [getCurrentDateTime()], what [fetch] resolves to, and the message of
    the TypeError of the platform on reading a property of [undefined]
    or [null]. *)
Record braveWorld : Type := {
  BRAVE_SEARCH_API_KEY : jsopt jsstring;
  currentDateTime : jsstring;
  brave_fetch : request -> completion httpResponse;
  typeError : jsstring
}.

(** The value [searchWithBraveAPI] resolves to. *)
Record searched : Type := {
  s_results : list (jsopt BraveSearchResult);
  s_totalResults : jsopt Z;
  s_query : jsopt jsstring
}.

Record formatted : Type := {
  title : jsopt jsstring;
  url : jsopt jsstring;
  description : jsopt jsstring
}.

Record output : Type := {
  results : list formatted;
  searchQuery : jsopt jsstring;
  timestamp : jsstring
}.

Definition prefix : jsstring := js "Brave Search API error: ".

Definition build_request (apiKey query : jsstring) : request :=
  {| req_base := js "https://api.search.brave.com/res/v1/web/search";
     req_params :=
       [(js "q", query); (js "count", js "10"); (js "offset", js "0");
        (js "country", js "JP"); (js "search_lang", js "jp");
        (js "ui_lang", js "ja-JP"); (js "freshness", js "pd");
        (js "text_decorations", js "true"); (js "spellcheck", js "true")];
     req_headers :=
       [(js "Accept", js "application/json");
        (js "Accept-Encoding", js "gzip");
        (js "X-Subscription-Token", apiKey)] |}.

(** [error instanceof Error ? error.message : String(error)] *)
Definition message_of (error : thrown) : jsstring :=
  match error with
  | JsError message => message
  | NonError text => text
  end.

Definition searchWithBraveAPI (w : braveWorld) (q : jsstring) : M searched :=
  try_catch
    (apiKey <- match BRAVE_SEARCH_API_KEY w with
               | Val k =>
                   if is_empty k then
                     throw (JsError (js "Brave Search API key not found. Please set BRAVE_SEARCH_API_KEY environment variable."))
                   else ret k
               | _ =>
                   throw (JsError (js "Brave Search API key not found. Please set BRAVE_SEARCH_API_KEY environment variable."))
               end ;;
     let req := build_request apiKey q in
     emit (Fetch req) ;;
     response <- await (brave_fetch w req) ;;
     if negb (h_ok response) then
       errorText <- await (h_text response) ;;
       throw (JsError (prefix ++ toString (h_status response) ++ js " - "
                       ++ errorText))
     else
       data <- await (h_json response) ;;
       let results :=
         match web data with
         | Val wp => arr_or (web_results wp) []
         | _ => []
         end in
       let totalResults :=
         match web data with
         | Val wp => total_count wp
         | _ => Undefined
         end in
       match query data with
       | Val qp =>
           ret {| s_results := results;
                  s_totalResults := totalResults;
                  s_query := original qp |}
       | _ => throw (JsError (typeError w))
       end)
    (fun error => throw (JsError (prefix ++ message_of error))).

(** [a.slice(0, end)] for an integral [end]: a negative [end] counts
    from the end of the array. *)
Definition slice_to {A} (n : Z) (l : list A) : list A :=
  if n <? 0 then firstn (Z.to_nat (Z.of_nat (length l) + n)) l
  else firstn (Z.to_nat n) l.

(** [Array.prototype.map] with a callback that can throw: the first
    throw ends it. *)
Fixpoint map_c {A B} (f : A -> completion B) (l : list A)
    : completion (list B) :=
  match l with
  | [] => Return []
  | x :: l' =>
      match f x with
      | Throw e => Throw e
      | Return b =>
          match map_c f l' with
          | Throw e => Throw e
          | Return bs => Return (b :: bs)
          end
      end
  end.

(** The callback of [results.slice(0, maxResults).map], on an object
    and on any element: reading a field of [null] throws. *)
Definition shape (result : BraveSearchResult) : formatted :=
  {| title := r_title result; url := r_url result;
     description := r_description result |}.

Definition format (typeError : jsstring) (result : jsopt BraveSearchResult)
    : completion formatted :=
  match result with
  | Val r => Return (shape r)
  | _ => Throw (JsError typeError)
  end.

(** [execute] of [braveSearchTool]; [maxResults] is integral. *)
Definition execute (w : braveWorld) (q : jsstring) (maxResults : Z)
    : M output :=
  let searchTime := currentDateTime w in
  try_catch
    (r <- searchWithBraveAPI w q ;;
     formattedResults <-
       await (map_c (format (typeError w)) (slice_to maxResults (s_results r))) ;;
     ret {| results := formattedResults;
            searchQuery := s_query r;
            timestamp := searchTime |})
    (fun _ =>
       ret {| results := []; searchQuery := Val q; timestamp := searchTime |}).

End Brave.

(** The key of the Brave search is set. *)
Definition brave_key (w : Brave.braveWorld) : option jsstring :=
  match Brave.BRAVE_SEARCH_API_KEY w with
  | Val k => if is_empty k then None else Some k
  | _ => None
  end.

(** What the Brave search answers when anything goes wrong. *)
Definition brave_empty (w : Brave.braveWorld) (q : jsstring) : Brave.output :=
  {| Brave.results := []; Brave.searchQuery := Val q;
     Brave.timestamp := Brave.currentDateTime w |}.

(** The upstream of the Brave search answers with a 2xx status and a
    body that parses. *)
Definition brave_answers (w : Brave.braveWorld) (req : request)
    (d : Brave.payload) : Prop :=
  exists r, Brave.brave_fetch w req = Return r
            /\ Brave.h_ok r = true /\ Brave.h_json r = Return d.

Module BraveSamples.

Definition hit (n : jsstring) : Brave.BraveSearchResult :=
  {| Brave.r_title := Val (js "Result " ++ n);
     Brave.r_url := Val (js "https://example.org/" ++ n);
     Brave.r_description := Undefined |}.

Definition hits : list Brave.BraveSearchResult :=
  [hit (js "1"); hit (js "2"); hit (js "3")].

Definition found : Brave.payload :=
  {| Brave.web := Val {| Brave.web_results := Val (map Val hits);
                         Brave.total_count := Val 3%Z |};
     Brave.query := Val {| Brave.original := Val (js "sparse attention") |} |}.

Definition answer (d : Brave.payload) : Brave.httpResponse :=
  {| Brave.h_ok := true; Brave.h_status := 200%Z;
     Brave.h_text := Return []; Brave.h_json := Return d |}.

Definition refusal : Brave.httpResponse :=
  {| Brave.h_ok := false; Brave.h_status := 429%Z;
     Brave.h_text := Return (js "rate limited");
     Brave.h_json := Throw (JsError (js "Unexpected token")) |}.

Definition brave_world (key : jsopt jsstring)
    (r : completion Brave.httpResponse) : Brave.braveWorld :=
  {| Brave.BRAVE_SEARCH_API_KEY := key;
     Brave.currentDateTime := js "2025/6/1 10:00";
     Brave.brave_fetch := fun _ => r;
     Brave.typeError := js "Cannot read properties of undefined" |}.

End BraveSamples.


(** Runs the monadic plumbing of a computation. *)
Ltac run_m :=
  cbv beta iota zeta delta
    [bind gets try_catch do_fetch emit await modify ret throw sleep negb];
  cbn [out_value out_store out_trace app].

(* ================================================================= *)
(** ** Strings *)

Lemma char_eqb_refl (c : jschar) : char_eqb c c = true.
Proof. apply N.eqb_refl. Qed.

Lemma startsWith_app (p s : jsstring) : startsWith (p ++ s) p = true.
Proof.
  induction p as [|c p IH]; [reflexivity|].
  simpl. now rewrite char_eqb_refl, IH.
Qed.

Lemma endsWith_app (s p : jsstring) : endsWith (s ++ p) p = true.
Proof. unfold endsWith. rewrite rev_app_distr. apply startsWith_app. Qed.

Lemma endsWith_nonempty (s p : jsstring) :
  p <> [] -> endsWith s p = true -> s <> [].
Proof.
  intros Hp H ->. unfold endsWith in H. simpl in H.
  destruct (rev p) eqn:E; [|discriminate].
  apply Hp. rewrite <- (rev_involutive p), E. reflexivity.
Qed.

Lemma is_empty_true (s : jsstring) : is_empty s = true <-> s = [].
Proof. destruct s; simpl; split; congruence. Qed.

(** A loop that pushes onto an array is a [flat_map]. *)
Lemma fold_push {A B} (f : A -> list B) (l : list A) (acc : list B) :
  fold_left (fun acc x => acc ++ f x) l acc = acc ++ flat_map f l.
Proof.
  revert acc. induction l as [|x l IH]; intros acc; simpl.
  - now rewrite app_nil_r.
  - now rewrite IH, app_assoc.
Qed.

Lemma fold_push_some {A B} (g : A -> option B) (l : list A) (acc : list B) :
  fold_left (fun acc x => match g x with
                          | Some y => acc ++ [y]
                          | None => acc
                          end) l acc
  = acc ++ flat_map (keep g) l.
Proof.
  revert acc. induction l as [|x l IH]; intros acc; simpl.
  - now rewrite app_nil_r.
  - rewrite IH. unfold keep at 2. destruct (g x); simpl.
    + now rewrite <- app_assoc.
    + reflexivity.
Qed.

(* ================================================================= *)
(** ** The store *)

Lemma set_collectedUrls_id st : set_collectedUrls (collectedUrls st) st = st.
Proof. now destruct st. Qed.

Lemma set_collectedJstageUrls_id st :
  set_collectedJstageUrls (collectedJstageUrls st) st = st.
Proof. now destruct st. Qed.

(* ================================================================= *)
(** ** arXiv *)

Section ArxivFacts.
Import Arxiv.
Local Open Scope Z_scope.
Variable toISO : jsstring -> option jsstring.

(** [searchArxiv], case by case. *)
Lemma searchArxiv_unfold w q m s st :
  searchArxiv toISO w q m s st =
  let now := Date_now w 0 in
  let req := build_request q m s in
  if now - lastArxivCall st <? ARXIV_COOLDOWN_MS then
    {| out_store := st; out_trace := [];
       out_value := Throw (JsError (cooldown_message
          (ARXIV_COOLDOWN_MS - (now - lastArxivCall st)))) |}
  else
    match fetch w req with
    | Throw e =>
        {| out_store := st; out_trace := [Fetch req];
           out_value := Throw (arxiv_failure e) |}
    | Return r =>
        if ok r then
          match body r with
          | Return xml =>
              {| out_store :=
                   set_collectedArxivUrls
                     (collectedArxivUrls st
                      ++ map collect (parseArxivXML toISO xml))
                     (set_lastArxivCall now st);
                 out_trace := [Fetch req];
                 out_value :=
                   Return {| papers := map simplify (parseArxivXML toISO xml) |} |}
          | Throw e =>
              {| out_store := set_lastArxivCall now st;
                 out_trace := [Fetch req];
                 out_value := Throw (arxiv_failure e) |}
          end
        else
          {| out_store := st; out_trace := [Fetch req];
             out_value :=
               Throw (arxiv_failure (JsError
                 (js "arXiv API request failed: " ++ toString (status r)
                  ++ js " " ++ statusText r))) |}
    end.
Proof.
  unfold searchArxiv. run_m.
  destruct (_ <? _); [reflexivity|]. run_m.
  destruct (fetch w _) as [r|e]; run_m.
  - destruct (ok r); run_m.
    + destruct (body r) as [xml|e]; run_m.
      * reflexivity.
      * destruct e; reflexivity.
    + reflexivity.
  - destruct e; reflexivity.
Qed.

Lemma fold_parseArxivXML xml :
  parseArxivXML toISO xml = flat_map (keep (parseEntry toISO)) (entries xml).
Proof. unfold parseArxivXML. now rewrite fold_push_some. Qed.

End ArxivFacts.

(* ================================================================= *)
(** ** Semantic Scholar *)

Section SemanticScholarFacts.
Import SemanticScholar.
Local Open Scope Z_scope.

(** The [map] over the records keeps every record and pushes one
    collector entry for each. *)
Lemma mapM_map_paper (l : list rawPaper) st :
  mapM map_paper l st =
  {| out_store :=
       set_collectedUrls
         (collectedUrls st ++ map (fun p => collect (paperData p)) l) st;
     out_trace := [];
     out_value := Return (map (fun p => simplify (paperData p)) l) |}.
Proof.
  revert st. induction l as [|p l IH]; intros st.
  - simpl. now rewrite app_nil_r, set_collectedUrls_id.
  - cbn [mapM]. unfold map_paper at 1. run_m. rewrite IH. run_m.
    cbn [map]. f_equal. destruct st; cbn. now rewrite <- app_assoc.
Qed.

Lemma searchSemanticScholar_unfold w q m st :
  searchSemanticScholar w q m st =
  let elapsed := Date_now w 0 - lastSemanticScholarCall st in
  let o := s2_after_gate w q m st in
  if elapsed <? SEMANTIC_SCHOLAR_COOLDOWN_MS then
    {| out_store := out_store o;
       out_trace := Sleep (SEMANTIC_SCHOLAR_COOLDOWN_MS - elapsed) :: out_trace o;
       out_value := out_value o |}
  else o.
Proof.
  unfold searchSemanticScholar, s2_after_gate, s2_http_error. run_m.
  destruct (_ <? _); run_m;
    (destruct (fetch w _) as [r|e]; run_m;
     [ destruct (ok r); run_m;
       [ destruct (body r) as [d|e]; run_m;
         [ rewrite mapM_map_paper; run_m; reflexivity
         | destruct e; reflexivity ]
       | destruct (status r =? 429); reflexivity ]
     | destruct e; reflexivity ]).
Qed.

End SemanticScholarFacts.

(* ================================================================= *)
(** ** J-STAGE *)

Section JstageFacts.
Import Jstage.
Local Open Scope Z_scope.
Variable enc : jsstring -> completion jsstring.
Variable stamp : nat -> jsstring.

Lemma fold_parseJstageXML xml :
  parseJstageXML xml = map parseItem (matchedElements xml).
Proof.
  unfold parseJstageXML.
  rewrite (fold_push (fun x => [parseItem x])). simpl.
  induction (matchedElements xml) as [|x l IH]; simpl; congruence.
Qed.

Lemma collect_outcome i p st :
  collect enc stamp i p st =
  match collected_url enc p with
  | Return u =>
      {| out_store :=
           set_collectedJstageUrls
             (collectedJstageUrls st
              ++ [{| c_id := or_else (doi p) (js "jstage-" ++ stamp i);
                     c_title := title p; c_url := u;
                     c_source := js "J-STAGE" |}]) st;
         out_trace := [];
         out_value := Return tt |}
  | Throw e => {| out_store := st; out_trace := []; out_value := Throw e |}
  end.
Proof.
  unfold collect, collected_url. run_m.
  destruct (is_empty (url p)); run_m; [|reflexivity].
  destruct (enc (title p)); reflexivity.
Qed.

(** The collecting loop only appends to [collectedJstageUrls]; when it
    completes, it has appended one entry per paper. *)
Lemma forEach_collect (l : list JstagePaper) :
  forall i st,
    let o := forEach (collect enc stamp) i l st in
    out_trace o = [] /\
    exists new,
      out_store o
      = set_collectedJstageUrls (collectedJstageUrls st ++ new) st
      /\ (is_throw (out_value o) = false -> length new = length l).
Proof.
  induction l as [|p l IH]; intros i st; cbv zeta.
  - split; [reflexivity|]. exists []. split; [|reflexivity].
    simpl. now rewrite app_nil_r, set_collectedJstageUrls_id.
  - cbn [forEach]. unfold bind. rewrite collect_outcome.
    destruct (collected_url enc p) as [u|e]; cbn [out_value out_store out_trace app].
    + match goal with
      | |- context [forEach _ _ _ ?s] =>
          destruct (IH (S i) s) as (Ht & new & Hs & Hl)
      end.
      cbv zeta in Ht, Hs, Hl. rewrite Ht, Hs. split; [reflexivity|].
      eexists (_ :: new). split.
      * destruct st; cbn. now rewrite <- app_assoc.
      * intros H. simpl. now rewrite Hl.
    + split; [reflexivity|]. exists []. split; [|discriminate].
      now rewrite app_nil_r, set_collectedJstageUrls_id.
Qed.

(** When the collecting loop completes, the entry at each position is
    the one of the paper at that position. *)
Lemma forEach_collect_entries (l : list JstagePaper) :
  forall i st,
    let o := forEach (collect enc stamp) i l st in
    is_throw (out_value o) = false ->
    exists new,
      collectedJstageUrls (out_store o) = collectedJstageUrls st ++ new
      /\ length new = length l
      /\ forall k p,
           nth_error l k = Some p ->
           exists u,
             collected_url enc p = Return u
             /\ nth_error new k = Some (jstage_entry stamp (i + k)%nat p u).
Proof.
  induction l as [|p l IH]; intros i st; cbv zeta.
  - intros _. exists []. cbn. rewrite app_nil_r. repeat split.
    intros [|k] p0 H; discriminate.
  - cbn [forEach]. unfold bind. rewrite collect_outcome.
    destruct (collected_url enc p) as [u|e] eqn:E;
      cbn [out_value out_store out_trace app]; [|discriminate].
    intros H.
    match goal with
    | |- context [forEach _ _ _ ?s] => specialize (IH (S i) s)
    end.
    cbv zeta in IH. destruct (IH H) as (new & Hs & Hl & Hn).
    exists (jstage_entry stamp i p u :: new). repeat split.
    + rewrite Hs. cbn [collectedJstageUrls set_collectedJstageUrls].
      now rewrite <- app_assoc.
    + cbn [length]. now rewrite Hl.
    + intros [|k] p0 Hk; cbn [nth_error] in Hk.
      * injection Hk as <-. exists u. split; [exact E|].
        now rewrite Nat.add_0_r.
      * destruct (Hn k p0 Hk) as (u0 & Eu & Hk').
        exists u0. split; [exact Eu|]. cbn [nth_error].
        now replace (i + S k)%nat with (S i + k)%nat by lia.
Qed.

Lemma searchJstage_unfold w q m mat yf yt st :
  searchJstage enc stamp w q m mat yf yt st =
  let elapsed := Date_now w 0 - lastJstageCall st in
  let o := jstage_after_gate enc stamp w q m mat yf yt st in
  if elapsed <? JSTAGE_COOLDOWN_MS then
    {| out_store := out_store o;
       out_trace := Sleep (JSTAGE_COOLDOWN_MS - elapsed) :: out_trace o;
       out_value := out_value o |}
  else o.
Proof.
  unfold searchJstage, jstage_after_gate. run_m.
  destruct (_ <? _); run_m;
    (destruct (fetch w _) as [r|e]; run_m;
     [ destruct (ok r); run_m;
       [ destruct (body r) as [xml|e]; run_m;
         [ match goal with
           | |- context [forEach _ _ ?l ?s] =>
               destruct (forEach_collect l 0 s) as (Ht & _);
               cbv zeta in Ht;
               destruct (forEach (collect enc stamp) 0 l s) as [s' t' [[]|e]];
               cbn [out_trace] in Ht; subst t'; run_m;
               [ reflexivity | destruct e; reflexivity ]
           end
         | destruct e; reflexivity ]
       | reflexivity ]
     | destruct e; reflexivity ]).
Qed.

End JstageFacts.

(* ================================================================= *)
(** ** CORE *)

Section CoreFacts.
Import Core.
Local Open Scope Z_scope.

Lemma core_execute_unfold w k y q m yf yt lf dt st :
  execute w k y q m yf yt lf dt st =
  let req := build_request k q m yf yt lf dt in
  {| out_store := st;
     out_trace := [Fetch req];
     out_value :=
       Return
         match fetch w req with
         | Throw _ => core_empty
         | Return r =>
             if ok r then
               match body r with
               | Return d =>
                   let records := arr_or (results d) [] in
                   {| papers := map to_output (map (process y) records);
                      totalResults :=
                        num_or (totalHits d) (Z.of_nat (length records)) |}
               | Throw _ => core_empty
               end
             else core_empty
         end |}.
Proof.
  unfold execute, core_empty. run_m.
  destruct (fetch w _) as [r|e]; run_m; [|reflexivity].
  destruct (ok r); run_m; [|reflexivity].
  destruct (body r) as [d|e]; run_m; [|reflexivity].
  now rewrite length_map.
Qed.

End CoreFacts.

(* ================================================================= *)
(** ** The top-conference search *)

Section ConferenceFacts.
Import Conference.
Local Open Scope Z_scope.

Lemma getGenAIClient_outcome w st :
  out_trace (getGenAIClient w st) = [] /\
  (client_available w st = true ->
   exists c, out_value (getGenAIClient w st) = Return c) /\
  (client_available w st = false ->
   exists m, getGenAIClient w st
             = {| out_store := st; out_trace := [];
                  out_value := Throw (JsError m) |}).
Proof.
  unfold getGenAIClient, client_available. run_m.
  destruct (genai st); run_m.
  - repeat split; eauto. discriminate.
  - destruct (is_empty _); run_m; repeat split; eauto; discriminate.
Qed.

Lemma searchTopConferences_unfold w q st :
  searchTopConferences w q st =
  let c := getGenAIClient w st in
  match out_value c with
  | Throw e =>
      {| out_store := out_store c; out_trace := [];
         out_value := Return (degraded e) |}
  | Return _ =>
      let p := prompt q (currentDateTime w) in
      {| out_store := out_store c; out_trace := [Generate p];
         out_value :=
           Return match generateContent w p with
                  | Throw e => degraded e
                  | Return response => rendered response
                  end |}
  end.
Proof.
  destruct (getGenAIClient_outcome w st) as (Ht & _).
  unfold searchTopConferences, degraded, rendered. run_m.
  destruct (getGenAIClient w st) as [s t [c|e]]; cbn [out_trace] in Ht; subst t;
    run_m; [|reflexivity].
  destruct (generateContent w _) as [r|e]; run_m; reflexivity.
Qed.

(** The inner function always returns. *)
Lemma searchTopConferences_returns w q st :
  exists r, out_value (searchTopConferences w q st) = Return r.
Proof.
  rewrite searchTopConferences_unfold. cbv zeta.
  destruct (out_value (getGenAIClient w st)); cbn; eauto.
Qed.

Lemma conference_execute_unfold w q sid st :
  execute w q sid st =
  let o := searchTopConferences w q st in
  match out_value o with
  | Return r =>
      {| out_store := out_store o; out_trace := out_trace o;
         out_value :=
           Return {| o_searchId := sid; o_query := q;
                     o_content := content r; o_citations := citations r;
                     o_papers := papers r; success := true;
                     error := None |} |}
  | Throw e =>
      {| out_store := out_store o; out_trace := out_trace o;
         out_value :=
           Return {| o_searchId := sid; o_query := q;
                     o_content :=
                       js "トップカンファレンス検索エラー: " ++ [dquote] ++ q
                       ++ [dquote] ++ js "の検索中に問題が発生しました。";
                     o_citations := []; o_papers := []; success := false;
                     error := match e with
                              | JsError message => Some message
                              | NonError _ => None
                              end |} |}
  end.
Proof.
  unfold execute. run_m.
  destruct (searchTopConferences w q st) as [s t [r|e]]; run_m;
    now rewrite app_nil_r.
Qed.

End ConferenceFacts.

(* ================================================================= *)
(** ** Sessions *)

Section SessionFacts.
Import Session.

Lemma unchanged l : exists a : list collected, l = l ++ a /\ length a = 0.
Proof. exists []. now rewrite app_nil_r. Qed.

Lemma invoke_grows (c : call) st n :
  out_value (invoke c st) = Return n ->
  grows (source_of c) n st (out_store (invoke c st)).
Proof.
  destruct c as [iso w q m s | w q m | enc stamp w q m mat yf yt
                | w k y q m yf yt lf dt | w q sid]; cbn [invoke source_of];
    unfold bind.
  - rewrite searchArxiv_unfold. cbv zeta.
    destruct (_ <? _)%Z; [discriminate|].
    destruct (fetch w _) as [r|e]; [|discriminate].
    destruct (ok r); [|discriminate].
    destruct (body r) as [xml|e]; [|discriminate].
    cbn. intros [= <-]. repeat split; try apply unchanged.
    eexists. split; [reflexivity|]. now rewrite !length_map.
  - rewrite searchSemanticScholar_unfold. cbv zeta.
    unfold s2_after_gate.
    destruct (_ <? _)%Z;
      (destruct (fetch w _) as [r|e]; [|discriminate];
       destruct (ok r); [|discriminate];
       destruct (body r) as [d|e]; [|discriminate];
       cbn; intros [= <-]; repeat split; try apply unchanged;
       eexists; split; [reflexivity|]; now rewrite !length_map).
  - rewrite searchJstage_unfold. cbv zeta.
    assert (G : forall o,
      o = jstage_after_gate enc stamp w q m mat yf yt st ->
      forall v, out_value o = Return v ->
      grows SrcJstage (length (Jstage.papers v)) st (out_store o)).
    { intros o -> v. unfold jstage_after_gate.
      destruct (fetch w _) as [r|e]; [|discriminate].
      destruct (ok r); [|discriminate].
      destruct (body r) as [xml|e]; [|discriminate].
      cbv zeta. cbn [out_value out_store].
      match goal with
      | |- context [Jstage.forEach _ _ ?l ?s] =>
          destruct (forEach_collect enc stamp l 0 s) as (_ & new & Hs & Hl)
      end.
      cbv zeta in Hs, Hl. rewrite Hs.
      destruct (out_value (Jstage.forEach _ _ _ _)); [|discriminate].
      intros [= <-]. cbn. repeat split; try apply unchanged.
      exists new. split; [reflexivity|]. rewrite length_map. now apply Hl. }
    destruct (_ <? _)%Z; cbn [out_value out_store];
      destruct (out_value (jstage_after_gate _ _ _ _ _ _ _ _ _)) eqn:E;
      try discriminate; cbn; intros [= <-]; now apply G.
  - rewrite core_execute_unfold. cbn. intros _.
    repeat split; apply unchanged.
  - rewrite conference_execute_unfold, searchTopConferences_unfold. cbv zeta.
    destruct (getGenAIClient_outcome w st) as (_ & Ha & Hn).
    destruct (client_available w st).
    + destruct (Ha eq_refl) as (c & Hc). rewrite Hc. cbn. intros _.
      unfold Conference.getGenAIClient in *. revert Hc. run_m.
      destruct (genai st); run_m.
      * intros _. repeat split; apply unchanged.
      * destruct (is_empty _); run_m; intros _; repeat split; apply unchanged.
    + destruct (Hn eq_refl) as (msg & ->). cbn. intros _.
      repeat split; apply unchanged.
Qed.

(** Over a run of calls that all return, each collector grows by the
    papers returned by the calls to its own source. *)
Lemma run_grows (cs : list call) :
  forall st,
    all_succeeded (snd (run cs st)) = true ->
    (exists a, collectedArxivUrls (fst (run cs st)) = collectedArxivUrls st ++ a
               /\ length a = returned SrcArxiv (snd (run cs st)))
    /\ (exists s, collectedUrls (fst (run cs st)) = collectedUrls st ++ s
                  /\ length s = returned SrcSemanticScholar (snd (run cs st)))
    /\ (exists j, collectedJstageUrls (fst (run cs st))
                  = collectedJstageUrls st ++ j
                  /\ length j = returned SrcJstage (snd (run cs st))).
Proof.
  induction cs as [|c cs IH]; intros st.
  - intros _. cbn. repeat split; apply unchanged.
  - cbn [run]. specialize (IH (out_store (invoke c st))).
    destruct (run cs (out_store (invoke c st))) as [st' rs].
    cbn [fst snd] in *. cbn [all_succeeded forallb snd].
    destruct (out_value (invoke c st)) as [n|e] eqn:E; [|discriminate].
    cbn [is_throw negb andb]. intros H.
    destruct (IH H) as ((a2 & Ea2 & La2) & (s2 & Es2 & Ls2) & (j2 & Ej2 & Lj2)).
    destruct (invoke_grows c st E)
      as ((a1 & Ea1 & La1) & (s1 & Es1 & Ls1) & (j1 & Ej1 & Lj1)).
    cbn [returned].
    split; [|split].
    + exists (a1 ++ a2). rewrite Ea2, Ea1, <- app_assoc, length_app.
      split; [reflexivity|]. now rewrite La1, La2.
    + exists (s1 ++ s2). rewrite Es2, Es1, <- app_assoc, length_app.
      split; [reflexivity|]. now rewrite Ls1, Ls2.
    + exists (j1 ++ j2). rewrite Ej2, Ej1, <- app_assoc, length_app.
      split; [reflexivity|]. now rewrite Lj1, Lj2.
Qed.

End SessionFacts.

(* ================================================================= *)
(** ** The requests a call sends *)

Lemma arxiv_sent toISO w q m s st r :
  In r (sent (Arxiv.searchArxiv toISO w q m s st)) ->
  r = Arxiv.build_request q m s.
Proof.
  rewrite searchArxiv_unfold. cbv zeta. unfold sent.
  destruct (_ <? _)%Z; [intros []|].
  destruct (fetch w _) as [x|e];
    [destruct (ok x); [destruct (body x)|]|];
    cbn; intros [<-|[]]; reflexivity.
Qed.

Lemma s2_sent w q m st r :
  In r (sent (SemanticScholar.searchSemanticScholar w q m st)) ->
  r = SemanticScholar.build_request q m.
Proof.
  rewrite searchSemanticScholar_unfold. cbv zeta.
  unfold sent, s2_after_gate.
  destruct (_ <? _)%Z;
    (destruct (fetch w _) as [x|e];
     [destruct (ok x); [destruct (body x)|]|];
     cbn; intros [<-|[]]; reflexivity).
Qed.

Lemma jstage_sent enc stamp w q m mat yf yt st r :
  In r (sent (Jstage.searchJstage enc stamp w q m mat yf yt st)) ->
  r = Jstage.build_request q m mat yf yt.
Proof.
  rewrite searchJstage_unfold. cbv zeta.
  unfold sent, jstage_after_gate.
  destruct (_ <? _)%Z;
    (destruct (fetch w _) as [x|e];
     [destruct (ok x); [destruct (body x)|]|];
     cbn; intros [<-|[]]; reflexivity).
Qed.

Lemma core_sent w k y q m yf yt lf dt st r :
  In r (sent (Core.execute w k y q m yf yt lf dt st)) ->
  r = Core.build_request k q m yf yt lf dt.
Proof.
  rewrite core_execute_unfold. cbn. intros [<-|[]]. reflexivity.
Qed.


(* ================================================================= *)
(** ** The embedding on small inputs *)

Example lazy_star_stops_at_the_first_close :
  map (fun m => group 1 (m_caps m))
      (all_matches Arxiv.entryRegex (js "<entry>a</entry>-<entry>b</entry>"))
  = [js "a"; js "b"].
Proof. vm_compute. reflexivity. Qed.

Example spaces_collapse :
  Arxiv.extractText (js "<title> Deep
   learning </title>") (js "title") = js "Deep learning".
Proof. vm_compute. reflexivity. Qed.

Example feed_entries :
  map Arxiv.id (Arxiv.parseArxivXML Samples.iso Samples.atom_feed)
  = [js "2301.12345"; js "2303.00002"].
Proof. vm_compute. reflexivity. Qed.

Example linkless_entry_parses :
  Arxiv.parseEntry Samples.iso Samples.linkless_entry
  = Some Samples.linkless_paper.
Proof. vm_compute. reflexivity. Qed.

Example pdf_suffix_is_kept :
  forall i t au ab c pu up,
    Arxiv.pdfLink
      (Arxiv.simplify
         {| Arxiv.id := i; Arxiv.title := t; Arxiv.authors := au;
            Arxiv.abstract := ab; Arxiv.categories := c;
            Arxiv.published := pu; Arxiv.updated := up;
            Arxiv.link := js "http://arxiv.org/pdf/2301.12345v1.pdf" |})
    = js "http://arxiv.org/pdf/2301.12345v1.pdf".
Proof. intros. vm_compute. reflexivity. Qed.

Example entry_blocks_win_over_items :
  Jstage.matchedElements (js "<item>a</item><entry>b</entry>")
  = [js "<entry>b</entry>"].
Proof. vm_compute. reflexivity. Qed.

Example tag_names_ignore_case :
  Jstage.extractXmlTag (js "<Title><![CDATA[Kanji OCR]]></Title>") (js "title")
  = js "Kanji OCR".
Proof. vm_compute. reflexivity. Qed.

Example jstage_titles :
  map Jstage.title (Jstage.parseJstageXML Samples.jstage_feed)
  = [js "Kanji OCR"; js "No Title"].
Proof. vm_compute. reflexivity. Qed.

Example report_sections :
  map Conference.title (Conference.extractPapers Samples.report)
  = [js "Sparse attention"].
Proof. vm_compute. reflexivity. Qed.

Example cooldown_message_rounds_up :
  Arxiv.cooldown_message 1
  = js "arXiv API cooldown active. Please wait 1 seconds before next search.".
Proof. vm_compute. reflexivity. Qed.

(* ================================================================= *)
(** ** The claims *)

Section Claims.
Local Open Scope Z_scope.

(** C8: the arXiv normalizer turns an abstract-page link into a PDF
    link: on a paper whose link is https://arxiv.org/abs/2301.12345 the
    returned pdfLink is https://arxiv.org/pdf/2301.12345.pdf, whatever
    the other fields are; and a search whose feed carries that link
    returns that pdfLink for the entry. *)
Theorem C8_abs_link_becomes_pdf_link :
  (forall i t au ab c pu up,
     Arxiv.pdfLink
       (Arxiv.simplify
          {| Arxiv.id := i; Arxiv.title := t; Arxiv.authors := au;
             Arxiv.abstract := ab; Arxiv.categories := c;
             Arxiv.published := pu; Arxiv.updated := up;
             Arxiv.link := js "https://arxiv.org/abs/2301.12345" |})
     = js "https://arxiv.org/pdf/2301.12345.pdf")
  /\ (forall toISO q m s,
        exists out,
          out_value
            (Arxiv.searchArxiv toISO
               (Samples.world_at 140000 140000
                  (Return (Samples.ok_response Samples.atom_feed)))
               q m s Samples.after_arxiv_call)
          = Return out
          /\ map Arxiv.pdfLink (Arxiv.papers out)
             = [js "https://arxiv.org/pdf/2301.12345.pdf";
                js "https://arxiv.org/pdf/2303.00002.pdf"]).
Proof.
  split.
  - intros. vm_compute. reflexivity.
  - intros. rewrite searchArxiv_unfold. vm_compute. eexists. split; reflexivity.
Qed.

(** C9: every paper the arXiv tool returns has a pdfLink that is not
    empty and ends with .pdf; and an entry whose payload carries no
    link gets the link https://arxiv.org/abs/ followed by its id. *)
Theorem C9_pdf_link_ends_with_pdf
    (toISO : jsstring -> option jsstring) (w : world jsstring)
    (q : jsstring) (m : Z) (s : Arxiv.sortOrder) (st : store)
    (out : Arxiv.output) :
  out_value (Arxiv.searchArxiv toISO w q m s st) = Return out ->
  (forall p, In p (Arxiv.papers out) ->
     Arxiv.pdfLink p <> [] /\ endsWith (Arxiv.pdfLink p) (js ".pdf") = true)
  /\ (forall e p, Arxiv.parseEntry toISO e = Some p ->
        Arxiv.extractLink e = [] ->
        Arxiv.link p = js "https://arxiv.org/abs/" ++ Arxiv.id p).
Proof.
  intros H. split.
  - rewrite searchArxiv_unfold in H. cbv zeta in H.
    destruct (_ <? _); [discriminate|].
    destruct (fetch w _) as [r|e]; [|discriminate].
    destruct (ok r); [|discriminate].
    destruct (body r) as [xml|e]; [|discriminate].
    cbn in H. injection H as <-. cbn [Arxiv.papers].
    intros p Hp. apply in_map_iff in Hp as (e & <- & _).
    unfold Arxiv.simplify. cbn [Arxiv.pdfLink].
    match goal with
    | |- context [endsWith ?l (js ".pdf")] => generalize l
    end.
    intros l. destruct (endsWith l (js ".pdf")) eqn:E; cbn [negb].
    + split; [|exact E].
      apply (endsWith_nonempty (p := js ".pdf")); [|exact E].
      intros F. vm_compute in F. discriminate.
    + split; [|apply endsWith_app].
      destruct l; discriminate.
  - intros e p Hp Hl. unfold Arxiv.parseEntry in Hp. cbv zeta in Hp.
    destruct (_ || _); [discriminate|].
    injection Hp as <-. cbn [Arxiv.link Arxiv.id]. now rewrite Hl.
Qed.

Lemma C9_witness :
  (Arxiv.pdfLink Samples.attention_paper <> []
   /\ endsWith (Arxiv.pdfLink Samples.attention_paper) (js ".pdf") = true)
  /\ Arxiv.link Samples.linkless_paper
     = js "https://arxiv.org/abs/" ++ Arxiv.id Samples.linkless_paper.
Proof.
  pose proof
    (C9_pdf_link_ends_with_pdf Samples.iso
       (Samples.world_at 140000 140000
          (Return (Samples.ok_response Samples.atom_feed)))
       (js "attention") 5 Arxiv.relevance Samples.after_arxiv_call
       (out := {| Arxiv.papers :=
                    map Arxiv.simplify
                        (Arxiv.parseArxivXML Samples.iso Samples.atom_feed) |})
       ltac:(vm_compute; reflexivity)) as (P & L).
  split.
  - apply (P Samples.attention_paper). vm_compute. left. reflexivity.
  - apply (L Samples.linkless_entry Samples.linkless_paper).
    + vm_compute. reflexivity.
    + vm_compute. reflexivity.
Defined.

(** C4: an arXiv search made strictly less than 30000 ms after the
    last recorded successful call throws the cooldown error and sends
    no request; one made 30000 ms after it or later sends the request,
    and returns the parsed papers when the upstream answers. *)
Theorem C4_arxiv_cooldown
    (toISO : jsstring -> option jsstring) (w : world jsstring)
    (q : jsstring) (m : Z) (s : Arxiv.sortOrder) (st : store) :
  let elapsed := Date_now w 0 - lastArxivCall st in
  let o := Arxiv.searchArxiv toISO w q m s st in
  (elapsed < 30000 ->
   o = {| out_store := st; out_trace := [];
          out_value :=
            Throw (JsError (Arxiv.cooldown_message (30000 - elapsed))) |})
  /\ (30000 <= elapsed ->
      out_trace o = [Fetch (Arxiv.build_request q m s)]
      /\ forall xml,
           answers w (Arxiv.build_request q m s) xml ->
           out_value o
           = Return {| Arxiv.papers :=
                         map Arxiv.simplify (Arxiv.parseArxivXML toISO xml) |}).
Proof.
  cbv zeta. rewrite searchArxiv_unfold. cbv zeta.
  unfold Arxiv.ARXIV_COOLDOWN_MS. split; intros H.
  - destruct (Z.ltb_spec (Date_now w 0 - lastArxivCall st) 30000); [|lia].
    reflexivity.
  - destruct (Z.ltb_spec (Date_now w 0 - lastArxivCall st) 30000); [lia|].
    split.
    + destruct (fetch w _) as [r|e]; [|reflexivity].
      destruct (ok r); [|reflexivity].
      destruct (body r); reflexivity.
    + intros xml (r & -> & -> & ->). reflexivity.
Qed.

Lemma C4_witness :
  (let w := Samples.world_at 129999 129999
              (Return (Samples.ok_response Samples.atom_feed)) in
   Arxiv.searchArxiv Samples.iso w (js "attention") 5 Arxiv.relevance
     Samples.after_arxiv_call
   = {| out_store := Samples.after_arxiv_call; out_trace := [];
        out_value :=
          Throw (JsError (Arxiv.cooldown_message
                   (30000 - (Date_now w 0
                             - lastArxivCall Samples.after_arxiv_call)))) |})
  /\ (let w := Samples.world_at 130000 130000
                 (Return (Samples.ok_response Samples.atom_feed)) in
      out_trace (Arxiv.searchArxiv Samples.iso w (js "attention") 5
                   Arxiv.relevance Samples.after_arxiv_call)
      = [Fetch (Arxiv.build_request (js "attention") 5 Arxiv.relevance)]).
Proof.
  split.
  - apply (C4_arxiv_cooldown Samples.iso
             (Samples.world_at 129999 129999
                (Return (Samples.ok_response Samples.atom_feed)))
             (js "attention") 5 Arxiv.relevance Samples.after_arxiv_call).
    vm_compute. reflexivity.
  - apply (C4_arxiv_cooldown Samples.iso
             (Samples.world_at 130000 130000
                (Return (Samples.ok_response Samples.atom_feed)))
             (js "attention") 5 Arxiv.relevance Samples.after_arxiv_call).
    vm_compute. discriminate.
Defined.

(** C5: a Semantic Scholar or J-STAGE search made less than 1000 ms
    after the last recorded call to that source suspends for the
    remaining cooldown and then sends its request; its result is the
    one of the same call made with the cooldown elapsed, so the gate
    never rejects it. *)
Theorem C5_blocking_wait :
  (forall w q m st t0,
     let elapsed := Date_now w 0 - lastSemanticScholarCall st in
     let o := SemanticScholar.searchSemanticScholar w q m st in
     let o0 := SemanticScholar.searchSemanticScholar w q m
                 (set_lastSemanticScholarCall t0 st) in
     elapsed < 1000 -> 1000 <= Date_now w 0 - t0 ->
     out_trace o = [Sleep (1000 - elapsed);
                    Fetch (SemanticScholar.build_request q m)]
     /\ out_trace o0 = [Fetch (SemanticScholar.build_request q m)]
     /\ out_value o = out_value o0)
  /\ (forall enc stamp w q m mat yf yt st t0,
        let elapsed := Date_now w 0 - lastJstageCall st in
        let o := Jstage.searchJstage enc stamp w q m mat yf yt st in
        let o0 := Jstage.searchJstage enc stamp w q m mat yf yt
                    (set_lastJstageCall t0 st) in
        elapsed < 1000 -> 1000 <= Date_now w 0 - t0 ->
        out_trace o = [Sleep (1000 - elapsed);
                       Fetch (Jstage.build_request q m mat yf yt)]
        /\ out_trace o0 = [Fetch (Jstage.build_request q m mat yf yt)]
        /\ out_value o = out_value o0).
Proof.
  split.
  - intros w q m st t0. cbv zeta. intros H H0.
    rewrite !searchSemanticScholar_unfold. cbv zeta.
    unfold SemanticScholar.SEMANTIC_SCHOLAR_COOLDOWN_MS.
    cbn [lastSemanticScholarCall set_lastSemanticScholarCall].
    destruct (Z.ltb_spec (Date_now w 0 - lastSemanticScholarCall st) 1000);
      [|lia].
    destruct (Z.ltb_spec (Date_now w 0 - t0) 1000); [lia|].
    unfold s2_after_gate.
    destruct (fetch w _) as [r|e];
      [destruct (ok r); [destruct (body r)|]|];
      cbn; repeat split; reflexivity.
  - intros enc stamp w q m mat yf yt st t0. cbv zeta. intros H H0.
    rewrite !searchJstage_unfold. cbv zeta.
    unfold Jstage.JSTAGE_COOLDOWN_MS.
    cbn [lastJstageCall set_lastJstageCall].
    destruct (Z.ltb_spec (Date_now w 0 - lastJstageCall st) 1000); [|lia].
    destruct (Z.ltb_spec (Date_now w 0 - t0) 1000); [lia|].
    unfold jstage_after_gate.
    destruct (fetch w _) as [r|e];
      [destruct (ok r); [destruct (body r)|]|];
      cbn; repeat split; reflexivity.
Qed.

Lemma C5_witness :
  (let w := Samples.world_at 5400 6100
              (Return (Samples.ok_response
                         (Samples.s2_payload [Samples.titled]))) in
   let st := set_lastSemanticScholarCall 5000 initial_store in
   out_trace (SemanticScholar.searchSemanticScholar w (js "graphs") 10 st)
   = [Sleep (1000 - (Date_now w 0 - lastSemanticScholarCall st));
      Fetch (SemanticScholar.build_request (js "graphs") 10)])
  /\ (let w := Samples.world_at 5400 6100
                 (Return (Samples.ok_response Samples.jstage_feed)) in
      let st := set_lastJstageCall 5000 initial_store in
      out_trace (Jstage.searchJstage Samples.enc Samples.stamp w
                   (js "ocr") 10 None None None st)
      = [Sleep (1000 - (Date_now w 0 - lastJstageCall st));
         Fetch (Jstage.build_request (js "ocr") 10 None None None)]).
Proof.
  split.
  - apply (proj1 C5_blocking_wait
             (Samples.world_at 5400 6100
                (Return (Samples.ok_response
                           (Samples.s2_payload [Samples.titled]))))
             (js "graphs") 10
             (set_lastSemanticScholarCall 5000 initial_store) 0).
    + vm_compute. reflexivity.
    + vm_compute. discriminate.
  - apply (proj2 C5_blocking_wait Samples.enc Samples.stamp
             (Samples.world_at 5400 6100
                (Return (Samples.ok_response Samples.jstage_feed)))
             (js "ocr") 10 None None None
             (set_lastJstageCall 5000 initial_store) 0).
    + vm_compute. reflexivity.
    + vm_compute. discriminate.
Defined.

(** C6 as amended: the value sent upstream for maxResults is the
    argument itself for arXiv and CORE (no clamp), the argument capped
    at 50 for Semantic Scholar, and the argument capped at the schema
    bound 100 for J-STAGE; for an argument the schemas accept, between
    1 and 100, none of them exceeds the declared bound. *)
Theorem C6_max_results_sent (m : Z) :
  (forall toISO w q s st r,
     In r (sent (Arxiv.searchArxiv toISO w q m s st)) ->
     param (js "max_results") (req_params r) = Some (toString m))
  /\ (forall w q st r,
        In r (sent (SemanticScholar.searchSemanticScholar w q m st)) ->
        param (js "limit") (req_params r) = Some (toString (Z.min m 50)))
  /\ (forall enc stamp w q mat yf yt st r,
        In r (sent (Jstage.searchJstage enc stamp w q m mat yf yt st)) ->
        param (js "count") (req_params r)
        = Some (toString (Z.min m Jstage.schema_max)))
  /\ (forall w k y q yf yt lf dt st r,
        In r (sent (Core.execute w k y q m yf yt lf dt st)) ->
        param (js "limit") (req_params r) = Some (toString m))
  /\ (1 <= m <= 100 ->
      m <= Arxiv.schema_max
      /\ Z.min m 50 <= SemanticScholar.schema_max
      /\ Z.min m Jstage.schema_max = m
      /\ m <= Core.schema_max).
Proof.
  repeat split.
  - intros toISO w q s st r H. apply arxiv_sent in H. subst r. reflexivity.
  - intros w q st r H. apply s2_sent in H. subst r. reflexivity.
  - intros enc stamp w q mat yf yt st r H. apply jstage_sent in H. subst r.
    reflexivity.
  - intros w k y q yf yt lf dt st r H. apply core_sent in H. subst r.
    reflexivity.
  - unfold Arxiv.schema_max. lia.
  - unfold SemanticScholar.schema_max. lia.
  - unfold Jstage.schema_max. lia.
  - unfold Core.schema_max. lia.
Qed.

Lemma C6_witness :
  param (js "max_results")
        (req_params (Arxiv.build_request (js "attention") 80 Arxiv.relevance))
  = Some (toString 80)
  /\ param (js "limit")
           (req_params (SemanticScholar.build_request (js "graphs") 80))
     = Some (toString (Z.min 80 50))
  /\ param (js "count")
           (req_params (Jstage.build_request (js "ocr") 80 None None None))
     = Some (toString (Z.min 80 Jstage.schema_max))
  /\ param (js "limit")
           (req_params (Core.build_request Undefined (js "graphs") 80
                          None None None Core.all))
     = Some (toString 80)
  /\ (80 <= Arxiv.schema_max
      /\ Z.min 80 50 <= SemanticScholar.schema_max
      /\ Z.min 80 Jstage.schema_max = 80
      /\ 80 <= Core.schema_max).
Proof.
  pose proof (C6_max_results_sent 80) as (A & S & J & K & B).
  repeat apply conj.
  - apply (A Samples.iso
             (Samples.world_at 140000 140000
                (Return (Samples.ok_response Samples.atom_feed)))
             (js "attention") Arxiv.relevance Samples.after_arxiv_call).
    vm_compute. left. reflexivity.
  - apply (S (Samples.world_at 5000 5100
                (Return (Samples.ok_response
                           (Samples.s2_payload [Samples.titled]))))
             (js "graphs") initial_store).
    vm_compute. left. reflexivity.
  - apply (J Samples.enc Samples.stamp
             (Samples.world_at 5400 6100
                (Return (Samples.ok_response Samples.jstage_feed)))
             (js "ocr") None None None initial_store).
    vm_compute. left. reflexivity.
  - apply (K (Samples.world_at 7000 7100
                (Return (Samples.ok_response (Samples.core_payload []))))
             Undefined 2025 (js "graphs") None None None Core.all
             initial_store).
    vm_compute. left. reflexivity.
  - apply B. lia.
  - apply B. lia.
  - apply B. lia.
  - apply B. lia.
Defined.

(** C6 as stated fails: Semantic Scholar declares the bound 100, and
    for the accepted argument 80 the request carries limit=50, not the
    argument clamped to the declared bound. *)
Lemma C6_counterexample :
  let o := SemanticScholar.searchSemanticScholar
             (Samples.world_at 5000 5100
                (Return (Samples.ok_response
                           (Samples.s2_payload [Samples.titled]))))
             (js "graphs") 80 initial_store in
  1 <= 80 <= SemanticScholar.schema_max
  /\ map (fun r => param (js "limit") (req_params r)) (sent o)
     = [Some (js "50")]
  /\ Some (js "50") <> Some (toString (Z.min 80 SemanticScholar.schema_max)).
Proof.
  cbv zeta. split; [|split].
  - unfold SemanticScholar.schema_max. lia.
  - vm_compute. reflexivity.
  - vm_compute. discriminate.
Qed.

(** C7 as amended: the last-call timestamp of a rate-gated source is
    assigned exactly when the call gets past the gate and the upstream
    answers with a 2xx status, before the body is read; otherwise (the
    cooldown rejection of arXiv, a rejected fetch, a status that is not
    2xx) the store is left as it was.  Every call that returns has
    assigned it. *)
Theorem C7_timestamp_follows_the_response :
  (forall toISO w q m s st,
     let o := Arxiv.searchArxiv toISO w q m s st in
     let proceeds :=
       (30000 <=? Date_now w 0 - lastArxivCall st)
       && upstream_ok w (Arxiv.build_request q m s) in
     (if proceeds then lastArxivCall (out_store o) = Date_now w 0
      else out_store o = st)
     /\ (is_throw (out_value o) = false -> proceeds = true))
  /\ (forall w q m st,
        let o := SemanticScholar.searchSemanticScholar w q m st in
        let proceeds := upstream_ok w (SemanticScholar.build_request q m) in
        (if proceeds then lastSemanticScholarCall (out_store o) = Date_now w 1
         else out_store o = st)
        /\ (is_throw (out_value o) = false -> proceeds = true))
  /\ (forall enc stamp w q m mat yf yt st,
        let o := Jstage.searchJstage enc stamp w q m mat yf yt st in
        let proceeds := upstream_ok w (Jstage.build_request q m mat yf yt) in
        (if proceeds then lastJstageCall (out_store o) = Date_now w 1
         else out_store o = st)
        /\ (is_throw (out_value o) = false -> proceeds = true)).
Proof.
  split; [|split].
  - intros toISO w q m s st. cbv zeta. rewrite searchArxiv_unfold. cbv zeta.
    unfold upstream_ok, Arxiv.ARXIV_COOLDOWN_MS.
    destruct (Z.ltb_spec (Date_now w 0 - lastArxivCall st) 30000);
      destruct (Z.leb_spec 30000 (Date_now w 0 - lastArxivCall st));
      try lia; cbn [andb].
    + split; [reflexivity|discriminate].
    + destruct (fetch w _) as [r|e];
        [destruct (ok r); [destruct (body r)|]|];
        cbn; split; try reflexivity; try discriminate.
  - intros w q m st. cbv zeta. rewrite searchSemanticScholar_unfold.
    cbv zeta. unfold upstream_ok, s2_after_gate.
    destruct (_ <? _);
      (destruct (fetch w _) as [r|e];
       [destruct (ok r); [destruct (body r)|]|];
       cbn; split; try reflexivity; try discriminate).
  - intros enc stamp w q m mat yf yt st. cbv zeta.
    rewrite searchJstage_unfold. cbv zeta.
    unfold upstream_ok, jstage_after_gate.
    destruct (_ <? _);
      (destruct (fetch w _) as [r|e];
       [destruct (ok r); [destruct (body r) as [xml|e]|]|];
       cbv zeta; cbn [out_store out_value];
       try (split; [reflexivity|discriminate]);
       try (split; reflexivity);
       (split; [|reflexivity]);
       match goal with
       | |- context [Jstage.forEach _ _ ?l ?s] =>
           destruct (forEach_collect enc stamp l 0 s) as (_ & new & -> & _)
       end; reflexivity).
Qed.

Lemma C7_witness :
  ((30000 <=? Date_now (Samples.world_at 140000 140000
                          (Return (Samples.ok_response Samples.atom_feed))) 0
              - lastArxivCall Samples.after_arxiv_call)
   && upstream_ok (Samples.world_at 140000 140000
                     (Return (Samples.ok_response Samples.atom_feed)))
                  (Arxiv.build_request (js "attention") 5 Arxiv.relevance)
   = true)
  /\ upstream_ok (Samples.world_at 5000 5100
                    (Return (Samples.ok_response
                               (Samples.s2_payload [Samples.titled]))))
                 (SemanticScholar.build_request (js "graphs") 10)
     = true
  /\ upstream_ok (Samples.world_at 5400 6100
                    (Return (Samples.ok_response Samples.jstage_feed)))
                 (Jstage.build_request (js "ocr") 10 None None None)
     = true.
Proof.
  pose proof C7_timestamp_follows_the_response as (A & S & J).
  split; [|split].
  - apply (A Samples.iso
             (Samples.world_at 140000 140000
                (Return (Samples.ok_response Samples.atom_feed)))
             (js "attention") 5 Arxiv.relevance Samples.after_arxiv_call).
    vm_compute. reflexivity.
  - apply (S (Samples.world_at 5000 5100
                (Return (Samples.ok_response
                           (Samples.s2_payload [Samples.titled]))))
             (js "graphs") 10 initial_store).
    vm_compute. reflexivity.
  - apply (J Samples.enc Samples.stamp
             (Samples.world_at 5400 6100
                (Return (Samples.ok_response Samples.jstage_feed)))
             (js "ocr") 10 None None None initial_store).
    vm_compute. reflexivity.
Defined.

(** C7 as stated fails: Semantic Scholar answers 200 with a body that is
    not JSON; the call throws, and the timestamp has moved from 0 to
    the reading 5200 all the same. *)
Lemma C7_counterexample :
  let w := Samples.world_at 5000 5200
             (Return {| ok := true; status := 200; statusText := js "OK";
                        body := Throw (JsError (js "Unexpected token < in JSON at position 0")) |}) in
  let o := SemanticScholar.searchSemanticScholar w (js "graphs") 10
             initial_store in
  is_throw (out_value o) = true
  /\ lastSemanticScholarCall initial_store = 0
  /\ lastSemanticScholarCall (out_store o) = 5200.
Proof. vm_compute. repeat split. Qed.

(** C2 as amended: there are three collectors, one per module.  A
    successful arXiv, Semantic Scholar or J-STAGE call appends to its
    own collector one (id, title, url, source) entry per paper it
    returns, in payload order: for J-STAGE the entry at each position
    is that of the paper at that position, with its DOI or a generated
    id, its title, and its own link or a search link on its title.
    Over any run of calls that all return, each collector keeps what it
    held and grows by one entry per paper returned by the calls to its
    own source (arXiv, Semantic Scholar, J-STAGE), in call order; CORE
    and the conference search add nothing.  The number of entries
    follows the papers returned, not the number of calls. *)
Theorem C2_collectors_grow_by_papers :
  (forall toISO w q m s st xml,
     30000 <= Date_now w 0 - lastArxivCall st ->
     answers w (Arxiv.build_request q m s) xml ->
     collectedArxivUrls (out_store (Arxiv.searchArxiv toISO w q m s st))
     = collectedArxivUrls st
       ++ map Arxiv.collect (Arxiv.parseArxivXML toISO xml))
  /\ (forall w q m st d,
        answers w (SemanticScholar.build_request q m) d ->
        collectedUrls
          (out_store (SemanticScholar.searchSemanticScholar w q m st))
        = collectedUrls st
          ++ map (fun p => SemanticScholar.collect
                             (SemanticScholar.paperData p))
                 (arr_or (SemanticScholar.data d) []))
  /\ (forall enc stamp w q m mat yf yt st xml,
        answers w (Jstage.build_request q m mat yf yt) xml ->
        is_throw (out_value (Jstage.searchJstage enc stamp w q m mat yf yt st))
        = false ->
        exists new,
          collectedJstageUrls
            (out_store (Jstage.searchJstage enc stamp w q m mat yf yt st))
          = collectedJstageUrls st ++ new
          /\ length new = length (Jstage.parseJstageXML xml)
          /\ forall k p,
               nth_error (Jstage.parseJstageXML xml) k = Some p ->
               exists u,
                 collected_url enc p = Return u
                 /\ nth_error new k = Some (jstage_entry stamp k p u))
  /\ (forall cs st,
        Session.all_succeeded (snd (Session.run cs st)) = true ->
        (exists a,
           collectedArxivUrls (fst (Session.run cs st))
           = collectedArxivUrls st ++ a
           /\ length a
              = Session.returned Session.SrcArxiv (snd (Session.run cs st)))
        /\ (exists s,
              collectedUrls (fst (Session.run cs st)) = collectedUrls st ++ s
              /\ length s
                 = Session.returned Session.SrcSemanticScholar
                     (snd (Session.run cs st)))
        /\ (exists j,
              collectedJstageUrls (fst (Session.run cs st))
              = collectedJstageUrls st ++ j
              /\ length j
                 = Session.returned Session.SrcJstage
                     (snd (Session.run cs st)))
        /\ Session.collector_size (fst (Session.run cs st))
           = (Session.collector_size st
              + Session.returned Session.SrcArxiv (snd (Session.run cs st))
              + Session.returned Session.SrcSemanticScholar
                  (snd (Session.run cs st))
              + Session.returned Session.SrcJstage
                  (snd (Session.run cs st)))%nat).
Proof.
  split; [|split; [|split]].
  - intros toISO w q m s st xml H (r & Hf & Hok & Hb).
    rewrite searchArxiv_unfold. cbv zeta. unfold Arxiv.ARXIV_COOLDOWN_MS.
    destruct (Z.ltb_spec (Date_now w 0 - lastArxivCall st) 30000); [lia|].
    now rewrite Hf, Hok, Hb.
  - intros w q m st d (r & Hf & Hok & Hb).
    rewrite searchSemanticScholar_unfold. cbv zeta. unfold s2_after_gate.
    rewrite Hf, Hok, Hb. destruct (_ <? _); reflexivity.
  - intros enc stamp w q m mat yf yt st xml (r & Hf & Hok & Hb).
    rewrite searchJstage_unfold. cbv zeta. unfold jstage_after_gate.
    rewrite Hf, Hok, Hb. cbv zeta.
    pose proof (forEach_collect_entries enc stamp (Jstage.parseJstageXML xml)
                  0 (set_lastJstageCall (Date_now w 1) st)) as G.
    cbv zeta in G. cbn [collectedJstageUrls set_lastJstageCall] in G.
    destruct (_ <? _); cbn [out_value out_store];
      (destruct (out_value (Jstage.forEach _ _ _ _)); [|discriminate];
       intros _; exact (G eq_refl)).
  - intros cs st H.
    destruct (run_grows cs st H)
      as ((a & Ea & La) & (s & Es & Ls) & (j & Ej & Lj)).
    repeat split; eauto.
    unfold Session.collector_size.
    rewrite Ea, Es, Ej, !length_app, La, Ls, Lj. lia.
Qed.

Lemma C2_witness :
  collectedArxivUrls
    (out_store
       (Arxiv.searchArxiv Samples.iso
          (Samples.world_at 140000 140000
             (Return (Samples.ok_response Samples.atom_feed)))
          (js "attention") 5 Arxiv.relevance Samples.after_arxiv_call))
  = collectedArxivUrls Samples.after_arxiv_call
    ++ map Arxiv.collect (Arxiv.parseArxivXML Samples.iso Samples.atom_feed)
  /\ collectedUrls
       (out_store
          (SemanticScholar.searchSemanticScholar
             (Samples.world_at 5000 5100
                (Return (Samples.ok_response
                   (Samples.s2_payload [Samples.titled; Samples.untitled]))))
             (js "graphs") 10 initial_store))
     = collectedUrls initial_store
       ++ map (fun p => SemanticScholar.collect (SemanticScholar.paperData p))
              [Samples.titled; Samples.untitled]
  /\ Session.collector_size
       (fst (Session.run
               [Session.CallSemanticScholar
                  (Samples.world_at 5000 5100
                     (Return (Samples.ok_response
                        (Samples.s2_payload
                           [Samples.titled; Samples.untitled]))))
                  (js "graphs") 10;
                Session.CallCore
                  (Samples.world_at 7000 7100
                     (Return (Samples.ok_response
                        (Samples.core_payload
                           [Samples.core_record (Val (js "1"))
                                                (Val (js "T"))]))))
                  Undefined 2025 (js "graphs") 10 None None None Core.all]
               initial_store))
     = (Session.collector_size initial_store + 0 + 2 + 0)%nat
  /\ (exists new,
        collectedJstageUrls
          (out_store
             (Jstage.searchJstage Samples.enc Samples.stamp
                (Samples.world_at 5400 6100
                   (Return (Samples.ok_response Samples.jstage_feed)))
                (js "ocr") 10 None None None initial_store))
        = collectedJstageUrls initial_store ++ new
        /\ length new = length (Jstage.parseJstageXML Samples.jstage_feed)
        /\ forall k p,
             nth_error (Jstage.parseJstageXML Samples.jstage_feed) k = Some p ->
             exists u,
               collected_url Samples.enc p = Return u
               /\ nth_error new k
                  = Some (jstage_entry Samples.stamp k p u)).
Proof.
  pose proof C2_collectors_grow_by_papers as (A & S & J & R).
  split; [|split; [|split]]; cycle 3.
  - apply (J Samples.enc Samples.stamp
             (Samples.world_at 5400 6100
                (Return (Samples.ok_response Samples.jstage_feed)))
             (js "ocr") 10 None None None initial_store Samples.jstage_feed).
    + eexists. repeat split.
    + vm_compute. reflexivity.
  - apply A.
    + vm_compute. discriminate.
    + eexists. repeat split.
  - apply (S (Samples.world_at 5000 5100
                (Return (Samples.ok_response
                   (Samples.s2_payload [Samples.titled; Samples.untitled]))))
             (js "graphs") 10 initial_store
             (Samples.s2_payload [Samples.titled; Samples.untitled])).
    eexists. repeat split.
  - apply (R [Session.CallSemanticScholar
                (Samples.world_at 5000 5100
                   (Return (Samples.ok_response
                      (Samples.s2_payload
                         [Samples.titled; Samples.untitled]))))
                (js "graphs") 10;
              Session.CallCore
                (Samples.world_at 7000 7100
                   (Return (Samples.ok_response
                      (Samples.core_payload
                         [Samples.core_record (Val (js "1"))
                                              (Val (js "T"))]))))
                Undefined 2025 (js "graphs") 10 None None None Core.all]
             initial_store).
    vm_compute. reflexivity.
Defined.

(** C2 as stated fails: one successful Semantic Scholar call that
    returns two papers leaves two entries in the collectors, not one. *)
Lemma C2_counterexample :
  let calls :=
    [Session.CallSemanticScholar
       (Samples.world_at 5000 5100
          (Return (Samples.ok_response
             (Samples.s2_payload [Samples.titled; Samples.untitled]))))
       (js "graphs") 10] in
  let result := Session.run calls initial_store in
  Session.all_succeeded (snd result) = true
  /\ length calls = 1%nat
  /\ Session.collector_size (fst result) = 2%nat.
Proof. vm_compute. repeat split. Qed.

(** C1 as amended: arXiv drops the entries whose id or title is
    missing or empty and returns the others in payload order.  The
    conference search reads the first ten numbered sections of the
    generated text only; among these it drops exactly those in which
    the title pattern finds no match and returns the others in order,
    and it drops every section after the tenth.  Semantic Scholar and
    CORE return every record of the payload, and so does J-STAGE
    whenever its call returns: a missing title or id is replaced by the
    empty string (Semantic Scholar, CORE) or by No Title (J-STAGE). *)
Theorem C1_missing_identifying_field :
  (forall toISO w q m s st xml,
     30000 <= Date_now w 0 - lastArxivCall st ->
     answers w (Arxiv.build_request q m s) xml ->
     out_value (Arxiv.searchArxiv toISO w q m s st)
     = Return {| Arxiv.papers :=
                   map Arxiv.simplify
                       (flat_map (keep (Arxiv.parseEntry toISO))
                                 (Arxiv.entries xml)) |})
  /\ (forall toISO e,
        Arxiv.parseEntry toISO e = None <->
        Arxiv.extractText e (js "id") = []
        \/ Arxiv.extractText e (js "title") = [])
  /\ (forall w q sid st response,
        client_available w st = true ->
        Conference.generateContent w
          (Conference.prompt q (Conference.currentDateTime w))
        = Return response ->
        exists out,
          out_value (Conference.execute w q sid st) = Return out
          /\ Conference.o_papers out
             = flat_map (keep Conference.parseSection)
                 (firstn 10
                    (map m_text
                       (all_matches Conference.sectionRegex
                          (str_or (Conference.text response) [])))))
  /\ (forall section,
        Conference.parseSection section = None <->
        search Conference.titleRegex section = None)
  /\ (forall w q m st d,
        answers w (SemanticScholar.build_request q m) d ->
        out_value (SemanticScholar.searchSemanticScholar w q m st)
        = Return {| SemanticScholar.papers :=
                      map (fun p => SemanticScholar.simplify
                                      (SemanticScholar.paperData p))
                          (arr_or (SemanticScholar.data d) []) |})
  /\ (forall p,
        SemanticScholar.sp_title
          (SemanticScholar.simplify (SemanticScholar.paperData p))
        = str_or (SemanticScholar.r_title p) [])
  /\ (forall w k y q m yf yt lf dt st d,
        answers w (Core.build_request k q m yf yt lf dt) d ->
        exists total,
          out_value (Core.execute w k y q m yf yt lf dt st)
          = Return {| Core.papers :=
                        map (fun r => Core.to_output (Core.process y r))
                            (arr_or (Core.results d) []);
                      Core.totalResults := total |})
  /\ (forall y r,
        Core.o_title (Core.to_output (Core.process y r))
        = str_or (Core.r_title r) []
        /\ Core.o_coreId (Core.to_output (Core.process y r))
           = str_or (Core.r_id r) [])
  /\ (forall enc stamp w q m mat yf yt st xml,
        answers w (Jstage.build_request q m mat yf yt) xml ->
        is_throw (out_value (Jstage.searchJstage enc stamp w q m mat yf yt st))
        = false ->
        exists total,
          out_value (Jstage.searchJstage enc stamp w q m mat yf yt st)
          = Return {| Jstage.papers :=
                        map (fun e => Jstage.simplify (Jstage.parseItem e))
                            (Jstage.matchedElements xml);
                      Jstage.totalResults := total |})
  /\ (forall e,
        Jstage.title (Jstage.parseItem e)
        = or_else (Jstage.extractXmlTag e (js "title")) (js "No Title")).
Proof.
  repeat apply conj.
  - intros toISO w q m s st xml H (r & Hf & Hok & Hb).
    rewrite searchArxiv_unfold. cbv zeta. unfold Arxiv.ARXIV_COOLDOWN_MS.
    destruct (Z.ltb_spec (Date_now w 0 - lastArxivCall st) 30000); [lia|].
    rewrite Hf, Hok, Hb, fold_parseArxivXML. reflexivity.
  - intros toISO e. unfold Arxiv.parseEntry. cbv zeta.
    rewrite <- !is_empty_true.
    destruct (is_empty (Arxiv.extractText e (js "id")));
      destruct (is_empty (Arxiv.extractText e (js "title")));
      cbn [orb]; split; intros H; auto; try discriminate;
      destruct H; discriminate.
  - intros w q sid st response Hc Hg.
    rewrite conference_execute_unfold, searchTopConferences_unfold. cbv zeta.
    destruct (getGenAIClient_outcome w st) as (_ & Ha & _).
    destruct (Ha Hc) as (c & ->). rewrite Hg. cbn.
    eexists. split; [reflexivity|]. cbn.
    unfold Conference.extractPapers. now rewrite fold_push_some.
  - intros section. unfold Conference.parseSection.
    destruct (search Conference.titleRegex section); split; congruence.
  - intros w q m st d (r & Hf & Hok & Hb).
    rewrite searchSemanticScholar_unfold. cbv zeta. unfold s2_after_gate.
    rewrite Hf, Hok, Hb. destruct (_ <? _); reflexivity.
  - reflexivity.
  - intros w k y q m yf yt lf dt st d (r & Hf & Hok & Hb).
    rewrite core_execute_unfold. cbv zeta. rewrite Hf, Hok, Hb.
    eexists. cbn. rewrite map_map. reflexivity.
  - intros y r. split; reflexivity.
  - intros enc stamp w q m mat yf yt st xml (r & Hf & Hok & Hb).
    rewrite searchJstage_unfold. cbv zeta. unfold jstage_after_gate.
    rewrite Hf, Hok, Hb. cbv zeta. rewrite fold_parseJstageXML.
    destruct (_ <? _); cbn [out_value];
      (destruct (out_value (Jstage.forEach _ _ _ _)); [|discriminate];
       intros _; eexists; rewrite map_map; reflexivity).
  - reflexivity.
Qed.

Lemma C1_witness :
  (exists out,
     out_value (Arxiv.searchArxiv Samples.iso
                  (Samples.world_at 140000 140000
                     (Return (Samples.ok_response Samples.atom_feed)))
                  (js "attention") 5 Arxiv.relevance Samples.after_arxiv_call)
     = Return out)
  /\ (exists out,
        out_value (Conference.execute
                     (Samples.gen_world
                        (Return (Samples.gen_response eleven_sections)))
                     (js "attention") 0 initial_store)
        = Return out
        /\ length (all_matches Conference.sectionRegex eleven_sections)
           = 11%nat
        /\ map Conference.title (Conference.o_papers out)
           = map (fun n => js "Paper " ++ toString n)
                 [1; 2; 3; 4; 5; 6; 7; 8; 9; 10])
  /\ (exists out,
        out_value (SemanticScholar.searchSemanticScholar
                     (Samples.world_at 5000 5100
                        (Return (Samples.ok_response
                           (Samples.s2_payload
                              [Samples.titled; Samples.untitled]))))
                     (js "graphs") 10 initial_store)
        = Return out)
  /\ (exists out,
        out_value (Core.execute
                     (Samples.world_at 7000 7100
                        (Return (Samples.ok_response
                           (Samples.core_payload
                              [Samples.core_record (Val (js "1")) Undefined]))))
                     Undefined 2025 (js "graphs") 10 None None None Core.all
                     initial_store)
        = Return out)
  /\ (exists out,
        out_value (Jstage.searchJstage Samples.enc Samples.stamp
                     (Samples.world_at 5400 6100
                        (Return (Samples.ok_response Samples.jstage_feed)))
                     (js "ocr") 10 None None None initial_store)
        = Return out).
Proof.
  pose proof C1_missing_identifying_field
    as (A & _ & C & _ & S & _ & K & _ & J & _).
  repeat apply conj.
  - eexists. apply A.
    + vm_compute. discriminate.
    + eexists. repeat split.
  - destruct (C (Samples.gen_world
                   (Return (Samples.gen_response eleven_sections)))
                (js "attention") 0 initial_store
                (Samples.gen_response eleven_sections))
      as (out & H & P).
    + vm_compute. reflexivity.
    + reflexivity.
    + exists out. split; [exact H|]. rewrite P. split; vm_compute; reflexivity.
  - eexists. apply S. eexists. repeat split.
  - destruct (K (Samples.world_at 7000 7100
                   (Return (Samples.ok_response
                      (Samples.core_payload
                         [Samples.core_record (Val (js "1")) Undefined]))))
                Undefined 2025 (js "graphs") 10 None None None Core.all
                initial_store
                (Samples.core_payload
                   [Samples.core_record (Val (js "1")) Undefined]))
      as (total & H).
    + eexists. repeat split.
    + eexists. exact H.
  - destruct (J Samples.enc Samples.stamp
                (Samples.world_at 5400 6100
                   (Return (Samples.ok_response Samples.jstage_feed)))
                (js "ocr") 10 None None None initial_store
                Samples.jstage_feed)
      as (total & H).
    + eexists. repeat split.
    + vm_compute. reflexivity.
    + eexists. exact H.
Defined.

(** C1 as stated fails: the only record of a Semantic Scholar payload
    has an id and no title, and the search returns it, with an empty
    title. *)
Lemma C1_counterexample :
  SemanticScholar.r_title Samples.untitled = Undefined
  /\ out_value
       (SemanticScholar.searchSemanticScholar
          (Samples.world_at 5000 5100
             (Return (Samples.ok_response
                        (Samples.s2_payload [Samples.untitled]))))
          (js "graphs") 10 initial_store)
     = Return {| SemanticScholar.papers :=
                   [{| SemanticScholar.sp_title := [];
                       SemanticScholar.sp_abstract := [];
                       SemanticScholar.sp_year := Undefined;
                       SemanticScholar.sp_citationCount := 0 |}] |}.
Proof. split; vm_compute; reflexivity. Qed.

(** C3: when the request fails upstream (the fetch rejects, the status
    is not 2xx, or reading the body rejects), arXiv, Semantic Scholar
    and J-STAGE throw an Error, and whatever they throw is an Error;
    CORE never throws and returns the empty result with totalResults 0;
    the conference search never throws either and, when its client
    cannot be built or the generation rejects, returns a value with
    success true and empty papers and citations. *)
Theorem C3_error_policy :
  (forall toISO w q m s st,
     (fails w (Arxiv.build_request q m s) = true ->
      exists msg,
        out_value (Arxiv.searchArxiv toISO w q m s st) = Throw (JsError msg))
     /\ value_or_error (out_value (Arxiv.searchArxiv toISO w q m s st)) = true)
  /\ (forall w q m st,
        (fails w (SemanticScholar.build_request q m) = true ->
         exists msg,
           out_value (SemanticScholar.searchSemanticScholar w q m st)
           = Throw (JsError msg))
        /\ value_or_error
             (out_value (SemanticScholar.searchSemanticScholar w q m st))
           = true)
  /\ (forall enc stamp w q m mat yf yt st,
        (fails w (Jstage.build_request q m mat yf yt) = true ->
         exists msg,
           out_value (Jstage.searchJstage enc stamp w q m mat yf yt st)
           = Throw (JsError msg))
        /\ value_or_error
             (out_value (Jstage.searchJstage enc stamp w q m mat yf yt st))
           = true)
  /\ (forall w k y q m yf yt lf dt st,
        (fails w (Core.build_request k q m yf yt lf dt) = true ->
         out_value (Core.execute w k y q m yf yt lf dt st)
         = Return {| Core.papers := []; Core.totalResults := 0 |})
        /\ is_throw (out_value (Core.execute w k y q m yf yt lf dt st))
           = false)
  /\ (forall w q sid st,
        (client_available w st = false
         \/ is_throw (Conference.generateContent w
                        (Conference.prompt q (Conference.currentDateTime w)))
            = true ->
         exists out,
           out_value (Conference.execute w q sid st) = Return out
           /\ Conference.o_papers out = []
           /\ Conference.o_citations out = []
           /\ Conference.success out = true)
        /\ is_throw (out_value (Conference.execute w q sid st)) = false).
Proof.
  repeat apply conj.
  - intros toISO w q m s st. rewrite searchArxiv_unfold. cbv zeta.
    unfold fails. destruct (_ <? _).
    { split; [intros _; eexists|]; reflexivity. }
    destruct (fetch w _) as [r|e];
      [destruct (ok r); [destruct (body r)|]|];
      (split; [try discriminate; intros _; eexists|]; reflexivity).
  - intros w q m st. rewrite searchSemanticScholar_unfold. cbv zeta.
    unfold fails, s2_after_gate.
    destruct (_ <? _);
      (destruct (fetch w _) as [r|e];
       [destruct (ok r); [destruct (body r)|]|];
       (split; [try discriminate; intros _; eexists|]; reflexivity)).
  - intros enc stamp w q m mat yf yt st. rewrite searchJstage_unfold.
    cbv zeta. unfold fails, jstage_after_gate.
    destruct (_ <? _);
      (destruct (fetch w _) as [r|e];
       [destruct (ok r); [destruct (body r)|]|];
       cbv zeta; cbn [out_value];
       (split; [try discriminate; intros _; eexists; reflexivity|]);
       try reflexivity;
       destruct (out_value (Jstage.forEach _ _ _ _)); reflexivity).
  - intros w k y q m yf yt lf dt st. rewrite core_execute_unfold.
    cbv zeta. unfold fails. cbn [out_value]. split; [|reflexivity].
    destruct (fetch w _) as [r|e];
      [destruct (ok r); [destruct (body r); [discriminate|]|]|];
      reflexivity.
  - intros w q sid st.
    rewrite conference_execute_unfold, searchTopConferences_unfold. cbv zeta.
    destruct (getGenAIClient_outcome w st) as (_ & Ha & Hn).
    destruct (client_available w st).
    + destruct (Ha eq_refl) as (c & ->). cbn. split; [|reflexivity].
      intros [H|H]; [discriminate|].
      destruct (Conference.generateContent w _); [discriminate|].
      eexists. repeat split.
    + destruct (Hn eq_refl) as (msg & ->). cbn. split; [|reflexivity].
      intros _. eexists. repeat split.
Qed.

Lemma C3_witness :
  (exists msg,
     out_value (Arxiv.searchArxiv Samples.iso
                  (Samples.world_at 140000 140000
                     (Return (Samples.error_response 503
                                (js "Service Unavailable"))))
                  (js "attention") 5 Arxiv.relevance Samples.after_arxiv_call)
     = Throw (JsError msg))
  /\ (exists msg,
        out_value (SemanticScholar.searchSemanticScholar
                     (Samples.world_at 5000 5100
                        (Return (Samples.error_response 429
                                   (js "Too Many Requests"))))
                     (js "graphs") 10 initial_store)
        = Throw (JsError msg))
  /\ (exists msg,
        out_value (Jstage.searchJstage Samples.enc Samples.stamp
                     (Samples.world_at 5400 6100
                        (Throw (JsError (js "fetch failed"))))
                     (js "ocr") 10 None None None initial_store)
        = Throw (JsError msg))
  /\ out_value (Core.execute
                  (Samples.world_at 7000 7100
                     (Return (Samples.error_response 401 (js "Unauthorized"))))
                  Undefined 2025 (js "graphs") 10 None None None Core.all
                  initial_store)
     = Return {| Core.papers := []; Core.totalResults := 0 |}
  /\ (exists out,
        out_value (Conference.execute
                     (Samples.gen_world (Throw (JsError (js "quota exceeded"))))
                     (js "attention") 0 initial_store)
        = Return out
        /\ Conference.o_papers out = []
        /\ Conference.o_citations out = []
        /\ Conference.success out = true).
Proof.
  pose proof C3_error_policy as (A & S & J & K & C).
  repeat apply conj.
  - apply A. vm_compute. reflexivity.
  - apply S. vm_compute. reflexivity.
  - apply J. vm_compute. reflexivity.
  - apply K. vm_compute. reflexivity.
  - apply C. right. vm_compute. reflexivity.
Defined.

(** C10: when the generation call of the conference search rejects, the
    inner function returns the apology text with no citations and no
    papers, and [execute] returns it with success true and no error
    field; whatever the world, [execute] returns with success true, so
    its own catch branch is never taken. *)
Theorem C10_generation_failure_is_success
    (w : Conference.genWorld) (q : jsstring) (sid : Z) (st : store)
    (e : thrown) :
  Conference.generateContent w
    (Conference.prompt q (Conference.currentDateTime w)) = Throw e ->
  client_available w st = true ->
  out_value (Conference.searchTopConferences w q st)
  = Return {| Conference.content := Conference.apology e;
              Conference.citations := [];
              Conference.papers := [] |}
  /\ out_value (Conference.execute w q sid st)
     = Return {| Conference.o_searchId := sid;
                 Conference.o_query := q;
                 Conference.o_content := Conference.apology e;
                 Conference.o_citations := [];
                 Conference.o_papers := [];
                 Conference.success := true;
                 Conference.error := None |}
  /\ (forall w' q' sid' st',
        exists out,
          out_value (Conference.execute w' q' sid' st') = Return out
          /\ Conference.success out = true
          /\ Conference.error out = None).
Proof.
  intros Hg Hc. repeat apply conj.
  - rewrite searchTopConferences_unfold. cbv zeta.
    destruct (getGenAIClient_outcome w st) as (_ & Ha & _).
    destruct (Ha Hc) as (c & ->). now rewrite Hg.
  - rewrite conference_execute_unfold, searchTopConferences_unfold. cbv zeta.
    destruct (getGenAIClient_outcome w st) as (_ & Ha & _).
    destruct (Ha Hc) as (c & ->). now rewrite Hg.
  - intros w' q' sid' st'. rewrite conference_execute_unfold. cbv zeta.
    destruct (searchTopConferences_returns w' q' st') as (r & ->).
    eexists. repeat split.
Qed.

Lemma C10_witness :
  out_value (Conference.execute
               (Samples.gen_world (Throw (JsError (js "quota exceeded"))))
               (js "attention") 7 initial_store)
  = Return {| Conference.o_searchId := 7;
              Conference.o_query := js "attention";
              Conference.o_content :=
                Conference.apology (JsError (js "quota exceeded"));
              Conference.o_citations := [];
              Conference.o_papers := [];
              Conference.success := true;
              Conference.error := None |}.
Proof.
  apply (C10_generation_failure_is_success
           (Samples.gen_world (Throw (JsError (js "quota exceeded"))))
           (js "attention") 7 initial_store
           (e := JsError (js "quota exceeded"))).
  - reflexivity.
  - vm_compute. reflexivity.
Defined.

End Claims.


(* ================================================================= *)
(** ** Further properties of the tools *)

Section Further.
Local Open Scope Z_scope.

Lemma char_eqb_eq (a b : jschar) : char_eqb a b = true <-> a = b.
Proof. apply N.eqb_eq. Qed.

Lemma jsstring_eqb_eq (a b : jsstring) : JsString.eqb a b = true <-> a = b.
Proof.
  revert b. induction a as [|x a IH]; intros [|y b]; simpl;
    try (split; congruence).
  rewrite andb_true_iff, char_eqb_eq, IH. split.
  - intros [-> ->]. reflexivity.
  - intros [= -> ->]. auto.
Qed.

Lemma js_app_nonempty (p : string) (x : jsstring) :
  is_empty (js p) = false -> js p ++ x <> [].
Proof. destruct (js p); [discriminate|discriminate]. Qed.

Lemma or_else_nonempty (a d : jsstring) : d <> [] -> or_else a d <> [].
Proof. unfold or_else. destruct a; simpl; [auto|discriminate]. Qed.

Lemma length_flat_map_keep {A B} (g : A -> option B) (l : list A) :
  (length (flat_map (keep g) l) <= length l)%nat.
Proof.
  induction l as [|x l IH]; simpl; [lia|].
  rewrite length_app. unfold keep at 1. destruct (g x); simpl; lia.
Qed.

(** X1: at most three authors per paper, J-STAGE and CORE. *)
Theorem X_at_most_three_authors :
  (forall enc stamp w q m mat yf yt st out,
     out_value (Jstage.searchJstage enc stamp w q m mat yf yt st) = Return out ->
     Forall (fun p => (length (Jstage.sp_authors p) <= 3)%nat)
            (Jstage.papers out))
  /\ (forall w k y q m yf yt lf dt st out,
        out_value (Core.execute w k y q m yf yt lf dt st) = Return out ->
        Forall (fun p => (length (Core.o_authors p) <= 3)%nat)
               (Core.papers out)).
Proof.
  split.
  - intros enc stamp w q m mat yf yt st out.
    rewrite searchJstage_unfold. cbv zeta. unfold jstage_after_gate.
    assert (G : forall l,
      Forall (fun p => (length (Jstage.sp_authors p) <= 3)%nat)
             (map Jstage.simplify l)).
    { intros l. apply Forall_forall. intros p Hp.
      apply in_map_iff in Hp as (x & <- & _).
      unfold Jstage.simplify. cbn [Jstage.sp_authors].
      rewrite length_firstn. lia. }
    destruct (_ <? _);
      (destruct (fetch w _) as [r|e]; [|discriminate];
       destruct (ok r); [|discriminate];
       destruct (body r) as [xml|e]; [|discriminate];
       cbv zeta; cbn [out_value];
       destruct (out_value (Jstage.forEach _ _ _ _)); [|discriminate];
       intros [= <-]; apply G).
  - intros w k y q m yf yt lf dt st out.
    rewrite core_execute_unfold. cbv zeta. cbn [out_value].
    intros [= <-].
    destruct (fetch w _) as [r|e]; [|constructor].
    destruct (ok r); [|constructor].
    destruct (body r) as [d|e]; [|constructor].
    cbv zeta. cbn [Core.papers]. apply Forall_forall. intros p Hp.
    apply in_map_iff in Hp as (x & <- & Hx).
    apply in_map_iff in Hx as (x0 & <- & _).
    unfold Core.to_output. cbn [Core.o_authors].
    rewrite length_firstn. lia.
Qed.

Lemma is_empty_false (s : jsstring) : is_empty s = false <-> s <> [].
Proof. destruct s; simpl; split; congruence. Qed.

Lemma NoDup_snoc {A} (l : list A) (x : A) :
  NoDup l -> ~ In x l -> NoDup (l ++ [x]).
Proof.
  intros Hl Hx. induction Hl as [|y l Hy Hl IH]; simpl.
  - constructor; [intros []|constructor].
  - constructor.
    + rewrite in_app_iff. intros [H|[H|[]]]; [auto|].
      subst. apply Hx. now left.
    + apply IH. intros H. apply Hx. now right.
Qed.

Lemma mem_false (v : jsstring) (l : list jsstring) :
  Jstage.mem v l = false -> ~ In v l.
Proof.
  unfold Jstage.mem. intros H Hin.
  assert (existsb (JsString.eqb v) l = true); [|congruence].
  apply existsb_exists. exists v. split; [exact Hin|].
  now apply jsstring_eqb_eq.
Qed.

(** The loop of [extractAuthors] and [extractKeywords] keeps its array
    free of duplicates and of empty strings. *)
Lemma push_new_inv (tag xml : jsstring) (acc : list jsstring) :
  NoDup acc -> ~ In [] acc ->
  NoDup (Jstage.push_new tag acc xml) /\ ~ In [] (Jstage.push_new tag acc xml).
Proof.
  unfold Jstage.push_new.
  generalize (all_matches (Jstage.leaf_regex tag) xml) as ms.
  intros ms. revert acc.
  induction ms as [|m ms IH]; intros acc Hn He; simpl; [auto|].
  apply IH.
  - destruct (is_empty _) eqn:E1; simpl; [exact Hn|].
    destruct (Jstage.mem _ acc) eqn:E2; simpl; [exact Hn|].
    apply NoDup_snoc; [exact Hn|]. now apply mem_false.
  - destruct (is_empty _) eqn:E1; simpl; [exact He|].
    destruct (Jstage.mem _ acc) eqn:E2; simpl; [exact He|].
    rewrite in_app_iff. intros [H|[H|[]]]; [auto|].
    rewrite H in E1. discriminate.
Qed.

(** X2: the authors and the keywords of a J-STAGE paper hold no
    duplicate and no empty string. *)
Theorem X_authors_are_distinct (itemXml : jsstring) :
  NoDup (Jstage.authors (Jstage.parseItem itemXml))
  /\ ~ In [] (Jstage.authors (Jstage.parseItem itemXml))
  /\ NoDup (Jstage.keywords (Jstage.parseItem itemXml))
  /\ ~ In [] (Jstage.keywords (Jstage.parseItem itemXml)).
Proof.
  unfold Jstage.parseItem. cbn [Jstage.authors Jstage.keywords].
  unfold Jstage.extractAuthors, Jstage.extractKeywords.
  assert (H0 : NoDup (@nil jsstring) /\ ~ In [] (@nil jsstring)).
  { split; [constructor|intros []]. }
  destruct H0 as [N0 E0].
  destruct (push_new_inv (js "dc:creator") itemXml N0 E0) as [N1 E1].
  destruct (push_new_inv (js "prism:creatorName") itemXml N1 E1) as [N2 E2].
  destruct (push_new_inv (js "prism:keyword") itemXml N0 E0) as [N3 E3].
  auto.
Qed.

(** X3: a J-STAGE paper that has a DOI has a URL; when the item has no
    link, guid or prism:url, the URL is the DOI resolver link. *)
Theorem X_doi_gives_url (itemXml : jsstring) :
  Jstage.doi (Jstage.parseItem itemXml) <> [] ->
  Jstage.url (Jstage.parseItem itemXml) <> []
  /\ (Jstage.extractXmlTag itemXml (js "link") = [] ->
      Jstage.extractXmlTag itemXml (js "guid") = [] ->
      Jstage.extractXmlTag itemXml (js "prism:url") = [] ->
      Jstage.url (Jstage.parseItem itemXml)
      = js "https://doi.org/" ++ Jstage.doi (Jstage.parseItem itemXml)).
Proof.
  unfold Jstage.parseItem. cbn [Jstage.doi Jstage.url].
  unfold Jstage.extractUrl. intros Hd. split.
  - destruct (is_empty (Jstage.extractXmlTag itemXml (js "link"))) eqn:E1;
      cbn [negb]; [|now apply is_empty_false].
    destruct (is_empty (Jstage.extractXmlTag itemXml (js "guid"))) eqn:E2;
      cbn [negb]; [|now apply is_empty_false].
    destruct (is_empty (Jstage.extractXmlTag itemXml (js "prism:url"))) eqn:E3;
      cbn [negb]; [|now apply is_empty_false].
    apply is_empty_false in Hd. rewrite Hd. cbn [negb].
    now apply js_app_nonempty.
  - intros -> -> ->. cbn [is_empty negb].
    apply is_empty_false in Hd. now rewrite Hd.
Qed.

Lemma X_doi_gives_url_witness :
  Jstage.url (Jstage.parseItem
                (js "<item><title>T</title><prism:doi>10.1/x</prism:doi></item>"))
  = js "https://doi.org/10.1/x".
Proof.
  apply (X_doi_gives_url
           (js "<item><title>T</title><prism:doi>10.1/x</prism:doi></item>")).
  - vm_compute. discriminate.
  - vm_compute. reflexivity.
  - vm_compute. reflexivity.
  - vm_compute. reflexivity.
Defined.

(** X4: the conference search never returns more than ten papers. *)
Theorem X_at_most_ten_papers (w : Conference.genWorld) (q : jsstring)
    (sid : Z) (st : store) :
  exists out,
    out_value (Conference.execute w q sid st) = Return out
    /\ (length (Conference.o_papers out) <= 10)%nat.
Proof.
  rewrite conference_execute_unfold, searchTopConferences_unfold. cbv zeta.
  assert (G : forall text, (length (Conference.extractPapers text) <= 10)%nat).
  { intros text. unfold Conference.extractPapers. rewrite fold_push_some.
    cbn [app]. etransitivity; [apply length_flat_map_keep|].
    rewrite length_firstn. lia. }
  destruct (out_value (Conference.getGenAIClient w st)); cbn.
  - destruct (Conference.generateContent w _); cbn.
    + eexists. split; [reflexivity|]. cbn. apply G.
    + eexists. split; [reflexivity|]. cbn. lia.
  - eexists. split; [reflexivity|]. cbn. lia.
Qed.

(** The loop behind [new Set(citations)]. *)
Lemma unique_inv (l acc : list jsstring) :
  NoDup acc ->
  let r := fold_left
             (fun acc x =>
                if existsb (JsString.eqb x) acc then acc else acc ++ [x])
             l acc in
  NoDup r /\ forall x, In x r <-> In x acc \/ In x l.
Proof.
  revert acc. induction l as [|y l IH]; intros acc Hn; cbv zeta; simpl.
  - split; [exact Hn|]. intros x. tauto.
  - destruct (existsb (JsString.eqb y) acc) eqn:E.
    + destruct (IH acc Hn) as [N I]. split; [exact N|].
      intros x. rewrite (I x).
      apply existsb_exists in E as (z & Hz & Ez).
      apply jsstring_eqb_eq in Ez. subst z.
      split; [tauto|]. intros [H|[<-|H]]; auto.
    + assert (Hy : ~ In y acc).
      { intros H.
        assert (existsb (JsString.eqb y) acc = true); [|congruence].
        apply existsb_exists. exists y. split; [exact H|].
        now apply jsstring_eqb_eq. }
      assert (Hs : NoDup (acc ++ [y])) by (apply NoDup_snoc; assumption).
      destruct (IH (acc ++ [y]) Hs) as [N I].
      split; [exact N|]. intros x. rewrite (I x), in_app_iff. simpl. tauto.
Qed.

(** The numbered list is the lines of the sources joined by line
    feeds. *)
Lemma numbered_lines (l : list jsstring) :
  forall i,
    Conference.numbered i l
    = Core.join [Conference.nl] (source_lines i l).
Proof.
  induction l as [|x l IH]; intros i; [reflexivity|].
  destruct l as [|y l]; [reflexivity|].
  change (Conference.numbered i (x :: y :: l))
    with (js "[" ++ toString (i + 1) ++ js "] " ++ x ++ [Conference.nl]
          ++ Conference.numbered (i + 1) (y :: l)).
  rewrite IH. cbn [source_lines Core.join].
  now rewrite <- !app_assoc.
Qed.

Lemma length_source_lines (l : list jsstring) :
  forall i, length (source_lines i l) = length l.
Proof.
  induction l as [|x l IH]; intros i; [reflexivity|].
  cbn [source_lines length]. now rewrite IH.
Qed.

(** X5: when the generation answers, the report returned is the
    generated text, followed, when a source is cited, by a list of the
    cited sources in which each one has exactly one numbered line; the
    citations returned beside it are all of them, repetitions
    included. *)
Theorem X_sources_listed_once (w : Conference.genWorld) (q : jsstring)
    (sid : Z) (st : store) (response : Conference.genResponse) :
  client_available w st = true ->
  Conference.generateContent w
    (Conference.prompt q (Conference.currentDateTime w))
  = Return response ->
  exists out srcs,
    out_value (Conference.execute w q sid st) = Return out
    /\ Conference.o_citations out = Conference.extractCitations response
    /\ NoDup srcs
    /\ (forall x,
          In x srcs <-> In x (Conference.extractCitations response))
    /\ length (source_lines 0 srcs) = length srcs
    /\ Conference.o_content out
       = str_or (Conference.text response) []
         ++ match srcs with
            | [] => []
            | _ :: _ =>
                [Conference.nl; Conference.nl]
                ++ js "**🔗 参考カンファレンスサイト:**" ++ [Conference.nl]
                ++ Core.join [Conference.nl] (source_lines 0 srcs)
            end.
Proof.
  intros Hc Hg.
  rewrite conference_execute_unfold, searchTopConferences_unfold. cbv zeta.
  destruct (getGenAIClient_outcome w st) as (_ & Ha & _).
  destruct (Ha Hc) as (c & ->). rewrite Hg. cbn [out_value].
  eexists. exists (Conference.unique (Conference.extractCitations response)).
  split; [reflexivity|].
  unfold rendered.
  cbn [Conference.o_citations Conference.o_content Conference.citations
       Conference.content].
  destruct (unique_inv (Conference.extractCitations response)
                       (NoDup_nil jsstring)) as [N I].
  cbv zeta in N, I. fold (Conference.unique
                            (Conference.extractCitations response)) in N, I.
  split; [reflexivity|]. split; [exact N|]. split.
  { intros x. rewrite (I x). cbn [In]. tauto. }
  split; [apply length_source_lines|].
  destruct (Conference.extractCitations response) as [|u cs] eqn:E.
  - change (Conference.unique []) with (@nil jsstring).
    now rewrite app_nil_r.
  - destruct (Conference.unique (u :: cs)) as [|v srcs] eqn:U.
    + exfalso. apply (proj2 (I u)). right. now left.
    + rewrite <- U, numbered_lines. reflexivity.
Qed.

Lemma X_sources_listed_once_witness :
  exists out srcs,
    out_value (Conference.execute
                 (Samples.gen_world (Return cited_response))
                 (js "attention") 7 initial_store)
    = Return out
    /\ Conference.o_citations out
       = [js "https://icml.cc/1"; js "https://neurips.cc/2";
          js "https://icml.cc/1"]
    /\ srcs = [js "https://icml.cc/1"; js "https://neurips.cc/2"]
    /\ Conference.o_content out
       = full_report
         ++ [Conference.nl; Conference.nl]
         ++ js "**🔗 参考カンファレンスサイト:**" ++ [Conference.nl]
         ++ js "[1] https://icml.cc/1" ++ [Conference.nl]
         ++ js "[2] https://neurips.cc/2".
Proof.
  destruct (@X_sources_listed_once
              (Samples.gen_world (Return cited_response))
              (js "attention") 7 initial_store cited_response)
    as (out & srcs & E & C & N & I & L & T).
  - vm_compute. reflexivity.
  - reflexivity.
  - exists out, (Conference.unique (Conference.extractCitations cited_response)).
    split; [exact E|].
    assert (O : Return out
                = Return {| Conference.o_searchId := 7;
                            Conference.o_query := js "attention";
                            Conference.o_content :=
                              full_report
                              ++ [Conference.nl; Conference.nl]
                              ++ js "**🔗 参考カンファレンスサイト:**"
                              ++ [Conference.nl]
                              ++ js "[1] https://icml.cc/1" ++ [Conference.nl]
                              ++ js "[2] https://neurips.cc/2";
                            Conference.o_citations :=
                              [js "https://icml.cc/1"; js "https://neurips.cc/2";
                               js "https://icml.cc/1"];
                            Conference.o_papers :=
                              Conference.extractPapers full_report;
                            Conference.success := true;
                            Conference.error := None |}).
    { rewrite <- E. vm_compute. reflexivity. }
    injection O as ->. repeat split. 
Defined.

(** X6: the client of the conference search is built once: after a
    call that obtained it, every later call returns the same client,
    whatever the environment holds by then, and changes nothing; a
    call that fails for want of a key leaves the store as it was. *)
Theorem X_client_is_built_once (w : Conference.genWorld) (st : store) :
  (forall client,
     out_value (Conference.getGenAIClient w st) = Return client ->
     forall w',
       Conference.getGenAIClient w'
         (out_store (Conference.getGenAIClient w st))
       = {| out_store := out_store (Conference.getGenAIClient w st);
            out_trace := [];
            out_value := Return client |})
  /\ (is_throw (out_value (Conference.getGenAIClient w st)) = true ->
      out_store (Conference.getGenAIClient w st) = st).
Proof.
  unfold Conference.getGenAIClient. run_m.
  destruct (genai st) eqn:G; run_m.
  - split; [|discriminate]. intros client [= <-] w'. now rewrite G.
  - destruct (is_empty _); run_m.
    + split; [discriminate|reflexivity].
    + split; [|discriminate]. intros client [= <-] w'. reflexivity.
Qed.

Lemma X_client_is_built_once_witness :
  Conference.getGenAIClient
    {| Conference.GEMINI_API_KEY := Undefined;
       Conference.GOOGLE_GENERATIVE_AI_API_KEY := Undefined;
       Conference.currentDateTime := [];
       Conference.generateContent := fun _ => Throw (NonError []) |}
    (out_store (Conference.getGenAIClient
                  (Samples.gen_world (Throw (NonError []))) initial_store))
  = {| out_store :=
         out_store (Conference.getGenAIClient
                      (Samples.gen_world (Throw (NonError []))) initial_store);
       out_trace := [];
       out_value := Return (js "key") |}.
Proof.
  apply (proj1 (X_client_is_built_once
                  (Samples.gen_world (Throw (NonError []))) initial_store)).
  vm_compute. reflexivity.
Defined.

(** X7: the cooldown window of arXiv starts when the last call that
    returned began, and is not moved by a rejected call: after a call
    that began at [t1] and returned, a call less than 30000 ms after
    [t1] is rejected without a request and leaves the store as it is,
    and a call at [t1 + 30000] or later sends its request, however
    recent the rejected call is. *)
Theorem X_rejected_call_keeps_window
    (iso1 iso2 iso3 : jsstring -> option jsstring)
    (w1 w2 w3 : world jsstring) (q1 q2 q3 : jsstring) (m1 m2 m3 : Z)
    (s1 s2 s3 : Arxiv.sortOrder) (st : store) :
  let o1 := Arxiv.searchArxiv iso1 w1 q1 m1 s1 st in
  let o2 := Arxiv.searchArxiv iso2 w2 q2 m2 s2 (out_store o1) in
  let o3 := Arxiv.searchArxiv iso3 w3 q3 m3 s3 (out_store o2) in
  is_throw (out_value o1) = false ->
  Date_now w2 0 - Date_now w1 0 < 30000 ->
  30000 <= Date_now w3 0 - Date_now w1 0 ->
  sent o2 = []
  /\ out_store o2 = out_store o1
  /\ sent o3 = [Arxiv.build_request q3 m3 s3].
Proof.
  cbv zeta. intros H1 H2 H3.
  assert (L : lastArxivCall
                (out_store (Arxiv.searchArxiv iso1 w1 q1 m1 s1 st))
              = Date_now w1 0).
  { revert H1. rewrite searchArxiv_unfold. cbv zeta.
    destruct (_ <? _); [discriminate|].
    destruct (fetch w1 _) as [r|e]; [|discriminate].
    destruct (ok r); [|discriminate].
    destruct (body r); [|discriminate]. reflexivity. }
  assert (E2 : Arxiv.searchArxiv iso2 w2 q2 m2 s2
                 (out_store (Arxiv.searchArxiv iso1 w1 q1 m1 s1 st))
               = {| out_store := out_store (Arxiv.searchArxiv iso1 w1 q1 m1 s1 st);
                    out_trace := [];
                    out_value :=
                      Throw (JsError (Arxiv.cooldown_message
                        (30000 - (Date_now w2 0 - Date_now w1 0)))) |}).
  { rewrite searchArxiv_unfold. cbv zeta. rewrite L.
    unfold Arxiv.ARXIV_COOLDOWN_MS.
    destruct (Z.ltb_spec (Date_now w2 0 - Date_now w1 0) 30000); [|lia].
    reflexivity. }
  rewrite E2. cbn [out_store]. repeat split.
  rewrite searchArxiv_unfold. cbv zeta. rewrite L.
  unfold Arxiv.ARXIV_COOLDOWN_MS.
  destruct (Z.ltb_spec (Date_now w3 0 - Date_now w1 0) 30000); [lia|].
  destruct (fetch w3 _) as [r|e];
    [destruct (ok r); [destruct (body r)|]|]; reflexivity.
Qed.

Lemma X_rejected_call_keeps_window_witness :
  let w t := Samples.world_at t t
               (Return (Samples.ok_response Samples.atom_feed)) in
  let o1 := Arxiv.searchArxiv Samples.iso (w 140000) (js "a") 5
              Arxiv.relevance Samples.after_arxiv_call in
  let o2 := Arxiv.searchArxiv Samples.iso (w 169000) (js "b") 5
              Arxiv.relevance (out_store o1) in
  let o3 := Arxiv.searchArxiv Samples.iso (w 170000) (js "c") 5
              Arxiv.relevance (out_store o2) in
  sent o2 = []
  /\ out_store o2 = out_store o1
  /\ sent o3 = [Arxiv.build_request (js "c") 5 Arxiv.relevance].
Proof.
  cbv zeta.
  apply (X_rejected_call_keeps_window Samples.iso Samples.iso Samples.iso
           (Samples.world_at 140000 140000
              (Return (Samples.ok_response Samples.atom_feed)))
           (Samples.world_at 169000 169000
              (Return (Samples.ok_response Samples.atom_feed)))
           (Samples.world_at 170000 170000
              (Return (Samples.ok_response Samples.atom_feed)))
           (js "a") (js "b") (js "c") 5 5 5
           Arxiv.relevance Arxiv.relevance Arxiv.relevance
           Samples.after_arxiv_call).
  - vm_compute. reflexivity.
  - vm_compute. reflexivity.
  - vm_compute. discriminate.
Defined.

(** X8: the wait the cooldown error announces is between 1 and 30
    seconds when the clock has not gone back, it is the remaining
    cooldown rounded up to the second, and a call made that many
    seconds later is let through. *)
Theorem X_announced_wait_suffices
    (toISO toISO' : jsstring -> option jsstring) (w w' : world jsstring)
    (q q' : jsstring) (m m' : Z) (s s' : Arxiv.sortOrder) (st : store) :
  let elapsed := Date_now w 0 - lastArxivCall st in
  let seconds := announced_wait (30000 - elapsed) in
  let o := Arxiv.searchArxiv toISO w q m s st in
  0 <= elapsed < 30000 ->
  out_value o
  = Throw (JsError (js "arXiv API cooldown active. Please wait "
                    ++ toString seconds
                    ++ js " seconds before next search."))
  /\ 1 <= seconds <= 30
  /\ 1000 * (seconds - 1) < 30000 - elapsed <= 1000 * seconds
  /\ (Date_now w 0 + 1000 * seconds <= Date_now w' 0 ->
      sent (Arxiv.searchArxiv toISO' w' q' m' s' (out_store o))
      = [Arxiv.build_request q' m' s']).
Proof.
  cbv zeta. intros H.
  set (elapsed := Date_now w 0 - lastArxivCall st) in *.
  assert (B : 1000 * (announced_wait (30000 - elapsed) - 1) < 30000 - elapsed
              <= 1000 * announced_wait (30000 - elapsed)).
  { unfold announced_wait, ceil_div.
    pose proof (Z.div_mod (- (30000 - elapsed)) 1000 ltac:(lia)) as D.
    pose proof (Z.mod_pos_bound (- (30000 - elapsed)) 1000 ltac:(lia)) as P.
    lia. }
  assert (E : Arxiv.searchArxiv toISO w q m s st
              = {| out_store := st; out_trace := [];
                   out_value := Throw (JsError (Arxiv.cooldown_message
                                                  (30000 - elapsed))) |}).
  { rewrite searchArxiv_unfold. cbv zeta. unfold Arxiv.ARXIV_COOLDOWN_MS.
    fold elapsed.
    destruct (Z.ltb_spec elapsed 30000); [reflexivity|lia]. }
  rewrite E. cbn [out_value out_store]. repeat split; try lia.
  intros L. rewrite searchArxiv_unfold. cbv zeta.
  unfold Arxiv.ARXIV_COOLDOWN_MS.
  destruct (Z.ltb_spec (Date_now w' 0 - lastArxivCall st) 30000);
    [unfold elapsed in *; lia|].
  destruct (fetch w' _) as [r|e];
    [destruct (ok r); [destruct (body r)|]|]; reflexivity.
Qed.

Lemma X_announced_wait_suffices_witness :
  out_value (Arxiv.searchArxiv Samples.iso
               (Samples.world_at 100500 100500
                  (Return (Samples.ok_response Samples.atom_feed)))
               (js "a") 5 Arxiv.relevance Samples.after_arxiv_call)
  = Throw (JsError (js "arXiv API cooldown active. Please wait 30 seconds before next search.")).
Proof.
  assert (H : 0 <= Date_now (Samples.world_at 100500 100500
                     (Return (Samples.ok_response Samples.atom_feed))) 0
                   - lastArxivCall Samples.after_arxiv_call < 30000).
  { vm_compute. split; [discriminate|reflexivity]. }
  destruct (@X_announced_wait_suffices Samples.iso Samples.iso
              (Samples.world_at 100500 100500
                 (Return (Samples.ok_response Samples.atom_feed)))
              (Samples.world_at 130500 130500
                 (Return (Samples.ok_response Samples.atom_feed)))
              (js "a") (js "a") 5 5 Arxiv.relevance Arxiv.relevance
              Samples.after_arxiv_call H)
    as (E & _).
  rewrite E. vm_compute. reflexivity.
Defined.

(** X9: no tool retries: a call sends at most one request (exactly one
    for Semantic Scholar, J-STAGE and CORE), suspends at most once, and
    the conference search sends no request and asks for at most one
    generation. *)
Theorem X_one_request_per_call :
  (forall toISO w q m s st,
     (length (sent (Arxiv.searchArxiv toISO w q m s st)) <= 1)%nat
     /\ sleeps (Arxiv.searchArxiv toISO w q m s st) = [])
  /\ (forall w q m st,
        length (sent (SemanticScholar.searchSemanticScholar w q m st)) = 1%nat
        /\ (length (sleeps (SemanticScholar.searchSemanticScholar w q m st))
            <= 1)%nat)
  /\ (forall enc stamp w q m mat yf yt st,
        length (sent (Jstage.searchJstage enc stamp w q m mat yf yt st)) = 1%nat
        /\ (length (sleeps (Jstage.searchJstage enc stamp w q m mat yf yt st))
            <= 1)%nat)
  /\ (forall w k y q m yf yt lf dt st,
        length (sent (Core.execute w k y q m yf yt lf dt st)) = 1%nat
        /\ sleeps (Core.execute w k y q m yf yt lf dt st) = [])
  /\ (forall w q sid st,
        sent (Conference.execute w q sid st) = []
        /\ (length (generations (Conference.execute w q sid st)) <= 1)%nat).
Proof.
  repeat apply conj.
  - intros toISO w q m s st. rewrite searchArxiv_unfold. cbv zeta.
    unfold sent, sleeps.
    destruct (_ <? _); [cbn; split; [lia|reflexivity]|].
    destruct (fetch w _) as [r|e];
      [destruct (ok r); [destruct (body r)|]|];
      cbn; split; try reflexivity; lia.
  - intros w q m st. rewrite searchSemanticScholar_unfold. cbv zeta.
    unfold sent, sleeps, s2_after_gate.
    destruct (_ <? _);
      (destruct (fetch w _) as [r|e];
       [destruct (ok r); [destruct (body r)|]|];
       cbn; split; try reflexivity; lia).
  - intros enc stamp w q m mat yf yt st. rewrite searchJstage_unfold.
    cbv zeta. unfold sent, sleeps, jstage_after_gate.
    destruct (_ <? _);
      (destruct (fetch w _) as [r|e];
       [destruct (ok r); [destruct (body r)|]|];
       cbn; split; try reflexivity; lia).
  - intros w k y q m yf yt lf dt st. rewrite core_execute_unfold.
    cbn. split; reflexivity.
  - intros w q sid st.
    rewrite conference_execute_unfold, searchTopConferences_unfold. cbv zeta.
    unfold sent, generations.
    destruct (out_value (Conference.getGenAIClient w st)); cbn;
      split; try reflexivity; lia.
Qed.

Lemma X_at_most_three_authors_witness :
  Forall (fun p => (length (Jstage.sp_authors p) <= 3)%nat)
         (Jstage.papers
            {| Jstage.papers :=
                 [{| Jstage.sp_title := js "Kanji OCR";
                     Jstage.sp_authors :=
                       [js "Sato"; js "Suzuki"; js "Takahashi"];
                     Jstage.sp_publicationDate := [];
                     Jstage.sp_doi := None;
                     Jstage.sp_journalTitle := None |}];
               Jstage.totalResults := 1 |})
  /\ length (Jstage.authors (Jstage.parseItem crowded_feed)) = 4%nat
  /\ Forall (fun p => (length (Core.o_authors p) <= 3)%nat)
            (Core.papers
               {| Core.papers :=
                    [{| Core.o_coreId := js "1";
                        Core.o_title := js "T";
                        Core.o_authors :=
                          [Core.AStr (js "A"); Core.AStr (js "B");
                           Core.AStr (js "C")];
                        Core.o_abstract := None;
                        Core.o_year := 2025;
                        Core.o_repository := js "Unknown";
                        Core.o_doi := None |}];
                  Core.totalResults := 1 |})
  /\ length (arr_or (Core.r_authors crowded_record) []) = 5%nat.
Proof.
  repeat apply conj.
  - apply (proj1 X_at_most_three_authors Samples.enc Samples.stamp
             (Samples.world_at 5400 6100
                (Return (Samples.ok_response crowded_feed)))
             (js "ocr") 10 None None None initial_store).
    vm_compute. reflexivity.
  - vm_compute. reflexivity.
  - apply (proj2 X_at_most_three_authors
             (Samples.world_at 7000 7100
                (Return (Samples.ok_response
                           (Samples.core_payload [crowded_record]))))
             Undefined 2025 (js "graphs") 10 None None None Core.all
             initial_store).
    vm_compute. reflexivity.
  - reflexivity.
Defined.

(** Every link [parseEntry] keeps is non-empty. *)
Lemma parseEntry_link toISO e p :
  Arxiv.parseEntry toISO e = Some p -> Arxiv.link p <> [].
Proof.
  unfold Arxiv.parseEntry. cbv zeta.
  destruct (_ || _); [discriminate|]. intros [= <-]. cbn [Arxiv.link].
  apply or_else_nonempty. discriminate.
Qed.

Lemma arxiv_entries_ok toISO xml :
  Forall (entry_ok (js "arXiv"))
         (map Arxiv.collect (Arxiv.parseArxivXML toISO xml)).
Proof.
  apply Forall_forall. intros c Hc.
  apply in_map_iff in Hc as (p & <- & Hp).
  rewrite fold_parseArxivXML in Hp.
  apply in_flat_map in Hp as (e & _ & He).
  unfold keep in He. destruct (Arxiv.parseEntry toISO e) eqn:E; [|destruct He].
  destruct He as [<-|[]]. split; [|reflexivity].
  cbn [Arxiv.collect c_url]. eapply parseEntry_link; eauto.
Qed.

Lemma s2_entries_ok (l : list SemanticScholar.rawPaper) :
  Forall (entry_ok (js "Semantic Scholar"))
         (map (fun p => SemanticScholar.collect (SemanticScholar.paperData p)) l).
Proof.
  apply Forall_forall. intros c Hc.
  apply in_map_iff in Hc as (p & <- & _). split; [|reflexivity].
  cbn [SemanticScholar.collect c_url SemanticScholar.paperData
       SemanticScholar.url].
  unfold str_or. destruct (SemanticScholar.r_url p);
    try (now apply js_app_nonempty).
  apply or_else_nonempty. now apply js_app_nonempty.
Qed.

(** The collecting loop of J-STAGE only adds usable entries, and leaves
    the two other collectors alone, whether it completes or not. *)
Lemma forEach_collect_ok enc stamp (l : list Jstage.JstagePaper) :
  forall i st,
    Forall (entry_ok (js "J-STAGE")) (collectedJstageUrls st) ->
    let st' := out_store (Jstage.forEach (Jstage.collect enc stamp) i l st) in
    Forall (entry_ok (js "J-STAGE")) (collectedJstageUrls st')
    /\ collectedArxivUrls st' = collectedArxivUrls st
    /\ collectedUrls st' = collectedUrls st.
Proof.
  induction l as [|p l IH]; intros i st H; cbv zeta.
  - cbn. auto.
  - cbn [Jstage.forEach]. unfold bind. rewrite collect_outcome.
    unfold collected_url.
    assert (G : forall u, u <> [] ->
      let st1 := set_collectedJstageUrls
                   (collectedJstageUrls st
                    ++ [{| c_id := or_else (Jstage.doi p)
                                          (js "jstage-" ++ stamp i);
                           c_title := Jstage.title p; c_url := u;
                           c_source := js "J-STAGE" |}]) st in
      let st' := out_store
                   (Jstage.forEach (Jstage.collect enc stamp) (S i) l st1) in
      Forall (entry_ok (js "J-STAGE")) (collectedJstageUrls st')
      /\ collectedArxivUrls st' = collectedArxivUrls st
      /\ collectedUrls st' = collectedUrls st).
    { intros u Hu. cbv zeta.
      match goal with
      | |- context [Jstage.forEach _ _ _ ?s] =>
          destruct (IH (S i) s) as (F & A & S2)
      end.
      - cbn [collectedJstageUrls set_collectedJstageUrls].
        apply Forall_app. split; [exact H|].
        constructor; [|constructor]. split; [exact Hu|reflexivity].
      - cbv zeta in F, A, S2. rewrite A, S2. auto. }
    destruct (is_empty (Jstage.url p)) eqn:E.
    + destruct (enc (Jstage.title p)) as [t|e];
        cbn [out_value out_store out_trace].
      * apply G. now apply js_app_nonempty.
      * auto.
    + cbn [out_value out_store out_trace]. apply G.
      now apply is_empty_false.
Qed.

(** One call keeps the collectors usable. *)
Lemma invoke_ok (c : Session.call) st :
  collectors_ok st -> collectors_ok (out_store (Session.invoke c st)).
Proof.
  intros (A & S2 & J).
  destruct c as [iso w q m s | w q m | enc stamp w q m mat yf yt
                | w k y q m yf yt lf dt | w q sid];
    cbn [Session.invoke]; unfold bind.
  - rewrite searchArxiv_unfold. cbv zeta.
    destruct (_ <? _); [cbn; repeat split; assumption|].
    destruct (fetch w _) as [r|e];
      [destruct (ok r); [destruct (body r) as [xml|e]|]|];
      cbn; repeat split; try assumption.
    apply Forall_app. split; [exact A|apply arxiv_entries_ok].
  - rewrite searchSemanticScholar_unfold. cbv zeta. unfold s2_after_gate.
    destruct (_ <? _);
      (destruct (fetch w _) as [r|e];
       [destruct (ok r); [destruct (body r) as [d|e]|]|];
       cbn; repeat split; try assumption;
       apply Forall_app; split; [exact S2|apply s2_entries_ok]).
  - rewrite searchJstage_unfold. cbv zeta. unfold jstage_after_gate.
    assert (G : forall l,
      collectors_ok
        (out_store (Jstage.forEach (Jstage.collect enc stamp) 0 l
                      (set_lastJstageCall (Date_now w 1) st)))).
    { intros l.
      destruct (forEach_collect_ok enc stamp l 0
                  (set_lastJstageCall (Date_now w 1) st) J) as (F & EA & ES).
      cbv zeta in F, EA, ES. repeat split; [rewrite EA|rewrite ES|]; assumption. }
    destruct (_ <? _);
      (destruct (fetch w _) as [r|e];
       [destruct (ok r); [destruct (body r) as [xml|e]|]|];
       cbv zeta; cbn [out_value out_store];
       try (destruct (out_value (Jstage.forEach _ _ _ _));
            cbn [out_store]; apply G);
       cbn; repeat split; assumption).
  - rewrite core_execute_unfold. cbn. repeat split; assumption.
  - rewrite conference_execute_unfold, searchTopConferences_unfold. cbv zeta.
    unfold Conference.getGenAIClient. run_m.
    destruct (genai st); run_m; [cbn; repeat split; assumption|].
    destruct (is_empty _); run_m; cbn; repeat split; assumption.
Qed.

(** X10: every entry the collectors ever hold has a non-empty link and
    carries the name of its source: this holds at start and is kept by
    every call of every tool, whether it returns or throws. *)
Theorem X_collected_entries_are_usable :
  collectors_ok initial_store
  /\ (forall cs st,
        collectors_ok st -> collectors_ok (fst (Session.run cs st))).
Proof.
  split.
  - repeat split; constructor.
  - induction cs as [|c cs IH]; intros st H; [exact H|].
    cbn [Session.run]. specialize (IH _ (invoke_ok c H)).
    destruct (Session.run cs (out_store (Session.invoke c st))). exact IH.
Qed.

Lemma X_collected_entries_are_usable_witness :
  collectors_ok
    (fst (Session.run
            [Session.CallSemanticScholar
               (Samples.world_at 5000 5100
                  (Return (Samples.ok_response
                     (Samples.s2_payload [Samples.titled; Samples.untitled]))))
               (js "graphs") 10;
             Session.CallJstage Samples.enc Samples.stamp
               (Samples.world_at 5400 6100
                  (Return (Samples.ok_response Samples.jstage_feed)))
               (js "ocr") 10 None None None]
            initial_store)).
Proof.
  apply (proj2 X_collected_entries_are_usable).
  apply (proj1 X_collected_entries_are_usable).
Defined.

(** X11: CORE reports zero results only when it returns no paper. *)
Theorem X_core_zero_total_means_no_paper
    (w : world Core.payload) (k : jsopt jsstring) (y : Z) (q : jsstring)
    (m : Z) (yf yt : option Z) (lf : option (list jsstring))
    (dt : Core.docType) (st : store) :
  exists out,
    out_value (Core.execute w k y q m yf yt lf dt st) = Return out
    /\ (Core.totalResults out = 0 -> Core.papers out = []).
Proof.
  rewrite core_execute_unfold. cbv zeta. cbn [out_value].
  eexists. split; [reflexivity|].
  destruct (fetch w _) as [r|e]; [|reflexivity].
  destruct (ok r); [|reflexivity].
  destruct (body r) as [d|e]; [|reflexivity].
  cbn. destruct (arr_or (Core.results d) []) as [|x l]; [reflexivity|].
  unfold num_or. destruct (Core.totalHits d) as [| |n]; cbn [length];
    try lia.
  destruct (Z.eqb_spec n 0); lia.
Qed.

(** X12: [formatDate] keeps the part of the ISO form that precedes the
    first T, gives back a date the platform cannot read as it is, and
    maps the empty string to itself. *)
Theorem X_formatDate_keeps_the_day
    (toISO : jsstring -> option jsstring) (dateString : jsstring) :
  (forall day time,
     dateString <> [] ->
     toISO dateString = Some (day ++ ch "T" :: time) ->
     ~ In (ch "T") day ->
     Arxiv.formatDate toISO dateString = day)
  /\ (toISO dateString = None ->
      Arxiv.formatDate toISO dateString = dateString)
  /\ Arxiv.formatDate toISO [] = [].
Proof.
  unfold Arxiv.formatDate. repeat split.
  - intros day time Hn Hi Hd. apply is_empty_false in Hn. rewrite Hn, Hi.
    clear Hi. induction day as [|c day IH]; cbn [app Arxiv.before_T].
    + now rewrite char_eqb_refl.
    + destruct (char_eqb c (ch "T")) eqn:E.
      * apply char_eqb_eq in E. exfalso. apply Hd. now left.
      * f_equal. apply IH. intros H. apply Hd. now right.
  - intros ->. now destruct dateString.
Qed.

Lemma X_formatDate_keeps_the_day_witness :
  Arxiv.formatDate Samples.iso (js "2023-01-30T00:00:00Z") = js "2023-01-30".
Proof.
  apply (proj1 (X_formatDate_keeps_the_day Samples.iso
                  (js "2023-01-30T00:00:00Z"))
               (js "2023-01-30") (js "00:00:00Z")).
  - vm_compute. discriminate.
  - vm_compute. reflexivity.
  - vm_compute. intuition discriminate.
Defined.

(** What a J-STAGE search that returns has added to its collector. *)
Lemma searchJstage_entries enc stamp w q m mat yf yt st xml :
  answers w (Jstage.build_request q m mat yf yt) xml ->
  is_throw (out_value (Jstage.searchJstage enc stamp w q m mat yf yt st))
  = false ->
  exists new,
    collectedJstageUrls
      (out_store (Jstage.searchJstage enc stamp w q m mat yf yt st))
    = collectedJstageUrls st ++ new
    /\ length new = length (Jstage.parseJstageXML xml)
    /\ forall k p,
         nth_error (Jstage.parseJstageXML xml) k = Some p ->
         exists u,
           collected_url enc p = Return u
           /\ nth_error new k = Some (jstage_entry stamp k p u).
Proof.
  intros (r & Hf & Hok & Hb).
  rewrite searchJstage_unfold. cbv zeta. unfold jstage_after_gate.
  rewrite Hf, Hok, Hb. cbv zeta.
  pose proof (forEach_collect_entries enc stamp (Jstage.parseJstageXML xml)
                0 (set_lastJstageCall (Date_now w 1) st)) as G.
  cbv zeta in G. cbn [collectedJstageUrls set_lastJstageCall] in G.
  destruct (_ <? _); cbn [out_value out_store];
    (destruct (out_value (Jstage.forEach _ _ _ _)); [|discriminate];
     intros _; exact (G eq_refl)).
Qed.

(** X13: each of the three clearing functions empties its own collector
    and touches nothing else: the two other collectors, the three
    cooldowns and the client stay.  So an arXiv call made within the
    cooldown after a clear is still rejected, and a search of any of the
    three sources that returns after a clear of its collector leaves in
    it exactly the entries of that search. *)
Theorem X_clear_only_empties_the_collector :
  (forall st,
     let a := out_store (Collectors.clearCollectedArxivUrls st) in
     let s := out_store (Collectors.clearCollectedUrls st) in
     let j := out_store (Collectors.clearCollectedJstageUrls st) in
     (collectedArxivUrls a = []
      /\ collectedUrls a = collectedUrls st
      /\ collectedJstageUrls a = collectedJstageUrls st
      /\ clocks_and_client_kept st a)
     /\ (collectedUrls s = []
         /\ collectedArxivUrls s = collectedArxivUrls st
         /\ collectedJstageUrls s = collectedJstageUrls st
         /\ clocks_and_client_kept st s)
     /\ (collectedJstageUrls j = []
         /\ collectedArxivUrls j = collectedArxivUrls st
         /\ collectedUrls j = collectedUrls st
         /\ clocks_and_client_kept st j))
  /\ (forall toISO w q m s st,
        Date_now w 0 - lastArxivCall st < 30000 ->
        sent (Arxiv.searchArxiv toISO w q m s
                (out_store (Collectors.clearCollectedArxivUrls st))) = []
        /\ is_throw
             (out_value
                (Arxiv.searchArxiv toISO w q m s
                   (out_store (Collectors.clearCollectedArxivUrls st))))
           = true)
  /\ (forall toISO w q m s st xml,
        30000 <= Date_now w 0 - lastArxivCall st ->
        answers w (Arxiv.build_request q m s) xml ->
        out_value
          (Collectors.getCollectedArxivUrls
             (out_store
                (Arxiv.searchArxiv toISO w q m s
                   (out_store (Collectors.clearCollectedArxivUrls st)))))
        = Return (map Arxiv.collect (Arxiv.parseArxivXML toISO xml)))
  /\ (forall w q m st d,
        answers w (SemanticScholar.build_request q m) d ->
        out_value
          (Collectors.getCollectedUrls
             (out_store
                (SemanticScholar.searchSemanticScholar w q m
                   (out_store (Collectors.clearCollectedUrls st)))))
        = Return (map (fun p => SemanticScholar.collect
                                  (SemanticScholar.paperData p))
                      (arr_or (SemanticScholar.data d) [])))
  /\ (forall enc stamp w q m mat yf yt st xml,
        answers w (Jstage.build_request q m mat yf yt) xml ->
        is_throw
          (out_value
             (Jstage.searchJstage enc stamp w q m mat yf yt
                (out_store (Collectors.clearCollectedJstageUrls st))))
        = false ->
        exists new,
          out_value
            (Collectors.getCollectedJstageUrls
               (out_store
                  (Jstage.searchJstage enc stamp w q m mat yf yt
                     (out_store (Collectors.clearCollectedJstageUrls st)))))
          = Return new
          /\ length new = length (Jstage.parseJstageXML xml)
          /\ forall k p,
               nth_error (Jstage.parseJstageXML xml) k = Some p ->
               exists u,
                 collected_url enc p = Return u
                 /\ nth_error new k = Some (jstage_entry stamp k p u)).
Proof.
  repeat apply conj.
  - intros st. cbn. unfold clocks_and_client_kept. cbn. tauto.
  - intros toISO w q m s st H. rewrite searchArxiv_unfold. cbv zeta.
    cbn [Collectors.clearCollectedArxivUrls modify out_store lastArxivCall
         set_collectedArxivUrls].
    unfold Arxiv.ARXIV_COOLDOWN_MS.
    destruct (Z.ltb_spec (Date_now w 0 - lastArxivCall st) 30000); [|lia].
    split; reflexivity.
  - intros toISO w q m s st xml H (r & Hf & Hok & Hb).
    rewrite searchArxiv_unfold. cbv zeta.
    cbn [Collectors.clearCollectedArxivUrls modify out_store lastArxivCall
         set_collectedArxivUrls].
    unfold Arxiv.ARXIV_COOLDOWN_MS.
    destruct (Z.ltb_spec (Date_now w 0 - lastArxivCall st) 30000); [lia|].
    now rewrite Hf, Hok, Hb.
  - intros w q m st d (r & Hf & Hok & Hb).
    rewrite searchSemanticScholar_unfold. cbv zeta. unfold s2_after_gate.
    rewrite Hf, Hok, Hb. destruct (_ <? _); reflexivity.
  - intros enc stamp w q m mat yf yt st xml Ha Ht.
    destruct (@searchJstage_entries enc stamp w q m mat yf yt
                (out_store (Collectors.clearCollectedJstageUrls st)) xml
                Ha Ht)
      as (new & E & L & P).
    exists new. split; [|split; assumption].
    unfold Collectors.getCollectedJstageUrls, gets. cbn [out_value].
    now rewrite E.
Qed.

Lemma X_clear_only_empties_the_collector_witness :
  (collectedJstageUrls
     (out_store (Collectors.clearCollectedJstageUrls busy_store)) = []
   /\ collectedArxivUrls
        (out_store (Collectors.clearCollectedJstageUrls busy_store))
      = collectedArxivUrls busy_store
   /\ collectedUrls
        (out_store (Collectors.clearCollectedJstageUrls busy_store))
      = collectedUrls busy_store
   /\ clocks_and_client_kept busy_store
        (out_store (Collectors.clearCollectedJstageUrls busy_store)))
  /\ sent (Arxiv.searchArxiv Samples.iso
             (Samples.world_at 110000 110000
                (Return (Samples.ok_response Samples.atom_feed)))
             (js "a") 5 Arxiv.relevance
             (out_store (Collectors.clearCollectedArxivUrls busy_store))) = []
  /\ out_value
       (Collectors.getCollectedArxivUrls
          (out_store
             (Arxiv.searchArxiv Samples.iso
                (Samples.world_at 140000 140000
                   (Return (Samples.ok_response Samples.atom_feed)))
                (js "a") 5 Arxiv.relevance
                (out_store (Collectors.clearCollectedArxivUrls busy_store)))))
     = Return (map Arxiv.collect
                   (Arxiv.parseArxivXML Samples.iso Samples.atom_feed))
  /\ out_value
       (Collectors.getCollectedUrls
          (out_store
             (SemanticScholar.searchSemanticScholar
                (Samples.world_at 5000 5100
                   (Return (Samples.ok_response
                              (Samples.s2_payload [Samples.titled]))))
                (js "graphs") 10
                (out_store (Collectors.clearCollectedUrls busy_store)))))
     = Return (map (fun p => SemanticScholar.collect
                               (SemanticScholar.paperData p))
                   [Samples.titled])
  /\ (exists new,
        out_value
          (Collectors.getCollectedJstageUrls
             (out_store
                (Jstage.searchJstage Samples.enc Samples.stamp
                   (Samples.world_at 5400 6100
                      (Return (Samples.ok_response Samples.jstage_feed)))
                   (js "ocr") 10 None None None
                   (out_store
                      (Collectors.clearCollectedJstageUrls busy_store)))))
        = Return new
        /\ length new = 2%nat).
Proof.
  pose proof X_clear_only_empties_the_collector as (F & A & A' & S & J).
  pose proof (F busy_store) as Fb. cbv zeta in Fb.
  destruct Fb as (_ & _ & Fj).
  split; [exact Fj|]. repeat apply conj.
  - apply A. vm_compute. reflexivity.
  - apply A'.
    + vm_compute. discriminate.
    + eexists. repeat split.
  - apply (S (Samples.world_at 5000 5100
                (Return (Samples.ok_response
                           (Samples.s2_payload [Samples.titled]))))
             (js "graphs") 10 busy_store
             (Samples.s2_payload [Samples.titled])).
    eexists. repeat split.
  - destruct (J Samples.enc Samples.stamp
                (Samples.world_at 5400 6100
                   (Return (Samples.ok_response Samples.jstage_feed)))
                (js "ocr") 10 None None None busy_store Samples.jstage_feed)
      as (new & E & L & _).
    + eexists. repeat split.
    + vm_compute. reflexivity.
    + exists new. split; [exact E|]. rewrite L. vm_compute. reflexivity.
Defined.

End Further.


(* ================================================================= *)
(** ** The matcher only finds matches *)

Section MatcherFacts.

Lemma rx_star g a s c k :
  rx (RStar g a) s c k = star_loop (rx a) g k (S (length s)) s c.
Proof. reflexivity. Qed.

Lemma rx_sound (r : regex) :
  forall s c k res,
    rx r s c k = Some res ->
    exists s' c', steps r s c s' c' /\ k s' c' = Some res.
Proof.
  induction r as [p| |a IHa b IHb|a IHa b IHb|g a IHa|i a IHa|a IHa|];
    intros s c k res H;
    [cbn [rx] in H|cbn [rx] in H|cbn [rx] in H|cbn [rx] in H| |
     cbn [rx] in H|cbn [rx] in H|cbn [rx] in H].
  - destruct s as [|x s']; [discriminate|].
    destruct (p x) eqn:E; [|discriminate].
    exists s', c. split; [|exact H]. exists x. auto.
  - exists s, c. split; [split; reflexivity|exact H].
  - apply IHa in H as (s1 & c1 & Ha & H).
    apply IHb in H as (s2 & c2 & Hb & H).
    exists s2, c2. split; [|exact H]. exists s1, c1. auto.
  - destruct (rx a s c k) eqn:E.
    + injection H as <-. apply IHa in E as (s' & c' & Ha & E).
      exists s', c'. split; [left; exact Ha|exact E].
    + apply IHb in H as (s' & c' & Hb & H).
      exists s', c'. split; [right; exact Hb|exact H].
  - rewrite rx_star in H. revert H.
    generalize (S (length s)) as n. intros n. revert s c.
    induction n as [|n IHn]; intros s c H; cbn [star_loop] in H.
    + exists s, c. split; [apply star_done|exact H].
    + assert (G :
        rx a s c (fun s' c' =>
          if (length s' <? length s)%nat
          then star_loop (rx a) g k n s' c' else None) = Some res ->
        exists s' c', steps (RStar g a) s c s' c' /\ k s' c' = Some res).
      { intros E. apply IHa in E as (s1 & c1 & Ha & E).
        destruct (Nat.ltb_spec (length s1) (length s)); [|discriminate].
        apply IHn in E as (s' & c' & Hs & E).
        exists s', c'. split; [|exact E].
        cbn [steps] in *. eapply star_more; eauto. }
      destruct g.
      * match type of H with
        | match ?t with _ => _ end = _ => destruct t eqn:E
        end.
        -- injection H as ->. now apply G.
        -- exists s, c. split; [apply star_done|exact H].
      * destruct (k s c) eqn:E.
        -- injection H as ->. exists s, c. split; [apply star_done|exact E].
        -- now apply G.
  - apply IHa in H as (s' & c' & Ha & H).
    eexists s', _. split; [|exact H]. exists c'. auto.
  - match type of H with
    | match ?t with _ => _ end = _ => destruct t as [[s1 c1]|] eqn:E
    end; [|discriminate].
    apply IHa in E as (s2 & c2 & Ha & E). injection E as -> ->.
    exists s, c1. split; [|exact H]. split; [reflexivity|]. eauto.
  - destruct s; [|discriminate]. exists [], c.
    split; [repeat split|exact H].
Qed.

(** A match consumes a prefix of the input. *)
Lemma steps_suffix (r : regex) :
  forall s c s' c', steps r s c s' c' -> exists m, s = m ++ s'.
Proof.
  induction r as [p| |a IHa b IHb|a IHa b IHb|g a IHa|i a IHa|a IHa|];
    intros s c s' c' H; cbn [steps] in H.
  - destruct H as (x & -> & _). now exists [x].
  - destruct H as (-> & _). now exists [].
  - destruct H as (s1 & c1 & Ha & Hb).
    apply IHa in Ha as (m1 & ->). apply IHb in Hb as (m2 & ->).
    exists (m1 ++ m2). now rewrite app_assoc.
  - destruct H as [H|H]; eauto.
  - induction H as [s c|s c s1 c1 s' c' H1 _ _ IH].
    + now exists [].
    + apply IHa in H1 as (m1 & ->). destruct IH as (m2 & ->).
      exists (m1 ++ m2). now rewrite app_assoc.
  - destruct H as (c1 & Ha & _). eauto.
  - destruct H as (-> & _). now exists [].
  - destruct H as (-> & -> & _). now exists [].
Qed.

Lemma firstn_consumed (m s' : jsstring) :
  firstn (length (m ++ s') - length s') (m ++ s') = m.
Proof.
  rewrite length_app, Nat.add_sub. 
  rewrite firstn_app, Nat.sub_diag, firstn_all. cbn. apply app_nil_r.
Qed.

Lemma rx_top (r : regex) (s rest : jsstring) (c : caps) :
  rx r s [] (fun s' c' => Some (s', c')) = Some (rest, c) ->
  exists text,
    s = text ++ rest
    /\ firstn (length s - length rest) s = text
    /\ steps r (text ++ rest) [] rest c.
Proof.
  intros E. apply rx_sound in E as (s' & c' & Hs & [= -> ->]).
  destruct (steps_suffix _ _ _ _ _ Hs) as (t & ->).
  exists t. rewrite firstn_consumed. auto.
Qed.

Lemma search_from_unfold (r : regex) (pre s : jsstring) :
  search_from r pre s =
  match rx r s [] (fun s' c' => Some (s', c')) with
  | Some (rest, c) =>
      Some {| m_before := rev pre;
              m_text := firstn (length s - length rest) s;
              m_rest := rest;
              m_caps := c |}
  | None =>
      match s with
      | [] => None
      | x :: s' => search_from r (x :: pre) s'
      end
  end.
Proof. destruct s; reflexivity. Qed.

(** What [search] returns is a match at some index of the input. *)
Lemma search_sound (r : regex) (s : jsstring) (m : rmatch) :
  search r s = Some m ->
  s = m_before m ++ m_text m ++ m_rest m
  /\ steps r (m_text m ++ m_rest m) [] (m_rest m) (m_caps m).
Proof.
  unfold search.
  assert (G : forall pre,
    search_from r pre s = Some m ->
    rev pre ++ s = m_before m ++ m_text m ++ m_rest m
    /\ steps r (m_text m ++ m_rest m) [] (m_rest m) (m_caps m)).
  { induction s as [|x s IH]; intros pre H;
      rewrite search_from_unfold in H;
      (destruct (rx r _ [] _) as [[rest c]|] eqn:E;
       [ destruct (rx_top _ _ E) as (t & Et & Ef & Hs);
         rewrite Ef in H; injection H as <-;
         cbn [m_before m_text m_rest m_caps];
         split; [now rewrite <- Et|exact Hs] | ]).
    - cbn in H. discriminate.
    - apply IH in H as (E1 & E2).
      cbn [rev] in E1. rewrite <- app_assoc in E1. auto. }
  intros H. apply (G []) in H. exact H.
Qed.

(** Every element of [all_matches] is a match. *)
Lemma all_matches_sound (r : regex) (m : rmatch) :
  forall s, In m (all_matches r s) ->
            steps r (m_text m ++ m_rest m) [] (m_rest m) (m_caps m).
Proof.
  unfold all_matches. intros s. generalize (S (length s)) as n. intros n.
  revert s. induction n as [|n IH]; intros s H; cbn [all_matches_fuel] in H.
  - destruct H.
  - destruct (search r s) as [m0|] eqn:E; [|destruct H].
    destruct H as [<-|H]; [now apply search_sound in E|].
    destruct (m_text m0); [destruct (m_rest m0); [destruct H|]|]; eauto.
Qed.

(** Matches of a literal, of a run of a character class. *)
Lemma lit_steps (l : jsstring) :
  forall s c s' c', steps (lit l) s c s' c' -> s = l ++ s' /\ c' = c.
Proof.
  induction l as [|x l IH]; intros s c s' c' H; cbn [lit steps] in H.
  - destruct H as (-> & ->). auto.
  - destruct H as (s1 & c1 & (y & -> & Hy & ->) & H).
    apply IH in H as (-> & ->). apply char_eqb_eq in Hy. subst y. auto.
Qed.

Lemma star_class_steps (g : bool) (p : jschar -> bool) :
  forall s c s' c',
    steps (RStar g (RChar p)) s c s' c' ->
    exists m, s = m ++ s' /\ Forall (fun x => p x = true) m /\ c' = c.
Proof.
  intros s c s' c' H. cbn [steps] in H.
  induction H as [s c|s c s1 c1 s' c' (x & -> & Hx & ->) _ _ IH].
  - exists []. auto.
  - destruct IH as (m & -> & Hm & ->). exists (x :: m). auto.
Qed.

Lemma plus_class_steps (p : jschar -> bool) :
  forall s c s' c',
    steps (plus (RChar p)) s c s' c' ->
    exists m, s = m ++ s' /\ m <> [] /\ Forall (fun x => p x = true) m
              /\ c' = c.
Proof.
  intros s c s' c' H. unfold plus in H. cbn [steps] in H.
  destruct H as (s1 & c1 & (x & -> & Hx & ->) & H).
  apply (@star_class_steps true p) in H as (m & -> & Hm & ->).
  exists (x :: m). repeat split; auto. discriminate.
Qed.

(** What a group around a run of a class captures. *)
Lemma group_plus_class_steps (i : nat) (p : jschar -> bool) :
  forall s c s' c',
    steps (RGroup i (plus (RChar p))) s c s' c' ->
    exists m, s = m ++ s' /\ m <> [] /\ Forall (fun x => p x = true) m
              /\ c' = (i, m) :: c.
Proof.
  intros s c s' c' H. cbn [steps] in H. destruct H as (c1 & H & ->).
  apply plus_class_steps in H as (m & -> & Hn & Hm & ->).
  exists m. rewrite firstn_consumed. auto.
Qed.

(** A sequence of patterns, element by element. *)
Lemma seq_steps (a : regex) (rest : list regex) s c s' c' :
  rest <> [] ->
  steps (seq (a :: rest)) s c s' c' ->
  exists s1 c1, steps a s c s1 c1 /\ steps (seq rest) s1 c1 s' c'.
Proof. destruct rest; [congruence|]. intros _ H. exact H. Qed.

Lemma seq_last (a : regex) s c s' c' :
  steps (seq [a]) s c s' c' -> steps a s c s' c'.
Proof. intros H. exact H. Qed.

(** The loop on a star cannot fail when what follows cannot. *)
Lemma star_loop_total step g k :
  (forall s c, k s c <> None) ->
  forall n s c, star_loop step g k n s c <> None.
Proof.
  intros Hk n s c. destruct n as [|n]; cbn [star_loop]; [apply Hk|].
  destruct g.
  - destruct (step s c _); [discriminate|apply Hk].
  - destruct (k s c) eqn:E; [discriminate|]. now apply Hk in E.
Qed.

Lemma group_head (i : nat) (v : jsstring) (c : caps) :
  group i ((i, v) :: c) = v.
Proof. cbn. now rewrite Nat.eqb_refl. Qed.

(** A run of one class at the head of the input. *)
Lemma rx_plus_class (p : jschar -> bool) s c k :
  rx (plus (RChar p)) s c k =
  match s with
  | [] => None
  | x :: s' =>
      if p x then star_loop (rx (RChar p)) true k (S (length s')) s' c
      else None
  end.
Proof. destruct s as [|x s']; reflexivity. Qed.

Lemma rx_plus_class_fails (p : jschar -> bool) (x : jschar) s :
  rx (plus (RChar p)) (x :: s) [] (fun s' c' => Some (s', c')) = None ->
  p x = false.
Proof.
  rewrite rx_plus_class. destruct (p x); [|reflexivity].
  intros H. now apply star_loop_total in H.
Qed.

(** The leftmost run of a class: nothing before it is in the class. *)
Lemma search_from_plus_before (p : jschar -> bool) :
  forall s pre m,
    search_from (plus (RChar p)) pre s = Some m ->
    exists b, m_before m = rev pre ++ b /\ Forall (fun x => p x = false) b.
Proof.
  induction s as [|x s IH]; intros pre m H; rewrite search_from_unfold in H.
  - rewrite rx_plus_class in H. discriminate.
  - destruct (rx (plus (RChar p)) (x :: s) [] _) as [[rest c]|] eqn:E.
    + injection H as <-. exists []. cbn [m_before]. now rewrite app_nil_r.
    + apply rx_plus_class_fails in E. apply IH in H as (b & -> & Hb).
      exists (x :: b). cbn [rev]. rewrite <- app_assoc. auto.
Qed.

Lemma search_from_plus_none (p : jschar -> bool) :
  forall s pre,
    search_from (plus (RChar p)) pre s = None ->
    Forall (fun x => p x = false) s.
Proof.
  induction s as [|x s IH]; intros pre H; [constructor|].
  rewrite search_from_unfold in H.
  destruct (rx (plus (RChar p)) (x :: s) [] _) as [[rest c]|] eqn:E;
    [discriminate|].
  apply rx_plus_class_fails in E. apply IH in H. auto.
Qed.

(** Replacing every run of a class: what is left is outside the class or
    comes from the replacement. *)
Lemma replace_all_class (p : jschar -> bool) (f : rmatch -> jsstring)
    (P : jschar -> Prop) :
  (forall x, p x = false -> P x) ->
  (forall m, Forall P (f m)) ->
  forall s, Forall P (replace_all (plus (RChar p)) f s).
Proof.
  intros Hp Hf s. unfold replace_all.
  assert (G : forall n s, (length s < n)%nat ->
                          Forall P (replace_all_fuel n (plus (RChar p)) f s));
    [|apply G; lia].
  clear s. induction n as [|n IH]; intros s Hl; [lia|].
  cbn [replace_all_fuel].
  destruct (search (plus (RChar p)) s) as [m|] eqn:E.
  - pose proof E as E'. apply search_sound in E' as (Es & Hs).
    apply plus_class_steps in Hs as (t & Et & Hn & _ & _).
    apply app_inv_tail in Et.
    unfold search in E. apply search_from_plus_before in E as (b & Eb & Hb).
    cbn [rev app] in Eb.
    apply Forall_app. split.
    { rewrite Eb. revert Hb. apply Forall_impl. exact Hp. }
    apply Forall_app. split; [apply Hf|].
    assert (L : (length (m_rest m) < n)%nat).
    { rewrite Es, !length_app in Hl. rewrite Et in Hl.
      destruct t; [congruence|]. cbn [length] in Hl. lia. }
    rewrite Et. destruct t; [congruence|]. now apply IH.
  - apply search_from_plus_none in E. revert E. apply Forall_impl. exact Hp.
Qed.

End MatcherFacts.

(* ================================================================= *)
(** ** Properties read off the patterns *)

Section PatternFacts.
Local Open Scope Z_scope.

Lemma parseInt_digits (l : jsstring) :
  Forall (fun x => is_digit x = true) l -> 0 <= Jstage.parseInt l.
Proof.
  unfold Jstage.parseInt.
  assert (G : forall acc, 0 <= acc ->
    Forall (fun x => is_digit x = true) l ->
    0 <= fold_left (fun acc c => 10 * acc + (Z.of_N c - 48)) l acc).
  { induction l as [|x l IH]; intros acc Ha H; cbn [fold_left]; [exact Ha|].
    inversion H as [|? ? Hx Hl]; subst. apply IH; [|exact Hl].
    unfold is_digit in Hx. apply andb_true_iff in Hx as [H1 _].
    apply N.leb_le in H1.
    assert (48 <= Z.of_N x) by (change 48 with (Z.of_N 48); now apply N2Z.inj_le).
    lia. }
  apply G. lia.
Qed.

Lemma extractTotalHits_nonneg (xml : jsstring) :
  0 <= Jstage.extractTotalHits xml.
Proof.
  unfold Jstage.extractTotalHits.
  destruct (search Jstage.totalResultsRegex xml) as [m|] eqn:E; [|lia].
  apply search_sound in E as (_ & H).
  unfold Jstage.totalResultsRegex in H.
  apply seq_steps in H as (s1 & c1 & H1 & H); [|discriminate].
  apply seq_steps in H as (s2 & c2 & H2 & H); [|discriminate].
  apply seq_steps in H as (s3 & c3 & H3 & H); [|discriminate].
  apply seq_steps in H as (s4 & c4 & H4 & H5); [|discriminate].
  apply seq_last in H5.
  apply lit_steps in H1 as (_ & ->).
  apply (@star_class_steps true _) in H2 as (_ & _ & _ & ->).
  destruct H3 as (x & -> & _ & ->).
  apply group_plus_class_steps in H4 as (d & -> & _ & Hd & ->).
  apply lit_steps in H5 as (_ & ->).
  rewrite group_head. now apply parseInt_digits.
Qed.

(** X14: the total J-STAGE reports is never negative. *)
Theorem X_total_results_not_negative
    (enc : jsstring -> completion jsstring) (stamp : nat -> jsstring)
    (w : world jsstring) (q : jsstring) (m : Z)
    (mat yf yt : option jsstring) (st : store) (out : Jstage.output) :
  out_value (Jstage.searchJstage enc stamp w q m mat yf yt st) = Return out ->
  0 <= Jstage.totalResults out.
Proof.
  rewrite searchJstage_unfold. cbv zeta. unfold jstage_after_gate.
  destruct (_ <? _);
    (destruct (fetch w _) as [r|e]; [|discriminate];
     destruct (ok r); [|discriminate];
     destruct (body r) as [xml|e]; [|discriminate];
     cbv zeta; cbn [out_value];
     destruct (out_value (Jstage.forEach _ _ _ _)); [|discriminate];
     intros [= <-]; apply extractTotalHits_nonneg).
Qed.

Lemma X_total_results_not_negative_witness :
  0 <= Jstage.totalResults
         {| Jstage.papers :=
              map Jstage.simplify (Jstage.parseJstageXML Samples.jstage_feed);
            Jstage.totalResults :=
              Jstage.extractTotalHits Samples.jstage_feed |}.
Proof.
  apply (@X_total_results_not_negative Samples.enc Samples.stamp
           (Samples.world_at 5400 6100
              (Return (Samples.ok_response Samples.jstage_feed)))
           (js "ocr") 10 None None None initial_store
           {| Jstage.papers :=
                map Jstage.simplify
                    (Jstage.parseJstageXML Samples.jstage_feed);
              Jstage.totalResults :=
                Jstage.extractTotalHits Samples.jstage_feed |}).
  vm_compute. reflexivity.
Defined.

(** [trim] only removes code units. *)
Lemma trim_start_incl (s : jsstring) (x : jschar) :
  In x (trim_start s) -> In x s.
Proof.
  induction s as [|c s IH]; cbn [trim_start]; [auto|].
  destruct (is_space c); [right; auto|auto].
Qed.

Lemma trim_incl (s : jsstring) (x : jschar) : In x (trim s) -> In x s.
Proof.
  unfold trim. intros H. apply in_rev in H. apply trim_start_incl in H.
  apply in_rev in H. now apply trim_start_incl in H.
Qed.

Lemma Forall_trim (P : jschar -> Prop) (s : jsstring) :
  Forall P s -> Forall P (trim s).
Proof.
  rewrite !Forall_forall. intros H x Hx. apply H. now apply trim_incl.
Qed.

Lemma dot_on_a_line (m : jsstring) :
  Forall (fun x => negb (is_line_terminator x) = true) m -> Forall on_a_line m.
Proof.
  apply Forall_impl. intros x H. unfold on_a_line.
  now destruct (is_line_terminator x).
Qed.

Lemma field_on_a_line (label section : jsstring) :
  Forall on_a_line (Conference.field label section).
Proof.
  unfold Conference.field.
  destruct (search (Conference.fieldRegex label) section) as [m|] eqn:E;
    [|constructor].
  apply search_sound in E as (_ & H). unfold Conference.fieldRegex in H.
  apply seq_steps in H as (s1 & c1 & H1 & H); [|discriminate].
  apply seq_steps in H as (s2 & c2 & H2 & H3); [|discriminate].
  apply seq_last in H3.
  apply lit_steps in H1 as (_ & ->).
  apply (@star_class_steps true _) in H2 as (_ & _ & _ & ->).
  apply group_plus_class_steps in H3 as (d & _ & _ & Hd & ->).
  rewrite group_head. apply Forall_trim. now apply dot_on_a_line.
Qed.

Lemma year_digits (g : jsstring) (y : rmatch) :
  search Conference.yearRegex g = Some y ->
  length (m_text y) = 4%nat /\ Forall (fun x => is_digit x = true) (m_text y).
Proof.
  intros E. apply search_sound in E as (_ & H).
  unfold Conference.yearRegex in H.
  apply seq_steps in H as (s1 & c1 & (a & Ea & Ha & _) & H); [|discriminate].
  apply seq_steps in H as (s2 & c2 & (b & -> & Hb & _) & H); [|discriminate].
  apply seq_steps in H as (s3 & c3 & (c & -> & Hc & _) & H); [|discriminate].
  apply seq_last in H. destruct H as (d & -> & Hd & _).
  change (m_text y ++ m_rest y = [a; b; c; d] ++ m_rest y) in Ea.
  apply app_inv_tail in Ea. rewrite Ea. split; [reflexivity|].
  repeat constructor; assumption.
Qed.

Lemma parseSection_ok (section : jsstring) (p : Conference.paper) :
  Conference.parseSection section = Some p -> extracted_ok p.
Proof.
  unfold Conference.parseSection, extracted_ok.
  destruct (search Conference.titleRegex section) as [m|] eqn:E;
    [|discriminate].
  intros [= <-].
  cbn [Conference.title Conference.authors Conference.conference
       Conference.abstract Conference.url Conference.year].
  repeat split; try apply field_on_a_line.
  - apply search_sound in E as (_ & H). unfold Conference.titleRegex in H.
    apply seq_steps in H as (s1 & c1 & H1 & H); [|discriminate].
    apply seq_steps in H as (s2 & c2 & H2 & H); [|discriminate].
    apply seq_steps in H as (s3 & c3 & H3 & H); [|discriminate].
    apply seq_steps in H as (s4 & c4 & H4 & H5); [|discriminate].
    apply seq_last in H5.
    apply lit_steps in H1 as (_ & ->).
    apply plus_class_steps in H2 as (_ & _ & _ & _ & ->).
    destruct H3 as (x & _ & _ & ->).
    apply (@star_class_steps true _) in H4 as (_ & _ & _ & ->).
    apply group_plus_class_steps in H5 as (d & _ & _ & Hd & ->).
    rewrite group_head. apply Forall_trim. now apply dot_on_a_line.
  - destruct (search (Conference.fieldRegex _) section) as [f|];
      [|left; reflexivity].
    destruct (search Conference.yearRegex _) as [y|] eqn:Y;
      [|left; reflexivity].
    right. exact (@year_digits _ _ Y).
Qed.

Lemma extractPapers_ok (text : jsstring) :
  Forall extracted_ok (Conference.extractPapers text).
Proof.
  unfold Conference.extractPapers. rewrite fold_push_some. cbn [app].
  apply Forall_forall. intros p Hp.
  apply in_flat_map in Hp as (section & _ & Hp). unfold keep in Hp.
  destruct (Conference.parseSection section) as [p'|] eqn:E; [|destruct Hp].
  destruct Hp as [<-|[]]. now apply parseSection_ok in E.
Qed.

(** X15: every field of a paper the conference search returns is a
    single line, and its year is empty or made of four digits. *)
Theorem X_conference_papers_are_well_formed (w : Conference.genWorld)
    (q : jsstring) (sid : Z) (st : store) (out : Conference.output) :
  out_value (Conference.execute w q sid st) = Return out ->
  Forall extracted_ok (Conference.o_papers out).
Proof.
  intros H.
  apply (f_equal (fun c => match c with
                           | Return o => Conference.o_papers o
                           | Throw _ => []
                           end)) in H.
  rewrite <- H, conference_execute_unfold, searchTopConferences_unfold.
  cbv zeta.
  destruct (out_value (Conference.getGenAIClient w st)); cbn [out_value];
    cbn [Conference.o_papers]; [|constructor].
  destruct (Conference.generateContent w _); [|constructor].
  apply extractPapers_ok.
Qed.

Lemma X_conference_papers_are_well_formed_witness :
  Forall extracted_ok
         (Conference.o_papers
            {| Conference.o_searchId := 7;
               Conference.o_query := js "attention";
               Conference.o_content := full_report;
               Conference.o_citations := [];
               Conference.o_papers :=
                 [{| Conference.title := js "Sparse attention";
                     Conference.authors := js "A. Author, B. Author";
                     Conference.conference := js "ICML 2024";
                     Conference.year := js "2024";
                     Conference.abstract := js "We study sparsity.";
                     Conference.url := js "https://icml.cc/1" |}];
               Conference.success := true;
               Conference.error := None |}).
Proof.
  apply (@X_conference_papers_are_well_formed
           (Samples.gen_world (Return (Samples.gen_response full_report)))
           (js "attention") 7 initial_store).
  vm_compute. reflexivity.
Defined.

(** X16: every paper arXiv returns has a non-empty title and a
    non-empty identifier. *)
Theorem X_arxiv_papers_are_identified
    (toISO : jsstring -> option jsstring) (w : world jsstring)
    (q : jsstring) (m : Z) (s : Arxiv.sortOrder) (st : store)
    (out : Arxiv.output) :
  out_value (Arxiv.searchArxiv toISO w q m s st) = Return out ->
  Forall (fun p => Arxiv.sp_title p <> [] /\ Arxiv.arxivId p <> [])
         (Arxiv.papers out).
Proof.
  rewrite searchArxiv_unfold. cbv zeta.
  destruct (_ <? _); [discriminate|].
  destruct (fetch w _) as [r|e]; [|discriminate].
  destruct (ok r); [|discriminate].
  destruct (body r) as [xml|e]; [|discriminate].
  cbn [out_value]. intros [= <-]. cbn [Arxiv.papers].
  apply Forall_forall. intros p Hp.
  apply in_map_iff in Hp as (x & <- & Hx).
  unfold Arxiv.simplify. cbn [Arxiv.sp_title Arxiv.arxivId].
  rewrite fold_parseArxivXML in Hx. apply in_flat_map in Hx as (e & _ & He).
  unfold keep in He.
  destruct (Arxiv.parseEntry toISO e) as [p|] eqn:E; [|destruct He].
  destruct He as [<-|[]].
  unfold Arxiv.parseEntry in E. cbv zeta in E.
  destruct (is_empty (Arxiv.extractText e (js "id"))) eqn:E1;
    [discriminate|].
  destruct (is_empty (Arxiv.extractText e (js "title"))) eqn:E2;
    [discriminate|].
  cbn [orb] in E. injection E as <-. cbn [Arxiv.title Arxiv.id].
  split; [now apply is_empty_false|].
  destruct (search Arxiv.arxivIdRegex _) as [mi|] eqn:S;
    [|now apply is_empty_false].
  apply search_sound in S as (_ & H). unfold Arxiv.arxivIdRegex in H.
  apply seq_steps in H as (s1 & c1 & H1 & H); [|discriminate].
  apply seq_steps in H as (s2 & c2 & H2 & H3); [|discriminate].
  apply seq_last in H3.
  apply lit_steps in H1 as (_ & ->).
  apply group_plus_class_steps in H2 as (d & _ & Hn & _ & ->).
  destruct H3 as (_ & _ & ->). now rewrite group_head.
Qed.

Lemma X_arxiv_papers_are_identified_witness :
  Forall (fun p => Arxiv.sp_title p <> [] /\ Arxiv.arxivId p <> [])
         (map Arxiv.simplify
              (Arxiv.parseArxivXML Samples.iso Samples.atom_feed)).
Proof.
  apply (@X_arxiv_papers_are_identified Samples.iso
           (Samples.world_at 140000 140000
              (Return (Samples.ok_response Samples.atom_feed)))
           (js "attention") 5 Arxiv.relevance Samples.after_arxiv_call
           {| Arxiv.papers :=
                map Arxiv.simplify
                    (Arxiv.parseArxivXML Samples.iso Samples.atom_feed) |}).
  vm_compute. reflexivity.
Defined.

Lemma clean_plain (m : rmatch) : Forall plain (Arxiv.clean m).
Proof.
  unfold Arxiv.clean, Arxiv.spaces, space. apply replace_all_class.
  - intros x H E. congruence.
  - intros _. repeat constructor.
Qed.

Lemma extractText_plain (e tag : jsstring) :
  Forall plain (Arxiv.extractText e tag).
Proof.
  unfold Arxiv.extractText. destruct (search _ e); [|constructor].
  apply clean_plain.
Qed.

(** X17: the titles and abstracts arXiv returns are normalised: they
    hold no line break, tab or other white space than U+0020. *)
Theorem X_arxiv_text_is_normalised
    (toISO : jsstring -> option jsstring) (w : world jsstring)
    (q : jsstring) (m : Z) (s : Arxiv.sortOrder) (st : store)
    (out : Arxiv.output) :
  out_value (Arxiv.searchArxiv toISO w q m s st) = Return out ->
  Forall (fun p => Forall plain (Arxiv.sp_title p)
                   /\ Forall plain (Arxiv.sp_abstract p))
         (Arxiv.papers out).
Proof.
  rewrite searchArxiv_unfold. cbv zeta.
  destruct (_ <? _); [discriminate|].
  destruct (fetch w _) as [r|e]; [|discriminate].
  destruct (ok r); [|discriminate].
  destruct (body r) as [xml|e]; [|discriminate].
  cbn [out_value]. intros [= <-]. cbn [Arxiv.papers].
  apply Forall_forall. intros p Hp.
  apply in_map_iff in Hp as (x & <- & Hx).
  unfold Arxiv.simplify. cbn [Arxiv.sp_title Arxiv.sp_abstract].
  rewrite fold_parseArxivXML in Hx. apply in_flat_map in Hx as (e & _ & He).
  unfold keep in He.
  destruct (Arxiv.parseEntry toISO e) as [p|] eqn:E; [|destruct He].
  destruct He as [<-|[]].
  unfold Arxiv.parseEntry in E. cbv zeta in E.
  destruct (_ || _); [discriminate|].
  injection E as <-. cbn [Arxiv.title Arxiv.abstract].
  split; apply extractText_plain.
Qed.

Lemma X_arxiv_text_is_normalised_witness :
  Forall (fun p => Forall plain (Arxiv.sp_title p)
                   /\ Forall plain (Arxiv.sp_abstract p))
         (map Arxiv.simplify
              (Arxiv.parseArxivXML Samples.iso Samples.atom_feed)).
Proof.
  apply (@X_arxiv_text_is_normalised Samples.iso
           (Samples.world_at 140000 140000
              (Return (Samples.ok_response Samples.atom_feed)))
           (js "attention") 5 Arxiv.relevance Samples.after_arxiv_call
           {| Arxiv.papers :=
                map Arxiv.simplify
                    (Arxiv.parseArxivXML Samples.iso Samples.atom_feed) |}).
  vm_compute. reflexivity.
Defined.

(** X18: a paper J-STAGE returns always carries a title. *)
Theorem X_jstage_papers_are_titled
    (enc : jsstring -> completion jsstring) (stamp : nat -> jsstring)
    (w : world jsstring) (q : jsstring) (m : Z)
    (mat yf yt : option jsstring) (st : store) (out : Jstage.output) :
  out_value (Jstage.searchJstage enc stamp w q m mat yf yt st) = Return out ->
  Forall (fun p => Jstage.sp_title p <> []) (Jstage.papers out).
Proof.
  assert (G : forall xml,
    Forall (fun p => Jstage.sp_title p <> [])
           (map Jstage.simplify (Jstage.parseJstageXML xml))).
  { intros xml. rewrite fold_parseJstageXML. apply Forall_forall.
    intros p Hp. apply in_map_iff in Hp as (x & <- & Hx).
    apply in_map_iff in Hx as (item & <- & _).
    unfold Jstage.simplify, Jstage.parseItem.
    cbn [Jstage.sp_title Jstage.title].
    apply or_else_nonempty. discriminate. }
  rewrite searchJstage_unfold. cbv zeta. unfold jstage_after_gate.
  destruct (_ <? _);
    (destruct (fetch w _) as [r|e]; [|discriminate];
     destruct (ok r); [|discriminate];
     destruct (body r) as [xml|e]; [|discriminate];
     cbv zeta; cbn [out_value];
     destruct (out_value (Jstage.forEach _ _ _ _)); [|discriminate];
     intros [= <-]; apply G).
Qed.

Lemma X_jstage_papers_are_titled_witness :
  Forall (fun p => Jstage.sp_title p <> [])
         (Jstage.papers
            {| Jstage.papers :=
                 map Jstage.simplify
                     (Jstage.parseJstageXML Samples.jstage_feed);
               Jstage.totalResults :=
                 Jstage.extractTotalHits Samples.jstage_feed |}).
Proof.
  apply (@X_jstage_papers_are_titled Samples.enc Samples.stamp
           (Samples.world_at 5400 6100
              (Return (Samples.ok_response Samples.jstage_feed)))
           (js "ocr") 10 None None None initial_store).
  vm_compute. reflexivity.
Defined.

End PatternFacts.

(* ================================================================= *)
(** ** The Brave web search *)

Section BraveFacts.
Import Brave.
Local Open Scope Z_scope.

Lemma searchWithBraveAPI_unfold w q st :
  searchWithBraveAPI w q st =
  match brave_key w with
  | None =>
      {| out_store := st; out_trace := [];
         out_value :=
           Throw (JsError (prefix ++ js "Brave Search API key not found. Please set BRAVE_SEARCH_API_KEY environment variable.")) |}
  | Some k =>
      let req := build_request k q in
      {| out_store := st; out_trace := [Fetch req];
         out_value :=
           match brave_fetch w req with
           | Throw e => Throw (JsError (prefix ++ message_of e))
           | Return r =>
               if h_ok r then
                 match h_json r with
                 | Throw e => Throw (JsError (prefix ++ message_of e))
                 | Return d =>
                     match query d with
                     | Val qp =>
                         Return
                           {| s_results :=
                                match web d with
                                | Val wp => arr_or (web_results wp) []
                                | _ => []
                                end;
                              s_totalResults :=
                                match web d with
                                | Val wp => total_count wp
                                | _ => Undefined
                                end;
                              s_query := original qp |}
                     | _ => Throw (JsError (prefix ++ typeError w))
                     end
                 end
               else
                 match h_text r with
                 | Throw e => Throw (JsError (prefix ++ message_of e))
                 | Return t =>
                     Throw (JsError (prefix ++ prefix
                                     ++ toString (h_status r) ++ js " - " ++ t))
                 end
           end |}
  end.
Proof.
  unfold searchWithBraveAPI, brave_key.
  destruct (BRAVE_SEARCH_API_KEY w) as [| |k]; run_m; try reflexivity.
  destruct (is_empty k); run_m; [reflexivity|].
  cbv zeta.
  destruct (brave_fetch w _) as [r|e]; run_m; [|reflexivity].
  destruct (h_ok r); run_m.
  - destruct (h_json r) as [d|e]; run_m; [|reflexivity].
    destruct (query d); run_m; reflexivity.
  - destruct (h_text r) as [t|e]; run_m; reflexivity.
Qed.

Lemma execute_unfold w q m st :
  execute w q m st =
  let o := searchWithBraveAPI w q st in
  {| out_store := st; out_trace := out_trace o;
     out_value :=
       Return
         match out_value o with
         | Throw _ => brave_empty w q
         | Return r =>
             match map_c (format (typeError w)) (slice_to m (s_results r)) with
             | Throw _ => brave_empty w q
             | Return l =>
                 {| results := l; searchQuery := s_query r;
                    timestamp := currentDateTime w |}
             end
         end |}.
Proof.
  assert (S : out_store (searchWithBraveAPI w q st) = st).
  { rewrite searchWithBraveAPI_unfold. destruct (brave_key w); reflexivity. }
  unfold execute, brave_empty. cbv zeta. run_m.
  destruct (searchWithBraveAPI w q st) as [s t [r|e]];
    cbn [out_store] in S; subst s; run_m.
  - destruct (map_c _ _); run_m; now rewrite ?app_nil_r.
  - now rewrite app_nil_r.
Qed.

Lemma length_slice_to {A} (n : Z) (l : list A) :
  0 <= n -> (length (slice_to n l) <= Z.to_nat n)%nat.
Proof.
  intros H. unfold slice_to. destruct (n <? 0) eqn:E; [lia|].
  rewrite length_firstn. lia.
Qed.

Lemma length_map_c {A B} (f : A -> completion B) (l : list A) (r : list B) :
  map_c f l = Return r -> length r = length l.
Proof.
  revert r. induction l as [|x l IH]; intros r H; cbn [map_c] in H.
  - now injection H as <-.
  - destruct (f x); [|discriminate].
    destruct (map_c f l); [|discriminate].
    injection H as <-. cbn [length]. f_equal. now apply IH.
Qed.

Lemma map_c_objects (te : jsstring) (objs : list BraveSearchResult) :
  map_c (format te) (map Val objs) = Return (map shape objs).
Proof.
  induction objs as [|x l IH]; [reflexivity|].
  cbn [map map_c format]. now rewrite IH.
Qed.

Lemma slice_to_objects {A B} (f : A -> B) (n : Z) (l : list A) :
  slice_to n (map f l) = map f (slice_to n l).
Proof.
  unfold slice_to. rewrite length_map. destruct (n <? 0); apply firstn_map.
Qed.

(** X19: the Brave search never throws and leaves the module state
    alone: it always returns, stamped with the time read at its start,
    and when the search behind it fails in any way the answer is the
    empty one, with the query as it was asked. *)
Theorem X_brave_never_throws (w : braveWorld) (q : jsstring) (m : Z)
    (st : store) :
  exists out,
    out_value (execute w q m st) = Return out
    /\ out_store (execute w q m st) = st
    /\ timestamp out = currentDateTime w
    /\ (is_throw (out_value (searchWithBraveAPI w q st)) = true ->
        out = brave_empty w q).
Proof.
  rewrite execute_unfold. cbv zeta. cbn [out_value out_store].
  eexists. split; [reflexivity|]. split; [reflexivity|]. split.
  - destruct (out_value (searchWithBraveAPI w q st)); [|reflexivity].
    destruct (map_c _ _); reflexivity.
  - destruct (out_value (searchWithBraveAPI w q st)); [discriminate|].
    reflexivity.
Qed.

(** X20: without an API key the Brave search sends nothing and answers
    with the empty result; with one it sends exactly one request, which
    carries the query, the key as subscription token, and always asks
    for ten results, whatever [maxResults] is. *)
Theorem X_brave_request (w : braveWorld) (q : jsstring) (m : Z)
    (st : store) :
  match brave_key w with
  | None =>
      sent (execute w q m st) = []
      /\ out_value (execute w q m st) = Return (brave_empty w q)
  | Some k =>
      exists req,
        sent (execute w q m st) = [req]
        /\ param (js "q") (req_params req) = Some q
        /\ param (js "count") (req_params req) = Some (js "10")
        /\ param (js "X-Subscription-Token") (req_headers req) = Some k
  end.
Proof.
  rewrite execute_unfold, searchWithBraveAPI_unfold. cbv zeta. unfold sent.
  destruct (brave_key w) as [k|]; cbn [out_trace out_value flat_map app].
  - eexists. split; [reflexivity|]. unfold build_request.
    cbn [req_params req_headers]. repeat split.
  - split; reflexivity.
Qed.

(** X21: the Brave search returns at most [maxResults] results. *)
Theorem X_brave_at_most_max_results (w : braveWorld) (q : jsstring)
    (m : Z) (st : store) (out : output) :
  0 <= m ->
  out_value (execute w q m st) = Return out ->
  Z.of_nat (length (results out)) <= m.
Proof.
  intros Hm. rewrite execute_unfold. cbv zeta. cbn [out_value].
  intros [= <-].
  destruct (out_value (searchWithBraveAPI w q st)) as [r|e];
    [|cbn; lia].
  destruct (map_c _ _) as [l|e] eqn:E; [|cbn; lia].
  cbn [results]. apply length_map_c in E. rewrite E.
  pose proof (length_slice_to (s_results r) Hm). lia.
Qed.

Lemma X_brave_at_most_max_results_witness :
  Z.of_nat (length (map shape (firstn 2 BraveSamples.hits))) <= 2.
Proof.
  apply (@X_brave_at_most_max_results
           (BraveSamples.brave_world (Val (js "key"))
              (Return (BraveSamples.answer BraveSamples.found)))
           (js "sparse attention") 2 initial_store
           {| results := map shape (firstn 2 BraveSamples.hits);
              searchQuery := Val (js "sparse attention");
              timestamp := js "2025/6/1 10:00" |}).
  - lia.
  - vm_compute. reflexivity.
Defined.

(** X22: on an answer of the Brave API the results are the first
    [maxResults] of the answer, in its order, reduced to title, link and
    description, and the query reported is the one the API echoes, not
    the one that was asked. *)
Theorem X_brave_success (w : braveWorld) (q k : jsstring) (m : Z)
    (st : store) (d : payload) (wp : webPart) (qp : queryPart)
    (objs : list BraveSearchResult) :
  brave_key w = Some k ->
  brave_answers w (build_request k q) d ->
  web d = Val wp ->
  web_results wp = Val (map Val objs) ->
  query d = Val qp ->
  0 <= m ->
  out_value (execute w q m st)
  = Return {| results := map shape (firstn (Z.to_nat m) objs);
              searchQuery := original qp;
              timestamp := currentDateTime w |}.
Proof.
  intros Hk (r & Hf & Ho & Hj) Hw Hr Hq Hm.
  rewrite execute_unfold, searchWithBraveAPI_unfold. cbv zeta.
  rewrite Hk. cbv zeta. cbn [out_value]. rewrite Hf, Ho, Hj, Hq, Hw, Hr.
  cbn [arr_or s_results s_query].
  rewrite slice_to_objects, map_c_objects. unfold slice_to.
  destruct (m <? 0) eqn:E; [lia|]. reflexivity.
Qed.

Lemma X_brave_success_witness :
  out_value (execute (BraveSamples.brave_world (Val (js "key"))
                        (Return (BraveSamples.answer BraveSamples.found)))
                     (js "attention") 2 initial_store)
  = Return {| results :=
                map shape (firstn (Z.to_nat 2) BraveSamples.hits);
              searchQuery := Val (js "sparse attention");
              timestamp := js "2025/6/1 10:00" |}.
Proof.
  apply (@X_brave_success
           (BraveSamples.brave_world (Val (js "key"))
              (Return (BraveSamples.answer BraveSamples.found)))
           (js "attention") (js "key") 2 initial_store BraveSamples.found
           {| web_results := Val (map Val BraveSamples.hits);
              total_count := Val 3 |}
           {| original := Val (js "sparse attention") |}
           BraveSamples.hits).
  - vm_compute. reflexivity.
  - eexists. repeat split.
  - reflexivity.
  - reflexivity.
  - reflexivity.
  - lia.
Defined.

(** X23: whatever [searchWithBraveAPI] throws is an Error object whose
    message begins with the prefix of the tool; an error status of the
    API is reported with the prefix twice, followed by the status and
    the body. *)
Theorem X_brave_error_message (w : braveWorld) (q : jsstring) (st : store)
    (e : thrown) :
  out_value (searchWithBraveAPI w q st) = Throw e ->
  (exists msg, e = JsError (prefix ++ msg))
  /\ (forall k r t,
        brave_key w = Some k ->
        brave_fetch w (build_request k q) = Return r ->
        h_ok r = false -> h_text r = Return t ->
        e = JsError (prefix ++ prefix ++ toString (h_status r)
                     ++ js " - " ++ t)).
Proof.
  rewrite searchWithBraveAPI_unfold. cbv zeta. intros H. split.
  - destruct (brave_key w) as [k|]; cbn [out_value] in H.
    + destruct (brave_fetch w _) as [r|e0];
        [|injection H as <-; eexists; reflexivity].
      destruct (h_ok r).
      * destruct (h_json r) as [d|e0]; [|injection H as <-; eexists; reflexivity].
        destruct (query d); try discriminate; injection H as <-; eexists; reflexivity.
      * destruct (h_text r); injection H as <-; eexists; reflexivity.
    + injection H as <-. eexists. reflexivity.
  - intros k r t Hk Hf Ho Ht. rewrite Hk in H. cbn [out_value] in H.
    rewrite Hf, Ho, Ht in H. now injection H as <-.
Qed.

Lemma X_brave_error_message_witness :
  (exists msg,
      JsError (prefix ++ prefix ++ js "429 - rate limited")
      = JsError (prefix ++ msg))
  /\ (forall k r t,
        brave_key (BraveSamples.brave_world (Val (js "key"))
                     (Return BraveSamples.refusal)) = Some k ->
        brave_fetch (BraveSamples.brave_world (Val (js "key"))
                       (Return BraveSamples.refusal))
                    (build_request k (js "attention")) = Return r ->
        h_ok r = false -> h_text r = Return t ->
        JsError (prefix ++ prefix ++ js "429 - rate limited")
        = JsError (prefix ++ prefix ++ toString (h_status r)
                   ++ js " - " ++ t)).
Proof.
  apply (@X_brave_error_message
           (BraveSamples.brave_world (Val (js "key"))
              (Return BraveSamples.refusal))
           (js "attention") initial_store
           (JsError (prefix ++ prefix ++ js "429 - rate limited"))).
  vm_compute. reflexivity.
Defined.

End BraveFacts.

(* ================================================================= *)
(** ** Independence of the tools *)

Section Independence.
Local Open Scope Z_scope.

(** X24: the tools keep to their own state: a call never moves the
    cooldown of another tool, and only the conference search touches its
    client; CORE changes nothing at all. *)
Theorem X_tools_keep_to_their_own_state (c : Session.call) (st : store) :
  own_state_only (Session.source_of c) st (out_store (Session.invoke c st))
  /\ (Session.source_of c = Session.SrcCore ->
      out_store (Session.invoke c st) = st).
Proof.
  unfold own_state_only.
  destruct c as [iso w q m s | w q m | enc stamp w q m mat yf yt
                | w k y q m yf yt lf dt | w q sid];
    cbn [Session.invoke Session.source_of Session.source_eqb]; unfold bind;
    (split; [|try discriminate]).
  - rewrite searchArxiv_unfold. cbv zeta.
    destruct (_ <? _); [cbn; auto|].
    destruct (fetch w _) as [r|e];
      [destruct (ok r); [destruct (body r) as [xml|e]|]|];
      cbn; auto.
  - rewrite searchSemanticScholar_unfold. cbv zeta. unfold s2_after_gate.
    destruct (_ <? _);
      (destruct (fetch w _) as [r|e];
       [destruct (ok r); [destruct (body r) as [d|e]|]|];
       cbn; auto).
  - rewrite searchJstage_unfold. cbv zeta. unfold jstage_after_gate.
    assert (G : forall l,
      let st' := out_store (Jstage.forEach (Jstage.collect enc stamp) 0 l
                              (set_lastJstageCall (Date_now w 1) st)) in
      lastArxivCall st' = lastArxivCall st
      /\ lastSemanticScholarCall st' = lastSemanticScholarCall st
      /\ genai st' = genai st).
    { intros l. cbv zeta.
      destruct (forEach_collect enc stamp l 0
                  (set_lastJstageCall (Date_now w 1) st)) as (_ & new & E & _).
      cbv zeta in E. rewrite E. cbn. auto. }
    destruct (_ <? _);
      (destruct (fetch w _) as [r|e];
       [destruct (ok r); [destruct (body r) as [xml|e]|]|];
       cbv zeta; cbn [out_store];
       try (cbn; tauto);
       destruct (G (Jstage.parseJstageXML xml)) as (A & S2 & C);
       cbv zeta in A, S2, C;
       destruct (out_value (Jstage.forEach _ _ _ _));
       cbn [out_store]; tauto).
  - rewrite core_execute_unfold. cbn. auto.
  - intros _. now rewrite core_execute_unfold.
  - rewrite conference_execute_unfold, searchTopConferences_unfold. cbv zeta.
    unfold Conference.getGenAIClient. run_m.
    destruct (genai st); run_m; [cbn; auto|].
    destruct (is_empty _); run_m; cbn; auto.
Qed.

Lemma X_tools_keep_to_their_own_state_witness :
  lastArxivCall
    (out_store
       (Session.invoke
          (Session.CallSemanticScholar
             (Samples.world_at 5000 5100
                (Return (Samples.ok_response
                   (Samples.s2_payload [Samples.titled]))))
             (js "graphs") 10)
          Samples.after_arxiv_call))
  = lastArxivCall Samples.after_arxiv_call.
Proof.
  apply (proj1 (proj1 (X_tools_keep_to_their_own_state
    (Session.CallSemanticScholar
       (Samples.world_at 5000 5100
          (Return (Samples.ok_response (Samples.s2_payload [Samples.titled]))))
       (js "graphs") 10)
    Samples.after_arxiv_call))).
Defined.

End Independence.
